(* ===== verification/_CoqProject ===== *)
-Q . S2P
Prelude.v
Regex.v
JsValue.v
Schema.v
Dates.v
Wire.v
Utils.v
Store.v
Redirect.v
Admin.v
Server.v
Dashboard.v
StatsPage.v
DashboardView.v
Layout.v
Contract.v
Liveness.v
Session.v
Routing.v
