(* ===== verification/Prelude.v ===== *)
(** * TinyLink: a verification development of the URL shortener

    TinyLink is a Next.js application.  Its server side is three route
    handlers over a Prisma [Link] table.
    - [GET /{code}] ([src/app/[code]/route.ts]) redirects a short code to
      its target and counts the click.
    - [/api/links] ([src/app/api/links/route.ts]) creates a link ([POST],
      with a custom code or a random one from [src/lib/utils.ts]) and lists
      the links ([GET]).
    - [/api/links/{code}] ([src/app/api/links/[code]/route.ts]) reads and
      deletes one link.
    Its client side is two React pages that call this API: the dashboard
    ([src/app/page.tsx]) and the statistics page of one link
    ([src/app/code/[code]/page.tsx]).  The handlers share no memory; the
    Link table is the only shared state, and the requests of different
    clients interleave at every [await].

    ** Files, in dependency order
    - [Prelude] (this file): the effect programs [prog] that every [async]
      handler becomes (a tree of awaited effects with [bind], [catch] and
      the [await] notation of [tl_scope]), their sequential execution
      [run] with its rewrite laws (database [tl_run]), the judgements
      [prog_all] on the answers of a program and [prog_safe] on the
      effects it issues, and lemmas on strings shared by the components.
    - [Regex]: the ECMAScript matcher for the regex fragment of
      [isValidCode], proved sound and complete for a declarative semantics.
    - [JsValue]: the values of a JSON body: truthiness, [ToString] and the
      destructuring [const { targetUrl, code } = body].
    - [Schema]: the [Link] record, the effects a handler awaits (the Prisma
      queries, [Math.random()], [new Date()]), errors and responses.
    - [Dates] (module [Dates]): the platform's [Date] where the code meets
      it: [toISOString], which [JSON.stringify] applies to every date the
      API sends, and the Date Time String Format that [new Date(s)] of the
      pages parses (proleptic Gregorian calendar, six-digit signed years,
      [TimeClip]).
    - [Wire] (module [Wire]): the JSON of every body the handlers send, the
      pages' reading of a link object, and JSON types [jtype] for the
      pages' [interface Link].
    - [Utils] (module [Utils]): [generateRandomCode], [isValidCode] and
      [isValidUrl] of [src/lib/utils.ts].  [UrlParser] is the interface of
      the platform's URL parser; [Utils.Whatwg] is an approximate instance
      used for concrete runs.
    - [Store] (module [Store]): the table as a [World] and the semantics
      [perform] of each query.  The typeclasses [LinkStore] and
      [LinkStoreLaws] are the contract between the handlers and the
      database: an abstract specification [op_spec] of every effect.
      [World] implements it ([perform_refines]) and keeps the invariant
      [wf] ([perform_wf]).  [reads_only] marks the handlers that only read
      the table.
    - [Redirect] (module [Redirect]): [GET] of [src/app/[code]/route.ts]
      and its reference function [redirect_ref].
    - [Admin] (module [Admin]): [POST] and [GET_list] of
      [api/links/route.ts], and [GET_one] and [DELETE] of
      [api/links/[code]/route.ts].  [post_effect] is what [POST] does to
      the table on every path ([POST_table]).
    - [Server] (module [Server]): the interleaving semantics [step] of
      concurrent requests, clock ticks and database outages, and explicit
      schedules [exec_sched].
    - [Dashboard] (module [Dashboard]): the state hooks of [page.tsx] and
      every handler, each as the list of [setX] calls it makes, split at
      its [await fetch].
    - [StatsPage] (module [StatsPage]): the hooks, the fetch, the choice
      of view and the content of each view ([page_elements]) of
      [code/[code]/page.tsx].
    - [DashboardView] (module [DashboardView]): the decisions of the JSX
      of [page.tsx]: disabled inputs and button, banners, the list or its
      empty-state message, the actions of a row, the footer year.
    - [Layout] (module [Layout]): the metadata and the [<html>]/[<body>]
      wrapping of [layout.tsx].
    - [Contract] (module [Contract]): what each page expects of each
      answer, route by route and status by status, against what the
      handlers send.
    - [Liveness] (module [Liveness]): the number of awaits of each handler
      and the answer of a thread under every schedule.
    - [Session] (module [Session]): the dashboard tab over its lifetime
      against the server: the mount effect with its interval and cleanup,
      the inputs, buttons and timers, and the requests in flight, each
      served by the real handlers and answered to the closure that sent
      it, in any order.
    - [Routing] (module [Routing]): the App Router's dispatch of a path
      over the folders of [src/app] ([route], [resolve]), the browser's
      path of an absolute URL ([url_path]), and the paths the pages write:
      their [fetch] URLs, the stats link and the copied short URL.

    ** What is proved
    - Handlers against the contract.  Each theorem is stated for every
      store that satisfies [LinkStoreLaws].  [GET /{code}] behaves as
      [redirect_ref], including 404, 500 and click-counter overflow.
      [GET]/[DELETE /api/links/{code}] behave as [get_one_ref] and
      [delete_ref].  [GET /api/links] returns the table newest first.
      [POST] validates its input, answers 409 for a taken code and
      creates a fresh valid code otherwise.
    - The invariant of the table holds in every state reachable by
      interleaved requests ([Server.reachable_wf]).  What the handlers
      store is kept too: a judgement [prog_safe] on each handler's
      effects shows that every stored code passes [isValidCode] and every
      stored target passes [isValidUrl] in every reachable state, so a
      redirect to any stored link answers 302 ([Routing.reachable_redirects]).
    - The spec's testable properties (section 8): two creations with one
      code answer 201 then 409 ([Admin.POST_same_code_twice]); a deleted
      code answers 404 ([Admin.DELETE_then_GET_one]).
    - Code generation.  [isValidCode] is exactly "6 to 8 ASCII
      alphanumerics".  A generated code has the requested length, passes
      the check, and can be any code of the alphabet.
    - Client pages.  The search filter, [fetchLinks], deletion, and link
      creation end to end: the dashboard's request, the server's answer
      and the resulting state.  The statistics page shows the stored link.
      The submit button is enabled exactly when a request would be sent.
    - The wire between them.  Every date in the range of [Date] survives
      [toISOString] and [new Date] ([Dates.iso_roundtrip]); the pages read
      back every link the API sends ([Wire.read_link_json]); every JSON
      answer of every route has the type the page expects for its status
      ([Contract.responses_typed]).
    - The dashboard against the server over a session.  When each request
      is answered before the next is sent, the dashboard lists the table
      whenever it believes the database connected
      ([Session.seq_dashboard_shows_table]); once unmounted it sends no
      more requests ([Session.unmounted_sends_nothing]).
    - Routing.  For every valid code the pages' paths reach the route of
      the spec's HTTP table ([Routing.app_routes]); in every reachable
      state of the server every stored code is valid, so every stored
      link is reachable through its routes ([Routing.reachable_codes_routed]);
      a copied short URL, followed, redirects to the target and counts
      the click ([Routing.copied_link_redirects]).
    - Liveness.  A redirect, listing, lookup or deletion answers once the
      schedule has given its thread 3, 1, 1 or 2 steps, however the other
      requests interleave ([Liveness.handler_answers]); [POST] answers
      within [7 + 7 * fuel] awaits or runs out of fuel.
    - Findings.  Each is stated as a theorem.
      - Under interleaving, the read-then-write of the click counter loses
        clicks and can even decrease the counter.
      - Two concurrent creations of one code answer 500, not 409.
      - The [Location] header is the parser's serialisation, not the
        stored string.
      - A non-string [code] is accepted by validation and then fails
        with 500.
      - An untrimmed custom code from the dashboard is rejected with 400.
      - The statistics page ignores [NEXT_PUBLIC_BASE_URL] because of the
        operator precedence on its line 100.
      - The statistics page shows an unavailable database as "Link not
        found".
      - A deletion that overlaps a creation makes the dashboard drop the
        created link: both handlers write back the [links] they closed
        over ([Session.overlapping_delete_loses_link]).
      - [isValidUrl] accepts host-less URLs such as [javascript:...], and
        the statistics page renders the stored target as an [href]
        ([StatsPage.stats_links_any_scheme]).

    ** Bounds and fuel
    - [clicks] is a Prisma [Int], so a 32-bit signed column; an update
      outside [int4_min, int4_max] is rejected as the database rejects it.
    - [Math.random()] returns [k / 2^53] with [0 <= k < 2^53].  The random
      index is the floor of the exact product [k * 62 / 2^53].  The source
      floors the rounded double product, which can round up to the next
      integer when the exact product lies within half an ulp below it.
      This shifts the boundary between two neighbouring indices by at
      most one draw value; the largest [k] still gives index 61.
    - The [while] loop of [POST] has no bound in the source.  The model
      runs it with an explicit [fuel] and ends in [Diverged] when the fuel
      runs out.  Every theorem on [POST] holds for every fuel.  One fuel
      suffices whenever no stored code has 6 characters
      ([Admin.POST_generated_terminates]).
    - Schedules of [Server] are finite lists of thread indices.  The
      invariant theorem holds for every reachable state, whatever the
      schedule.
    - Time values are integers of milliseconds, clipped to
      [|t| <= 8.64e15] as ECMAScript's [TimeClip] does.  The calendar
      conversion of [Dates] is checked exhaustively over one 400-year era
      (146097 days) by [vm_compute]; every other day reduces to one of the
      era by the era arithmetic.  The kernel re-checks that computation,
      which is the slowest part of the development (a few minutes).

    ** Not modelled
    - Styling, animation and hover handlers of the JSX; what is rendered
      is modelled as the decisions [DashboardView] makes and the content
      [StatsPage.page_elements] lists.  Locale formatting
      ([toLocaleDateString], [toLocaleString]) is kept abstract: the
      model holds the time value or number the page formats.  The
      stylesheet [globals.css].
    - Time in [Session]: timers and the interval are events that may
      fire at any point, not at their delays; a request is served by its
      handler in one step ([Server] interleaves handlers at their
      awaits).
    - The Prisma engine's connection pool, and the formats other than
      the Date Time String Format that [Date.parse] accepts in an
      implementation-specific way.
    - Floating-point JSON numbers, and non-ASCII text in [trim] and
      [toLowerCase].
    - The WHATWG URL parser except through the [UrlParser] interface:
      [Utils.Whatwg] covers the shapes the concrete runs use
      (scheme, host case, default path), not the full standard.  The
      code only calls [new URL(s)] and [String(...)] of the result, and
      every theorem holds for every parser behind the interface, so a
      full parser would add platform code, not code of this repository.
      For the same reason [Date] stays at the Date Time String Format:
      the fallback formats of [Date.parse] are implementation-defined.
    - In [Routing]: the percent-decoding of dynamic segments (the
      identity on segments without ['%'], which is all the theorems
      consider), [HEAD] and [OPTIONS], which Next.js derives from the
      exported handlers, and the normalisation of repeated slashes.
    - The footer year of the statistics page (its line 241), which is
      the dashboard's [DashboardView.full_year] of the same clock. *)

From stdpp Require Export base strings gmap list sorting.
From Stdlib Require Export ZArith Lia Ascii.

(** ** The development's scope *)

Declare Scope tl_scope.
Delimit Scope tl_scope with tl.

(** ** Outcomes of a run

    A handler of the server ends in one of three ways: it returns a value,
    an exception escapes it, or a loop the source runs without a bound did
    not finish within the fuel given to the model. *)

Inductive outcome (X A : Type) : Type :=
| Normal (a : A)
| Thrown (x : X)
| Diverged.
Arguments Normal {X A} a.
Arguments Thrown {X A} x.
Arguments Diverged {X A}.

(** ** Programs over an effect signature

    [prog E ans X A] is the shape of an [async] function of the source:
    [Call e k] is one [await] of the effect [e] (a Prisma query, a call
    to [Math.random] or to [new Date()]); the environment answers with an
    exception of type [X] or with a value of type [ans e], and [k] is the
    rest of the function.  [Loop] stands for a [while] loop whose fuel ran
    out.  The tree is finite, so it is executable, and every [await] is a
    separate node, so concurrent handlers can be interleaved at exactly
    the points where the JavaScript event loop interleaves them. *)

Inductive prog (E : Type) (ans : E -> Type) (X A : Type) : Type :=
| Ret (a : A)
| Throw (x : X)
| Loop
| Call (e : E) (k : X + ans e -> prog E ans X A).
Arguments Ret {E ans X A} a.
Arguments Throw {E ans X A} x.
Arguments Loop {E ans X A}.
Arguments Call {E ans X A} e k.

Section ProgOps.
Context {E : Type} {ans : E -> Type} {X : Type}.
Local Abbreviation P := (prog E ans X).

Fixpoint bind {A B} (p : P A) (f : A -> P B) : P B :=
  match p with
  | Ret a => f a
  | Throw x => Throw x
  | Loop => Loop
  | Call e k => Call e (fun r => bind (k r) f)
  end.

(** [try { p } catch (x) { h x }] *)
Fixpoint catch {A} (p : P A) (h : X -> P A) : P A :=
  match p with
  | Ret a => Ret a
  | Throw x => h x
  | Loop => Loop
  | Call e k => Call e (fun r => catch (k r) h)
  end.

(** [await e]: an exception of the environment is rethrown. *)
Definition call (e : E) : P (ans e) :=
  Call e (fun r => match r with inl x => Throw x | inr a => Ret a end).

Section Run.
Context {W : Type} (perform : forall e, W -> (X + ans e) * W).

(** Sequential execution: every effect is performed atomically on the
    world, one after the other. *)
Fixpoint run {A} (p : P A) (w : W) : outcome X A * W :=
  match p with
  | Ret a => (Normal a, w)
  | Throw x => (Thrown x, w)
  | Loop => (Diverged, w)
  | Call e k => let '(r, w') := perform e w in run (k r) w'
  end.

(** One step of a suspended handler: its next effect is performed. *)
Definition step_prog {A} (p : P A) (w : W) : option (P A * W) :=
  match p with
  | Call e k => let '(r, w') := perform e w in Some (k r, w')
  | _ => None
  end.
End Run.
End ProgOps.

#[export] Instance prog_ret {E ans X} : MRet (prog E ans X) := fun _ a => Ret a.
#[export] Instance prog_bind {E ans X} : MBind (prog E ans X) := fun _ _ f p => bind p f.

(** [await e] in a handler is the effect [e] performed through [call]. *)
Notation "'await' e" := (call e) (at level 10, e at level 9) : tl_scope.

Open Scope tl_scope.

(** ** Properties of every answer of a program

    [prog_all P p]: whatever the environment answers to the effects of
    [p], a value [p] returns satisfies [P].  It is the typing judgement
    of the handlers' results, proved once per handler and then true of
    every run, in every world and under every interleaving. *)

Section ProgAll.
Context {E : Type} {ans : E -> Type} {X : Type}.

Inductive prog_all {A} (P : A -> Prop) : prog E ans X A -> Prop :=
| pa_ret a : P a -> prog_all P (Ret a)
| pa_throw x : prog_all P (Throw x)
| pa_loop : prog_all P Loop
| pa_call e k : (forall r, prog_all P (k r)) -> prog_all P (Call e k).

Lemma prog_all_True {A} (p : prog E ans X A) : prog_all (fun _ => True) p.
Proof. induction p; constructor; auto. Qed.

Lemma prog_all_bind {A B} (Q : A -> Prop) (P : B -> Prop) (p : prog E ans X A) f :
  prog_all Q p -> (forall a, Q a -> prog_all P (f a)) -> prog_all P (bind p f).
Proof. induction 1; intros Hf; simpl; try constructor; auto. Qed.

Lemma prog_all_mbind {A B} (P : B -> Prop) (p : prog E ans X A) (f : A -> prog E ans X B) :
  (forall a, prog_all P (f a)) -> prog_all P (x ← p; f x).
Proof. intros Hf. apply (prog_all_bind (fun _ => True)); [apply prog_all_True | auto]. Qed.

Lemma prog_all_catch {A} (P : A -> Prop) (p : prog E ans X A) h :
  prog_all P p -> (forall x, prog_all P (h x)) -> prog_all P (catch p h).
Proof. induction 1; intros Hh; simpl; try constructor; auto. Qed.

Lemma prog_all_ret {A} (P : A -> Prop) (a : A) : P a -> prog_all P (mret a).
Proof. apply pa_ret. Qed.

Lemma prog_all_run {W A} (perform : forall e, W -> (X + ans e) * W) (P : A -> Prop) p w a w' :
  prog_all P p -> run perform p w = (Normal a, w') -> P a.
Proof.
  intros Hp. revert w. induction Hp as [a' Ha| | |e k _ IH]; intros w; simpl; try done.
  - by intros [= ->].
  - destruct (perform e w) as [r w1]. apply IH.
Qed.
End ProgAll.

(** ** Effects a program may issue

    [prog_safe Pe Ans Q p]: every effect [p] issues satisfies [Pe], and
    when the environment answers each effect as [Ans] allows, every value
    [p] returns satisfies [Q].  A handler that is [prog_safe] stays so at
    each of its [await]s, which is what an invariant of interleaved
    handlers needs. *)

Section ProgSafe.
Context {E : Type} {ans : E -> Type} {X : Type}.
Context (Pe : E -> Prop) (Ans : forall e, X + ans e -> Prop).

Fixpoint prog_safe {A} (Q : A -> Prop) (p : prog E ans X A) : Prop :=
  match p with
  | Ret a => Q a
  | Throw _ | Loop => True
  | Call e k => Pe e /\ forall r, Ans e r -> prog_safe Q (k r)
  end.

Lemma prog_safe_bind {A B} (Q : A -> Prop) (R : B -> Prop) (p : prog E ans X A) f :
  prog_safe Q p -> (forall a, Q a -> prog_safe R (f a)) -> prog_safe R (bind p f).
Proof.
  intros Hp Hf. induction p as [a| | |e k IH]; simpl in *; auto.
  destruct Hp as [He Hk]. split; [done|]. intros r Hr. by apply IH, Hk.
Qed.

Lemma prog_safe_mbind {A B} (Q : A -> Prop) (R : B -> Prop) (p : prog E ans X A)
    (f : A -> prog E ans X B) :
  prog_safe Q p -> (forall a, Q a -> prog_safe R (f a)) -> prog_safe R (x ← p; f x).
Proof. apply prog_safe_bind. Qed.

Lemma prog_safe_catch {A} (Q : A -> Prop) (p : prog E ans X A) h :
  prog_safe Q p -> (forall x, prog_safe Q (h x)) -> prog_safe Q (catch p h).
Proof.
  intros Hp Hh. induction p as [a| x | |e k IH]; simpl in *; auto.
  destruct Hp as [He Hk]. split; [done|]. intros r Hr. by apply IH, Hk.
Qed.

Lemma prog_safe_call (e : E) : Pe e -> prog_safe (fun _ => True) (call e).
Proof. intros He. split; [done|]. by intros [x|a] _. Qed.

Lemma prog_safe_weaken {A} (Q Q' : A -> Prop) (p : prog E ans X A) :
  prog_safe Q p -> (forall a, Q a -> Q' a) -> prog_safe Q' p.
Proof.
  intros Hp HQ. induction p as [a| | |e k IH]; simpl in *; auto.
  destruct Hp as [He Hk]. split; [done|]. intros r Hr. by apply IH, Hk.
Qed.

Lemma prog_safe_ret {A} (Q : A -> Prop) (a : A) : Q a -> prog_safe Q (mret a).
Proof. done. Qed.
End ProgSafe.

(** ** Laws of the monad *)

Create HintDb tinylink discriminated.
#[export] Hint Resolve prog_all_catch prog_all_mbind prog_all_ret pa_throw pa_loop : tinylink.

Create Rewrite HintDb tl_run.

Section ProgLaws.
Context {E : Type} {ans : E -> Type} {X : Type}.
Context {W : Type} (perform : forall e, W -> (X + ans e) * W).

(** Running [p] and then [f] is running [bind p f]. *)
Lemma run_bind {A B} (p : prog E ans X A) (f : A -> prog E ans X B) w :
  run perform (bind p f) w =
    match run perform p w with
    | (Normal a, w') => run perform (f a) w'
    | (Thrown x, w') => (Thrown x, w')
    | (Diverged, w') => (Diverged, w')
    end.
Proof.
  revert w; induction p as [| | |e k IH]; intros w; simpl; try done.
  destruct (perform e w); apply IH.
Qed.

Lemma run_catch {A} (p : prog E ans X A) (h : X -> prog E ans X A) w :
  run perform (catch p h) w =
    match run perform p w with
    | (Thrown x, w') => run perform (h x) w'
    | o => o
    end.
Proof.
  revert w; induction p as [| | |e k IH]; intros w; simpl; try done.
  destruct (perform e w); apply IH.
Qed.

Lemma run_call_bind {B} (e : E) (f : ans e -> prog E ans X B) w :
  run perform (bind (call e) f) w =
    match perform e w with
    | (inl x, w') => (Thrown x, w')
    | (inr a, w') => run perform (f a) w'
    end.
Proof. simpl. by destruct (perform e w) as [[x|a] w']. Qed.

Lemma run_mbind {A B} (p : prog E ans X A) (f : A -> prog E ans X B) w :
  run perform (p ≫= f) w = run perform (bind p f) w.
Proof. done. Qed.

Lemma run_prog_bind {A B} (f : A -> prog E ans X B) (p : prog E ans X A) w :
  run perform (prog_bind A B f p) w = run perform (bind p f) w.
Proof. done. Qed.

Lemma run_ret {A} (a : A) w : run perform (mret a) w = (Normal a, w).
Proof. done. Qed.

Lemma run_throw {A} (x : X) w : run perform (Throw (A:=A) x) w = (Thrown x, w).
Proof. done. Qed.
End ProgLaws.

#[export] Hint Rewrite @run_mbind @run_prog_bind @run_bind @run_catch @run_call_bind @run_ret @run_throw : tl_run.

(** [run_simpl] unfolds a sequential run into the effects it performs. *)
Ltac run_simpl :=
  repeat (autorewrite with tl_run; simpl).

(** ** Shared lemmas on booleans, options and lists *)

Lemma forallb_true_iff {A} (f : A -> bool) (l : list A) :
  forallb f l = true <-> Forall (fun x => f x = true) l.
Proof. rewrite List.Forall_forall. apply forallb_forall. Qed.

Lemma existsb_true_iff {A} (f : A -> bool) (l : list A) :
  existsb f l = true <-> Exists (fun x => f x = true) l.
Proof. rewrite List.Exists_exists. apply existsb_exists. Qed.

(** [List.filter] respects permutations. *)
Lemma filter_perm {A} (f : A -> bool) l l' : l ≡ₚ l' -> List.filter f l ≡ₚ List.filter f l'.
Proof.
  induction 1 as [|x l l' _ IH|x y l|l l' l'' _ IH1 _ IH2]; simpl.
  - done.
  - destruct (f x); [by constructor | done].
  - destruct (f x), (f y); [apply perm_swap | done..].
  - by etrans.
Qed.

(** ** Strings as the lists of characters they are *)

Lemma string_length_app (s1 s2 : string) :
  String.length (s1 +:+ s2) = String.length s1 + String.length s2.
Proof. induction s1 as [|a s1 IH]; simpl; [done | by rewrite IH]. Qed.

Lemma list_ascii_app (s1 s2 : string) :
  String.list_ascii_of_string (s1 +:+ s2) =
  String.list_ascii_of_string s1 ++ String.list_ascii_of_string s2.
Proof. induction s1 as [|a s1 IH]; simpl; [done | by rewrite IH]. Qed.

Lemma length_list_ascii (s : string) :
  length (String.list_ascii_of_string s) = String.length s.
Proof. induction s as [|a s IH]; simpl; [done | by rewrite IH]. Qed.

Lemma string_app_nil_r (s : string) : (s +:+ "")%string = s.
Proof.
  induction s as [|a s IH]; [done|].
  change (String a (s +:+ "") = String a s). by rewrite IH.
Qed.

Lemma string_app_assoc (s1 s2 s3 : string) :
  (s1 +:+ (s2 +:+ s3))%string = ((s1 +:+ s2) +:+ s3)%string.
Proof.
  induction s1 as [|a s1 IH]; [done|].
  change (String a (s1 +:+ (s2 +:+ s3)) = String a ((s1 +:+ s2) +:+ s3)). by rewrite IH.
Qed.

Lemma string_app_inv_r (s1 s2 s : string) : (s1 +:+ s)%string = (s2 +:+ s)%string -> s1 = s2.
Proof.
  intros H. apply (f_equal String.list_ascii_of_string) in H.
  rewrite !list_ascii_app in H. apply app_inv_tail in H.
  by rewrite <- (String.string_of_list_ascii_of_string s1), H, String.string_of_list_ascii_of_string.
Qed.

Create Rewrite HintDb tl_str.
#[export] Hint Rewrite string_length_app list_ascii_app length_list_ascii : tl_str.

#[export] Hint Resolve Forall_nil_2 : tinylink.
