(* ===== verification/Regex.v ===== *)
(** * Regex: the fragment of ECMAScript regular expressions the code uses

    [src/lib/utils.ts] validates codes with [/^[A-Za-z0-9]{6,8}$/.test(code)].
    This file models that fragment of the ECMAScript [RegExp] semantics:
    the assertions [^] and [$] (no [m] flag), character classes of ranges,
    sequencing, and the bounded greedy quantifier [{min,max}].  The
    matcher [mt] follows the specification's continuation-passing
    [Matcher] (ECMA-262, 22.2.2), including the [RepeatMatcher] rule that
    an optional iteration must not match the empty string; [test] is
    [RegExpBuiltinExec]'s loop over start positions for a regex without
    the [g] and [y] flags.  [matches] is a declarative semantics, and
    [mt_spec] proves the executable matcher sound and complete for it. *)

From S2P Require Import Prelude.

Module Regex.

Inductive regex : Type :=
| Bol                                    (** [^] *)
| Eol                                    (** [$] *)
| Class (ranges : list (ascii * ascii))  (** [[a-zA-Z...]] *)
| Seq (r1 r2 : regex)
| Repeat (r : regex) (min max : nat).    (** [r{min,max}], greedy *)

Definition in_range (c : ascii) (rg : ascii * ascii) : bool :=
  (nat_of_ascii rg.1 <=? nat_of_ascii c) && (nat_of_ascii c <=? nat_of_ascii rg.2).

Definition in_class (rs : list (ascii * ascii)) (c : ascii) : bool :=
  existsb (in_range c) rs.

Section Matcher.
Variable inp : list ascii.

(** [RepeatMatcher(m, min, max, greedy = true, x, c)]. *)
Fixpoint rep (m : nat -> (nat -> bool) -> bool) (mn mx x : nat) (c : nat -> bool)
    : bool :=
  match mx with
  | 0 => c x
  | S mx' =>
      match mn with
      | S mn' => m x (fun y => rep m mn' mx' y c)
      | 0 => m x (fun y => if y =? x then false else rep m 0 mx' y c) || c x
      end
  end.

(** [mt r x c]: does [r] match at position [x] with a continuation [c]
    that accepts the end position? *)
Fixpoint mt (r : regex) (x : nat) (c : nat -> bool) : bool :=
  match r with
  | Bol => (x =? 0) && c x
  | Eol => (x =? length inp) && c x
  | Class rs =>
      match inp !! x with
      | Some a => in_class rs a && c (S x)
      | None => false
      end
  | Seq r1 r2 => mt r1 x (fun y => mt r2 y c)
  | Repeat r1 mn mx => rep (mt r1) mn mx x c
  end.

(** Declarative semantics: [matches r x y] when [r] matches the input
    from position [x] to position [y]. *)
Inductive matches : regex -> nat -> nat -> Prop :=
| m_bol : matches Bol 0 0
| m_eol : matches Eol (length inp) (length inp)
| m_class rs x a :
    inp !! x = Some a -> in_class rs a = true -> matches (Class rs) x (S x)
| m_seq r1 r2 x y z :
    matches r1 x y -> matches r2 y z -> matches (Seq r1 r2) x z
| m_rep_stop r mn x : matches (Repeat r mn 0) x x
| m_rep_req r mn mx x y z :
    matches r x y -> matches (Repeat r mn mx) y z ->
    matches (Repeat r (S mn) (S mx)) x z
| m_rep_more r mx x y z :
    matches r x y -> y <> x -> matches (Repeat r 0 mx) y z ->
    matches (Repeat r 0 (S mx)) x z
| m_rep_opt r mx x : matches (Repeat r 0 (S mx)) x x.

Lemma matches_class_inv rs x y :
  matches (Class rs) x y ->
  y = S x /\ exists a, inp !! x = Some a /\ in_class rs a = true.
Proof. inversion 1; subst; eauto. Qed.

Lemma matches_repeat_S_inv r mn mx x z :
  matches (Repeat r mn (S mx)) x z ->
  (exists mn' y, mn = S mn' /\ matches r x y /\ matches (Repeat r mn' mx) y z) \/
  (mn = 0 /\ exists y, matches r x y /\ y <> x /\ matches (Repeat r 0 mx) y z) \/
  (mn = 0 /\ z = x).
Proof. inversion 1; subst; [left | right; left | right; right]; eauto 10. Qed.

Lemma matches_seq_inv r1 r2 x z :
  matches (Seq r1 r2) x z -> exists y, matches r1 x y /\ matches r2 y z.
Proof. inversion 1; subst; eauto. Qed.

Lemma matches_bol_inv x y : matches Bol x y -> x = 0 /\ y = 0.
Proof. by inversion 1. Qed.

Lemma matches_eol_inv x y : matches Eol x y -> x = length inp /\ y = length inp.
Proof. by inversion 1. Qed.

Definition matcher_spec (r : regex) (m : nat -> (nat -> bool) -> bool) : Prop :=
  forall x c, m x c = true <-> exists y, matches r x y /\ c y = true.

Lemma rep_spec r m mn mx :
  matcher_spec r m -> matcher_spec (Repeat r mn mx) (rep m mn mx).
Proof.
  unfold matcher_spec. intros Hm. revert mn.
  induction mx as [|mx IH]; intros mn x c; simpl.
  - split; [intros Hc; exists x; split; [constructor | done]|].
    intros (y & Hy & Hc). inversion Hy; subst; done.
  - destruct mn as [|mn].
    + rewrite orb_true_iff, Hm. split.
      * intros [(y & Hy & Hc) | Hc].
        -- destruct (Nat.eqb_spec y x); [done|].
           apply IH in Hc as (z & Hz & Hcz). exists z. split; [|done].
           by eapply m_rep_more.
        -- exists x. split; [constructor | done].
      * intros (z & Hz & Hc).
        destruct (matches_repeat_S_inv _ _ _ _ _ Hz)
          as [(? & ? & [=] & _) | [(_ & y & Hy & Hne & Hr) | (_ & ->)]].
        -- left. exists y. split; [done|].
           destruct (Nat.eqb_spec y x); [done|]. apply IH. eauto.
        -- by right.
    + rewrite Hm. split.
      * intros (y & Hy & Hc). apply IH in Hc as (z & Hz & Hcz).
        exists z. split; [by econstructor | done].
      * intros (z & Hz & Hc).
        destruct (matches_repeat_S_inv _ _ _ _ _ Hz)
          as [(mn' & y & [= <-] & Hy & Hr) | [([=] & _) | ([=] & _)]].
        exists y. split; [done|]. apply IH. eauto.
Qed.

(** The executable matcher is sound and complete for [matches]. *)
Lemma mt_spec r : matcher_spec r (mt r).
Proof.
  induction r as [| |rs|r1 IH1 r2 IH2|r IH mn mx];
    [..|by apply rep_spec]; unfold matcher_spec in *; intros x c; simpl.
  - rewrite andb_true_iff, Nat.eqb_eq. split.
    + intros [-> Hc]. exists 0. split; [constructor | done].
    + intros (y & Hy & Hc). by inversion Hy; subst.
  - rewrite andb_true_iff, Nat.eqb_eq. split.
    + intros [-> Hc]. eexists. split; [constructor | done].
    + intros (y & Hy & Hc). by inversion Hy; subst.
  - split.
    + destruct (inp !! x) as [a|] eqn:Ha; [|done].
      rewrite andb_true_iff. intros [Hin Hc].
      exists (S x). split; [by econstructor | done].
    + intros (y & Hy & Hc). apply matches_class_inv in Hy as (-> & a & -> & ->).
      done.
  - rewrite IH1. split.
    + intros (y & Hy & Hc). apply IH2 in Hc as (z & Hz & Hcz).
      exists z. split; [by econstructor | done].
    + intros (z & Hz & Hc). inversion Hz; subst.
      exists y. split; [done|]. apply IH2. eauto.
Qed.
End Matcher.

(** [RegExp.prototype.test] for a regex without the [g] and [y] flags:
    [RegExpBuiltinExec] tries the start positions [0 .. length] in turn. *)
Definition test (r : regex) (inp : list ascii) : bool :=
  existsb (fun i => mt inp r i (fun _ => true)) (seq 0 (S (length inp))).

Lemma test_spec r inp :
  test r inp = true <-> exists x y, x <= length inp /\ matches inp r x y.
Proof.
  unfold test. rewrite existsb_exists. split.
  - intros (i & Hi & Hm). apply in_seq in Hi.
    apply mt_spec in Hm as (y & Hy & _). exists i, y. split; [lia | done].
  - intros (x & y & Hx & Hm). exists x. split; [apply in_seq; lia|].
    apply mt_spec. eauto.
Qed.

(** A repeated character class matches exactly the runs of class members
    whose length lies between the bounds. *)
Lemma matches_repeat_class inp rs mn mx x y :
  mn <= mx ->
  matches inp (Repeat (Class rs) mn mx) x y <->
  x <= y /\ mn <= y - x <= mx /\
  forall i, x <= i < y -> exists a, inp !! i = Some a /\ in_class rs a = true.
Proof.
  revert mn x. induction mx as [|mx IH]; intros mn x Hle; split.
  - intros Hm. inversion Hm; subst. split; [lia|]. split; [lia|]. intros; lia.
  - intros (Hxy & Hb & _). assert (y = x) as -> by lia. constructor.
  - intros Hm.
    destruct (matches_repeat_S_inv _ _ _ _ _ _ Hm)
      as [(mn' & z & -> & Hz & Hr) | [(-> & z & Hz & _ & Hr) | (-> & ->)]];
      [..|split; [lia|]; split; [lia|]; intros; lia];
      apply matches_class_inv in Hz as (-> & a & Ha & Hin);
      apply IH in Hr as (Hxy & Hb & Hall); try lia;
      (split; [lia|]; split; [lia|]; intros i Hi;
       destruct (decide (i = x)) as [->|]; [eauto|]; apply Hall; lia).
  - intros (Hxy & Hb & Hall). destruct (decide (y = x)) as [->|Hne].
    + destruct mn; [constructor | lia].
    + destruct (Hall x) as (a & Ha & Hc); [lia|].
      assert (matches inp (Class rs) x (S x)) by (econstructor; eauto).
      assert (Hr : matches inp (Repeat (Class rs) (pred mn) mx) (S x) y).
      { apply IH; [lia|]. split; [lia|]. split; [lia|]. intros i Hi. apply Hall. lia. }
      destruct mn as [|mn]; [eapply m_rep_more | eapply m_rep_req]; eauto.
Qed.

End Regex.
