(* ===== verification/JsValue.v ===== *)
(** * JsValue: the JavaScript values a JSON request body can hold

    [POST /api/links] ([src/app/api/links/route.ts]) reads its body with
    [await request.json()] and destructures [{ targetUrl, code }] from it
    without checking types.  This file models what the handler can see:
    the values [JSON.parse] produces, property access with [undefined] for
    a missing property, the [TypeError] of destructuring [null],
    JavaScript truthiness ([!x]) and the [ToString] coercion that
    [new URL(x)] and [RegExp.prototype.test(x)] apply to a non-string
    argument.  Numbers are modelled as integers: JSON fractions and
    exponents are not represented. *)

From stdpp Require Import pretty.
From S2P Require Import Prelude.

Module Js.

Local Set Warnings "-register-all".

Inductive value : Type :=
| JNull
| JBool (b : bool)
| JNum (n : Z)
| JStr (s : string)
| JArr (xs : list value)
| JObj (fields : list (string * value)).

(** [Boolean(v)], with [None] for [undefined]. *)
Definition truthy (v : option value) : bool :=
  match v with
  | None | Some JNull => false
  | Some (JBool b) => b
  | Some (JNum n) => negb (Z.eqb n 0)
  | Some (JStr s) => negb (String.eqb s "")
  | Some (JArr _) | Some (JObj _) => true
  end.

(** [ToString(v)]: arrays print as [Array.prototype.join(",")], in which
    [null] elements print as the empty string. *)
Fixpoint to_string (v : value) : string :=
  match v with
  | JNull => "null"
  | JBool true => "true"
  | JBool false => "false"
  | JNum n => pretty n
  | JStr s => s
  | JArr xs =>
      (fix join (xs : list value) : string :=
         match xs with
         | [] => ""
         | [x] => match x with JNull => "" | _ => to_string x end
         | x :: xs' =>
             ((match x with JNull => "" | _ => to_string x end) +:+ "," +:+ join xs')%string
         end) xs
  | JObj _ => "[object Object]"
  end.

(** Property access [v[k]] on a value that is not [null]: [JSON.parse]
    keeps the last of duplicate keys; primitives and arrays have no own
    property named like the fields the handler reads. *)
Definition get (v : value) (k : string) : option value :=
  match v with
  | JObj fs =>
      match list_find (fun kv => kv.1 = k) (reverse fs) with
      | Some (_, (_, x)) => Some x
      | None => None
      end
  | _ => None
  end.

(** [const { targetUrl, code } = body]: destructuring [null] throws a
    [TypeError] (the [inl] case). *)
Definition destructure (v : value) (k1 k2 : string) : unit + (option value * option value) :=
  match v with
  | JNull => inl tt
  | _ => inr (get v k1, get v k2)
  end.

Lemma truthy_str s : truthy (Some (JStr s)) = true <-> s <> "".
Proof.
  simpl. rewrite negb_true_iff. split.
  - intros H ->. done.
  - intros H. destruct (String.eqb_spec s ""); done.
Qed.

Lemma to_string_str s : to_string (JStr s) = s.
Proof. done. Qed.

End Js.
