(* ===== verification/Schema.v ===== *)
(** * Schema: the Prisma [Link] model and the effects the handlers await

    The Prisma schema and [src/lib/db] are not among the sources; the
    [Link] record follows the spec's data model (section 3) and the
    [Link] interface of [src/app/code/[code]/page.tsx]: [id], [code],
    [targetUrl], [clicks] (a Prisma [Int], i.e. a 32-bit column),
    [createdAt], [lastClicked] (nullable) and [updatedAt].  Timestamps
    are milliseconds since the epoch; ids are modelled as the counter
    values a database sequence would hand out.

    [eff] lists the operations a route handler awaits, and [ans e] the
    type of a successful answer: the four Prisma queries the sources
    issue ([findUnique], [create], [update], [delete], [findMany]),
    [Math.random()] and [new Date()].  Arguments that come from the
    request are passed as the JavaScript value the handler holds, because
    the Prisma client validates their type at run time. *)

From S2P Require Import Prelude JsValue.

Module Schema.

Record Link : Type := mkLink {
  id : nat;
  code : string;
  targetUrl : string;
  clicks : Z;
  createdAt : Z;
  lastClicked : option Z;
  updatedAt : Z;
}.

(** The errors the Prisma client raises for the queries of the sources. *)
Inductive db_error : Type :=
| UniqueViolation        (** P2002: unique constraint on [code] failed *)
| RecordNotFound         (** P2025: record to update or delete not found *)
| ValueOutOfRange        (** P2020: value out of range for an [Int] column *)
| ValidationError        (** an argument of the wrong type *)
| Unreachable.           (** P1001: the database server cannot be reached *)

(** What a handler's [try] block can throw. *)
Inductive exn : Type :=
| DbError (e : db_error)
| TypeError     (** destructuring [null] *)
| SyntaxError   (** [request.json()] on a body that is not JSON *)
| MalformedUrl. (** [NextResponse.redirect] on a URL that does not parse *)

Inductive eff : Type :=
| FindUnique (c : Js.value)                   (** [prisma.link.findUnique({ where: { code } })] *)
| Create (c : Js.value) (url : Js.value)      (** [prisma.link.create({ data: { code, targetUrl } })] *)
| UpdateClicks (c : Js.value) (n : Z) (t : Z) (** [prisma.link.update({ where: { code }, data: { clicks: n, lastClicked: t } })] *)
| Delete (c : Js.value)                       (** [prisma.link.delete({ where: { code } })] *)
| FindMany                                    (** [prisma.link.findMany({ orderBy: { createdAt: 'desc' } })] *)
| Random                                      (** [Math.random()] *)
| Now.                                        (** [new Date()] *)

Definition ans (e : eff) : Type :=
  match e with
  | FindUnique _ => option Link
  | Create _ _ | UpdateClicks _ _ _ | Delete _ => Link
  | FindMany => list Link
  | Random | Now => Z
  end.

(** The JSON bodies and responses the route handlers build with
    [NextResponse.json] and [NextResponse.redirect]. *)
Inductive body : Type :=
| BError (msg : string)       (** [{ error: msg }] *)
| BLink (l : Link)
| BLinks (ls : list Link)
| BSuccess.                   (** [{ success: true }] *)

Inductive response : Type :=
| RJson (status : Z) (b : body)
| RRedirect (status : Z) (location : string).

(** A handler of the server: a program over these effects. *)
Abbreviation handler A := (prog eff ans exn A).

(** [Math.random()] returns a double in [0, 1); it is modelled as
    [k / 2^53] for an integer [0 <= k < 2^53]. *)
Definition random_den : Z := 2 ^ 53.

(** The range of a Prisma [Int] column (PostgreSQL [integer]). *)
Definition int4_min : Z := - 2 ^ 31.
Definition int4_max : Z := 2 ^ 31 - 1.

Definition in_int4 (n : Z) : bool := (int4_min <=? n)%Z && (n <=? int4_max)%Z.

#[export] Instance db_error_eq_dec : EqDecision db_error.
Proof. solve_decision. Defined.
#[export] Instance link_eq_dec : EqDecision Link.
Proof. solve_decision. Defined.
#[export] Instance exn_eq_dec : EqDecision exn.
Proof. solve_decision. Defined.

End Schema.
