(* ===== verification/Dates.v ===== *)
(** * Dates: timestamps on the wire

    The API answers with [NextResponse.json(link)], and [JSON.stringify]
    writes every [Date] field of the Prisma record ([createdAt],
    [lastClicked], [updatedAt]) with [Date.prototype.toJSON], that is
    [toISOString()]: ["YYYY-MM-DDTHH:mm:ss.sssZ"], or with a signed
    six-digit year outside [0, 9999] (ECMA-262, 21.4.4.36 and 21.4.1.32).
    The pages read these strings back with [new Date(s)] ([page.tsx] line
    272, [code/[code]/page.tsx] lines 102-104 and 201), which parses the
    same Date Time String Format ([Date.parse], 21.4.3.2).

    Time values are integers of milliseconds since the epoch in the range
    of [Date], [|t| <= 8.64 * 10^15].  The calendar is the proleptic
    Gregorian one of the specification, computed with the era/day-of-era
    decomposition ([civil_from_days], [days_from_civil]).  [date_parse]
    accepts exactly the Date Time String Format with every field present,
    which is the format [toISOString] writes; the other formats engines
    accept are not modelled (they give [None], like [NaN]).

    Theorems: printing a number with [k] digits and reading [k] digits
    back gives the number; [days_from_civil] inverts [civil_from_days];
    and parsing the ISO string of a time value gives the time value back
    ([iso_roundtrip]). *)

From S2P Require Import Prelude.

Module Dates.

(** ** Fixed-width decimal digits *)

Definition digit_char (d : Z) : ascii := ascii_of_nat (48 + Z.to_nat d).

(** The last [k] decimal digits of [n], most significant first, with
    leading zeros ([String(n).padStart(k, '0')] for [0 <= n < 10^k]). *)
Fixpoint digits (k : nat) (n : Z) : list ascii :=
  match k with
  | 0 => []
  | S k' => digits k' (n `div` 10)%Z ++ [digit_char (n `mod` 10)%Z]
  end.

Definition digit_val (c : ascii) : option Z :=
  let v := nat_of_ascii c in
  if (48 <=? v)%nat && (v <=? 57)%nat then Some (Z.of_nat v - 48)%Z else None.

(** Read exactly [k] digits, accumulating [acc * 10 + d]. *)
Fixpoint read_digits (k : nat) (l : list ascii) (acc : Z) : option (Z * list ascii) :=
  match k with
  | 0 => Some (acc, l)
  | S k' =>
      match l with
      | c :: l' => match digit_val c with
                   | Some d => read_digits k' l' (acc * 10 + d)%Z
                   | None => None
                   end
      | [] => None
      end
  end.

(** ** The proleptic Gregorian calendar

    Days are counted from 1970-01-01.  A 400-year era has 146097 days;
    within an era, years start on March 1 so that the leap day is the
    last day of its year. *)

(** Day of era [0, 146097) to year of era, month and day. *)
Definition civil_of_doe (doe : Z) : Z * Z * Z :=
  let yoe := ((doe - doe `div` 1460 + doe `div` 36524 - doe `div` 146096) `div` 365)%Z in
  let doy := (doe - (365 * yoe + yoe `div` 4 - yoe `div` 100))%Z in
  let mp := ((5 * doy + 2) `div` 153)%Z in
  let d := (doy - (153 * mp + 2) `div` 5 + 1)%Z in
  (yoe, (if (mp <? 10)%Z then mp + 3 else mp - 9)%Z, d).

Definition doe_of_civil (yoe m d : Z) : Z :=
  let mp := (if (2 <? m)%Z then m - 3 else m + 9)%Z in
  (yoe * 365 + yoe `div` 4 - yoe `div` 100 + ((153 * mp + 2) `div` 5 + d - 1))%Z.

(** Days from 0000-03-01 to 1970-01-01. *)
Definition epoch_days : Z := 719468.

(** [YearFromTime], [MonthFromTime] and [DateFromTime] of a day number. *)
Definition civil_from_days (z : Z) : Z * Z * Z :=
  let z' := (z + epoch_days)%Z in
  let '(yoe, m, d) := civil_of_doe (z' `mod` 146097)%Z in
  (yoe + z' `div` 146097 * 400 + (if (m <=? 2)%Z then 1 else 0), m, d)%Z.

(** [MakeDay(y, m - 1, d)] for a month in [1, 12]. *)
Definition days_from_civil (y m d : Z) : Z :=
  let y' := (y - (if (m <=? 2)%Z then 1 else 0))%Z in
  (y' `div` 400 * 146097 + doe_of_civil (y' `mod` 400) m d - epoch_days)%Z.

(** ** [Date.prototype.toISOString] and [Date.parse] *)

Definition ms_per_day : Z := 86400000.

(** The largest time value ([8.64 * 10^15] ms). *)
Definition max_time : Z := 8640000000000000.

(** Four digits for a year in [0, 9999], otherwise a sign and six. *)
Definition year_chars (y : Z) : list ascii :=
  if (0 <=? y)%Z && (y <=? 9999)%Z then digits 4 y
  else (if (y <? 0)%Z then "-"%char else "+"%char) :: digits 6 (Z.abs y).

(** The characters of [toISOString()] for a day number and a time within
    the day. *)
Definition iso_chars (day r : Z) : list ascii :=
  let '(y, m, d) := civil_from_days day in
  year_chars y ++ "-"%char :: digits 2 m ++ "-"%char :: digits 2 d ++ "T"%char ::
  digits 2 (r `div` 3600000)%Z ++ ":"%char :: digits 2 ((r `div` 60000) `mod` 60)%Z ++ ":"%char ::
  digits 2 ((r `div` 1000) `mod` 60)%Z ++ "."%char :: digits 3 (r `mod` 1000)%Z ++ ["Z"%char].

(** [Date.prototype.toISOString]: a [RangeError] ([None]) for a time value
    outside the range of [Date]. *)
Definition toISOString (t : Z) : option string :=
  if (Z.abs t <=? max_time)%Z
  then Some (String.string_of_list_ascii (iso_chars (t `div` ms_per_day) (t `mod` ms_per_day)))%Z
  else None.

Definition expect (c : ascii) (l : list ascii) : option (list ascii) :=
  match l with c' :: l' => if Ascii.eqb c c' then Some l' else None | [] => None end.

(** [YYYY], [+YYYYYY] or [-YYYYYY]; [-000000] is not a year. *)
Definition read_year (l : list ascii) : option (Z * list ascii) :=
  match l with
  | c :: l' =>
      if Ascii.eqb c "+"%char then read_digits 6 l' 0
      else if Ascii.eqb c "-"%char then
        '(n, r) ← read_digits 6 l' 0; if (n =? 0)%Z then None else Some (- n, r)%Z
      else read_digits 4 l 0
  | [] => None
  end.

(** [MakeDate(MakeDay(y, m - 1, d), MakeTime(h, mi, s, ms))], with the
    range checks of the Date Time String Format and [TimeClip]. *)
Definition make_time (y m d h mi sec ms : Z) : option Z :=
  if (1 <=? m)%Z && (m <=? 12)%Z && (1 <=? d)%Z && (d <=? 31)%Z && (h <=? 24)%Z &&
     (mi <=? 59)%Z && (sec <=? 59)%Z &&
     (negb (h =? 24)%Z || ((mi =? 0)%Z && (sec =? 0)%Z && (ms =? 0)%Z))
  then
    let t := ((days_from_civil y m 1 + d - 1) * ms_per_day +
              h * 3600000 + mi * 60000 + sec * 1000 + ms)%Z in
    if (Z.abs t <=? max_time)%Z then Some t else None
  else None.

(** [YYYY-MM-DDTHH:mm:ss.sssZ] *)
Definition parse_iso (l : list ascii) : option Z :=
  '(y, l) ← read_year l; l ← expect "-"%char l; '(m, l) ← read_digits 2 l 0;
  l ← expect "-"%char l; '(d, l) ← read_digits 2 l 0; l ← expect "T"%char l;
  '(h, l) ← read_digits 2 l 0; l ← expect ":"%char l; '(mi, l) ← read_digits 2 l 0;
  l ← expect ":"%char l; '(sec, l) ← read_digits 2 l 0; l ← expect "."%char l;
  '(ms, l) ← read_digits 3 l 0; l ← expect "Z"%char l;
  match l with [] => make_time y m d h mi sec ms | _ => None end.

(** [Date.parse(s)], [None] standing for [NaN]. *)
Definition date_parse (s : string) : option Z := parse_iso (String.list_ascii_of_string s).

Definition doe_ok (doe : Z) : bool :=
  let '(yoe, m, d) := civil_of_doe doe in
  (0 <=? yoe)%Z && (yoe <? 400)%Z && (1 <=? m)%Z && (m <=? 12)%Z && (1 <=? d)%Z && (d <=? 31)%Z &&
  (doe_of_civil yoe m d =? doe)%Z.

Fixpoint doe_check (fuel : nat) (doe : Z) : bool :=
  match fuel with 0 => true | S f => doe_ok doe && doe_check f (doe + 1)%Z end.

(** ** Lemmas on digits *)

Lemma digit_val_char d : (0 <= d < 10)%Z -> digit_val (digit_char d) = Some d.
Proof.
  intros Hd.
  assert (d = 0 \/ d = 1 \/ d = 2 \/ d = 3 \/ d = 4 \/ d = 5 \/ d = 6 \/ d = 7 \/ d = 8 \/ d = 9)%Z
    as Hc by lia.
  repeat destruct Hc as [-> | Hc]; [..| subst]; reflexivity.
Qed.

Lemma length_digits k n : length (digits k n) = k.
Proof.
  revert n. induction k as [|k IH]; intros n; [done|].
  simpl. rewrite length_app, IH. simpl. lia.
Qed.

Lemma read_digits_plus a b l acc :
  read_digits (a + b) l acc =
    match read_digits a l acc with
    | Some (acc', l') => read_digits b l' acc'
    | None => None
    end.
Proof.
  revert l acc. induction a as [|a IH]; intros l acc; [done|].
  destruct l as [|c l]; [done|]. simpl. destruct (digit_val c); [apply IH | done].
Qed.

Lemma read_digits_digits k n rest acc :
  (0 <= n < 10 ^ Z.of_nat k)%Z ->
  read_digits k (digits k n ++ rest) acc = Some (acc * 10 ^ Z.of_nat k + n, rest)%Z.
Proof.
  revert n acc rest. induction k as [|k IH]; intros n acc rest Hn.
  { simpl in *. f_equal. f_equal. lia. }
  rewrite Nat2Z.inj_succ, Z.pow_succ_r in Hn by lia.
  cbn [digits]. rewrite <- app_assoc.
  replace (S k) with (k + 1)%nat by lia. rewrite read_digits_plus.
  rewrite IH by (split; [apply Z.div_pos | apply Z.div_lt_upper_bound]; lia).
  cbn [app read_digits]. rewrite digit_val_char by (apply Z.mod_pos_bound; lia).
  f_equal. f_equal.
  rewrite Nat2Z.inj_add, Z.pow_add_r by lia.
  pose proof (Z.div_mod n 10). lia.
Qed.

(** ** Lemmas on the calendar *)

Lemma doe_check_spec n start doe :
  doe_check n start = true -> (start <= doe < start + Z.of_nat n)%Z -> doe_ok doe = true.
Proof.
  revert start. induction n as [|n IH]; intros start Hc Hd; [lia|].
  simpl in Hc. apply andb_prop in Hc as [Hok Hc].
  destruct (Z.eq_dec doe start) as [->|Hne]; [done|]. apply (IH (start + 1)%Z); [done | lia].
Qed.

Lemma doe_check_era : doe_check (Z.to_nat 146097) 0 = true.
Proof. vm_compute. reflexivity. Qed.

Lemma civil_of_doe_spec doe :
  (0 <= doe < 146097)%Z ->
  let '(yoe, m, d) := civil_of_doe doe in
  (0 <= yoe < 400)%Z /\ (1 <= m <= 12)%Z /\ (1 <= d <= 31)%Z /\ doe_of_civil yoe m d = doe.
Proof.
  intros Hd.
  assert (Hr : (0 <= doe < 0 + Z.of_nat (Z.to_nat 146097))%Z) by (rewrite Z2Nat.id; lia).
  pose proof (doe_check_spec _ 0 doe doe_check_era Hr) as Hok.
  unfold doe_ok in Hok. destruct (civil_of_doe doe) as [[yoe m] d].
  repeat rewrite andb_true_iff in Hok. rewrite !Z.leb_le, !Z.ltb_lt, Z.eqb_eq in Hok. lia.
Qed.

(** The fields of a day number, with their ranges. *)
Lemma civil_from_days_spec z :
  let '(y, m, d) := civil_from_days z in
  (1 <= m <= 12)%Z /\ (1 <= d <= 31)%Z /\ days_from_civil y m d = z /\
  ((- 10 ^ 8 - 1 <= z <= 10 ^ 8)%Z -> (- 10 ^ 6 < y < 10 ^ 6)%Z).
Proof.
  unfold civil_from_days. set (z' := (z + epoch_days)%Z).
  pose proof (Z.div_mod z' 146097 ltac:(lia)) as Hz.
  pose proof (Z.mod_pos_bound z' 146097 ltac:(lia)) as Hb.
  pose proof (civil_of_doe_spec (z' `mod` 146097)%Z Hb) as Hc.
  destruct (civil_of_doe (z' `mod` 146097)%Z) as [[yoe m] d].
  destruct Hc as (Hy & Hm & Hd & He). refine (conj _ (conj _ (conj _ _))); [lia | lia | |].
  - unfold days_from_civil.
    replace (yoe + z' `div` 146097 * 400 + (if (m <=? 2)%Z then 1 else 0) -
             (if (m <=? 2)%Z then 1 else 0))%Z with (yoe + z' `div` 146097 * 400)%Z by lia.
    rewrite Z.div_add, Z.mod_add, Z.div_small, Z.mod_small by lia.
    rewrite He. unfold z' in *. lia.
  - intros Hr. unfold z', epoch_days in *. destruct (m <=? 2)%Z; lia.
Qed.

(** ** Lemmas on [toISOString] and [Date.parse] *)

Lemma digits_head k n :
  (0 < k)%nat -> exists d l, digits k n = digit_char d :: l /\ (0 <= d < 10)%Z.
Proof.
  revert n. induction k as [|k IH]; intros n Hk; [lia|].
  destruct k as [|k].
  - exists (n `mod` 10)%Z, []. split; [done|]. apply Z.mod_pos_bound. lia.
  - destruct (IH (n `div` 10)%Z ltac:(lia)) as (d & l & Hl & Hd).
    exists d, (l ++ [digit_char (n `mod` 10)%Z]). split; [|done].
    change (digits (S (S k)) n) with (digits (S k) (n `div` 10)%Z ++ [digit_char (n `mod` 10)%Z]).
    by rewrite Hl.
Qed.

Lemma digit_char_not_sign d :
  (0 <= d < 10)%Z -> Ascii.eqb (digit_char d) "+"%char = false /\ Ascii.eqb (digit_char d) "-"%char = false.
Proof.
  intros Hd.
  assert (d = 0 \/ d = 1 \/ d = 2 \/ d = 3 \/ d = 4 \/ d = 5 \/ d = 6 \/ d = 7 \/ d = 8 \/ d = 9)%Z
    as Hc by lia.
  repeat destruct Hc as [-> | Hc]; [..| subst]; split; reflexivity.
Qed.

Lemma read_digits_exact k n rest :
  (0 <= n < 10 ^ Z.of_nat k)%Z -> read_digits k (digits k n ++ rest) 0 = Some (n, rest).
Proof. intros Hn. by rewrite read_digits_digits, Z.mul_0_l, Z.add_0_l. Qed.

Lemma read_year_chars y rest :
  (- 10 ^ 6 < y < 10 ^ 6)%Z -> read_year (year_chars y ++ rest) = Some (y, rest).
Proof.
  intros Hy. unfold year_chars.
  destruct (Z.leb_spec 0 y), (Z.leb_spec y 9999); simpl andb.
  - destruct (digits_head 4 y ltac:(lia)) as (d & l & Hl & Hd).
    destruct (digit_char_not_sign d Hd) as [Hp Hm].
    unfold read_year. rewrite Hl. cbn [app]. rewrite Hp, Hm, app_comm_cons, <- Hl.
    apply read_digits_exact. simpl. lia.
  - destruct (Z.ltb_spec y 0); [lia|]. cbn [app read_year Ascii.eqb].
    rewrite read_digits_exact by (simpl; lia). f_equal. f_equal. lia.
  - destruct (Z.ltb_spec y 0); [|lia]. cbn [app read_year Ascii.eqb].
    rewrite read_digits_exact by (simpl; lia). cbn.
    destruct (Z.eqb_spec (Z.abs y) 0); [lia|]. f_equal. f_equal. lia.
  - lia.
Qed.

(** Hours, minutes, seconds and milliseconds of a time within a day. *)
Lemma time_fields r :
  (0 <= r < ms_per_day)%Z ->
  (0 <= r `div` 3600000 < 24)%Z /\ (0 <= (r `div` 60000) `mod` 60 < 60)%Z /\
  (0 <= (r `div` 1000) `mod` 60 < 60)%Z /\ (0 <= r `mod` 1000 < 1000)%Z /\
  (r `div` 3600000 * 3600000 + (r `div` 60000) `mod` 60 * 60000 +
   (r `div` 1000) `mod` 60 * 1000 + r `mod` 1000 = r)%Z.
Proof.
  unfold ms_per_day. intros Hr.
  pose proof (Z.div_mod r 1000 ltac:(lia)). pose proof (Z.mod_pos_bound r 1000 ltac:(lia)).
  set (a := (r `div` 1000)%Z) in *.
  pose proof (Z.div_mod a 60 ltac:(lia)). pose proof (Z.mod_pos_bound a 60 ltac:(lia)).
  replace (r `div` 60000)%Z with (a `div` 60)%Z by (unfold a; rewrite Z.div_div by lia; reflexivity).
  set (b := (a `div` 60)%Z) in *.
  pose proof (Z.div_mod b 60 ltac:(lia)). pose proof (Z.mod_pos_bound b 60 ltac:(lia)).
  replace (r `div` 3600000)%Z with (b `div` 60)%Z by (unfold b, a; rewrite !Z.div_div by lia; reflexivity).
  lia.
Qed.

Lemma days_from_civil_day y m d :
  (days_from_civil y m 1 + d - 1 = days_from_civil y m d)%Z.
Proof. unfold days_from_civil, doe_of_civil. lia. Qed.

Lemma make_time_ok y m d h mi sec ms :
  (1 <= m <= 12)%Z -> (1 <= d <= 31)%Z -> (0 <= h < 24)%Z -> (0 <= mi < 60)%Z ->
  (0 <= sec < 60)%Z ->
  let t := (days_from_civil y m d * ms_per_day + h * 3600000 + mi * 60000 + sec * 1000 + ms)%Z in
  (Z.abs t <= max_time)%Z -> make_time y m d h mi sec ms = Some t.
Proof.
  intros Hm Hd Hh Hmi Hs t Ht. unfold make_time. rewrite days_from_civil_day. fold t.
  repeat match goal with
         | |- context [(?a <=? ?b)%Z] => destruct (Z.leb_spec a b); try lia
         | |- context [(?a =? ?b)%Z] => destruct (Z.eqb_spec a b); try lia
         end; done.
Qed.

Lemma toISOString_nonempty t s : toISOString t = Some s -> s <> "".
Proof.
  unfold toISOString. destruct (Z.abs t <=? max_time)%Z; [|done]. intros [= <-] Hs.
  apply (f_equal String.list_ascii_of_string) in Hs.
  rewrite String.list_ascii_of_string_of_list_ascii in Hs. revert Hs.
  unfold iso_chars. destruct (civil_from_days _) as [[y m] d].
  destruct (year_chars y); discriminate.
Qed.

(** [toISOString] read back by [Date.parse]. *)
Lemma toISOString_parse t :
  (Z.abs t <= max_time)%Z -> exists s, toISOString t = Some s /\ date_parse s = Some t.
Proof.
  intros Ht. unfold toISOString. destruct (Z.leb_spec (Z.abs t) max_time); [|lia].
  eexists; split; [reflexivity|].
  unfold date_parse. rewrite String.list_ascii_of_string_of_list_ascii.
  pose proof (Z.div_mod t ms_per_day ltac:(unfold ms_per_day; lia)) as Hdm.
  pose proof (Z.mod_pos_bound t ms_per_day ltac:(unfold ms_per_day; lia)) as Hr.
  set (day := (t `div` ms_per_day)%Z) in *. set (r := (t `mod` ms_per_day)%Z) in *.
  assert (Hday : (- 10 ^ 8 - 1 <= day <= 10 ^ 8)%Z) by (unfold max_time, ms_per_day in *; lia).
  destruct (time_fields r Hr) as (Hh & Hmi & Hs & Hms & Htime).
  unfold iso_chars. pose proof (civil_from_days_spec day) as Hc.
  destruct (civil_from_days day) as [[y m] d]. destruct Hc as (Hm & Hd & Hdays & Hy).
  unfold parse_iso. rewrite read_year_chars by auto.
  cbn -[digits read_digits make_time].
  repeat (rewrite read_digits_exact by (cbn; lia); cbn -[digits read_digits make_time]).
  rewrite make_time_ok by (rewrite ?Hdays; unfold ms_per_day, max_time in *; lia).
  f_equal. rewrite Hdays. lia.
Qed.

(** [Date.parse] inverts [toISOString] on the whole range of [Date]:
    every time value [t] with [|t| <= 8.64 * 10^15] has an ISO string, and
    reading that string back gives [t], so the timestamps the API writes
    into its JSON bodies reach the pages unchanged. *)
Theorem iso_roundtrip t :
  (Z.abs t <= max_time)%Z -> exists s, toISOString t = Some s /\ date_parse s = Some t.
Proof. apply toISOString_parse; assumption. Qed.

Lemma iso_roundtrip_witness :
  exists s, toISOString 1700000000123 = Some s /\ date_parse s = Some 1700000000123%Z.
Proof. apply iso_roundtrip. unfold max_time. lia. Defined.

End Dates.
