(* ===== verification/Wire.v ===== *)
(** * Wire: the JSON bodies between the API and the pages

    Every JSON answer of the API is [NextResponse.json(x)], which sends
    [JSON.stringify(x)]: a Prisma [Link] record becomes an object whose
    [Date] fields are ISO strings ([Dates.toISOString], through
    [Date.prototype.toJSON]).  [body_json] is that encoding of each body
    the handlers build: [{ error }], a link, the array of links and
    [{ success: true }].

    The pages read these bodies through their [interface Link]
    ([src/app/page.tsx] lines 5-12, [src/app/code/[code]/page.tsx] lines
    5-13): strings and numbers as they are, and dates with [new Date(s)]
    ([Dates.date_parse]).  [read_link] is that reading of a link object;
    [jtype] and [has_type] state the interface as a type of JSON values,
    with [TDate] for a string that [new Date] turns into a valid date;
    [dash_link_type] is the dashboard's interface, which reads the dates
    as strings and has no [updatedAt].

    The Prisma schema, which fixes the type of the [id] column, is not
    among the sources; the interfaces declare [id: string] and the pages
    use it only as a React [key], so [id] is sent as the number the model
    gives it and its type in [link_type] is left open ([TAny]). *)

From S2P Require Import Prelude JsValue Schema Dates.
Import Schema Dates.

Module Wire.

(** ** The server side: [JSON.stringify] of the bodies *)

(** [Date.prototype.toJSON]: [null] for an invalid date. *)
Definition date_json (t : Z) : Js.value :=
  match toISOString t with Some s => Js.JStr s | None => Js.JNull end.

Definition link_json (l : Link) : Js.value :=
  Js.JObj [("id", Js.JNum (Z.of_nat (id l))); ("code", Js.JStr (code l));
           ("targetUrl", Js.JStr (targetUrl l)); ("clicks", Js.JNum (clicks l));
           ("createdAt", date_json (createdAt l));
           ("lastClicked", match lastClicked l with Some t => date_json t | None => Js.JNull end);
           ("updatedAt", date_json (updatedAt l))].

Definition body_json (b : body) : Js.value :=
  match b with
  | BError msg => Js.JObj [("error", Js.JStr msg)]
  | BLink l => link_json l
  | BLinks ls => Js.JArr (map link_json ls)
  | BSuccess => Js.JObj [("success", Js.JBool true)]
  end.

(** ** The client side *)

(** [new Date(v).getTime()], [None] standing for [NaN]: a string is
    parsed, a number is clipped to the range of [Date], [null] is 0 and
    [undefined] is [NaN].  Arrays and objects, which go through
    [ToPrimitive], are not read as dates by the pages. *)
Definition new_date (v : option Js.value) : option Z :=
  match v with
  | Some (Js.JStr s) => date_parse s
  | Some (Js.JNum n) => if (Z.abs n <=? max_time)%Z then Some n else None
  | Some Js.JNull => Some 0%Z
  | Some (Js.JBool b) => Some (if b then 1 else 0)%Z
  | _ => None
  end.

Definition as_str (v : option Js.value) : option string :=
  match v with Some (Js.JStr s) => Some s | _ => None end.

Definition as_num (v : option Js.value) : option Z :=
  match v with Some (Js.JNum n) => Some n | _ => None end.

(** The record the pages see in a link object: the fields they display
    and the dates they build with [new Date]; [lastClicked] is read as
    [link.lastClicked ? new Date(link.lastClicked) : null]
    ([code/[code]/page.tsx] line 103, [page.tsx] line 272).  [None] when
    a field is missing or a date is invalid. *)
Definition read_link (v : Js.value) : option Link :=
  i ← as_num (Js.get v "id"); c ← as_str (Js.get v "code");
  u ← as_str (Js.get v "targetUrl"); n ← as_num (Js.get v "clicks");
  ca ← new_date (Js.get v "createdAt"); ua ← new_date (Js.get v "updatedAt");
  lc ← (if Js.truthy (Js.get v "lastClicked")
        then t ← new_date (Js.get v "lastClicked"); Some (Some t)
        else Some None);
  Some (mkLink (Z.to_nat i) c u n ca lc ua).

(** ** JSON types *)

Inductive jtype : Type :=
| TAny
| TNull
| TBool
| TNum
| TStr
| TDate                          (** a string [new Date] accepts *)
| TOr (a b : jtype)
| TArr (t : jtype)
| TObj (fields : list (string * jtype)).

Fixpoint has_type (t : jtype) (v : Js.value) : bool :=
  match t, v with
  | TAny, _ => true
  | TNull, Js.JNull => true
  | TBool, Js.JBool _ => true
  | TNum, Js.JNum _ => true
  | TStr, Js.JStr _ => true
  | TDate, Js.JStr s => match date_parse s with Some _ => true | None => false end
  | TOr a b, _ => has_type a v || has_type b v
  | TArr t', Js.JArr xs => forallb (has_type t') xs
  | TObj fs, Js.JObj _ =>
      (fix fields_ok (fs : list (string * jtype)) : bool :=
         match fs with
         | [] => true
         | (k, t') :: fs' =>
             match Js.get v k with Some x => has_type t' x | None => false end && fields_ok fs'
         end) fs
  | _, _ => false
  end.

(** [interface Link] of [code/[code]/page.tsx] (lines 5-13), the one of
    [page.tsx] without [updatedAt]. *)
Definition link_type : jtype :=
  TObj [("id", TAny); ("code", TStr); ("targetUrl", TStr); ("clicks", TNum);
        ("createdAt", TDate); ("lastClicked", TOr TDate TNull); ("updatedAt", TDate)].

(** [interface Link] of [page.tsx] (lines 5-12). *)
Definition dash_link_type : jtype :=
  TObj [("id", TAny); ("code", TStr); ("targetUrl", TStr); ("clicks", TNum);
        ("createdAt", TStr); ("lastClicked", TOr TStr TNull)].

(** [errData.error] (page.tsx line 91). *)
Definition error_type : jtype := TObj [("error", TStr)].

(** A record whose dates [toISOString] can write. *)
Definition link_in_range (l : Link) : Prop :=
  (Z.abs (createdAt l) <= max_time)%Z /\ (Z.abs (updatedAt l) <= max_time)%Z /\
  (forall t, lastClicked l = Some t -> (Z.abs t <= max_time)%Z).

(** ** Theorems *)

Lemma date_json_parse t :
  (Z.abs t <= max_time)%Z ->
  exists s, date_json t = Js.JStr s /\ date_parse s = Some t /\ s <> "".
Proof.
  intros Ht. destruct (toISOString_parse t Ht) as (s & Hs & Hp).
  exists s. unfold date_json. rewrite Hs. split_and!; [done | done |].
  by apply (toISOString_nonempty t).
Qed.

(** The fields of a link object, as the pages read them. *)
Lemma link_json_get l :
  Js.get (link_json l) "id" = Some (Js.JNum (Z.of_nat (id l))) /\
  Js.get (link_json l) "code" = Some (Js.JStr (code l)) /\
  Js.get (link_json l) "targetUrl" = Some (Js.JStr (targetUrl l)) /\
  Js.get (link_json l) "clicks" = Some (Js.JNum (clicks l)) /\
  Js.get (link_json l) "createdAt" = Some (date_json (createdAt l)) /\
  Js.get (link_json l) "lastClicked" =
    Some (match lastClicked l with Some t => date_json t | None => Js.JNull end) /\
  Js.get (link_json l) "updatedAt" = Some (date_json (updatedAt l)).
Proof. split_and!; reflexivity. Qed.

(** C37: the pages read back every record the API sends: decoding the
    JSON of a link whose dates are in the range of [Date] with the reads
    the pages make gives the same record, its dates through
    [new Date(iso)] included. *)
Theorem read_link_json l : link_in_range l -> read_link (link_json l) = Some l.
Proof.
  intros (Hc & Hu & Hlc).
  destruct (date_json_parse _ Hc) as (sc & Hsc & Hpc & _).
  destruct (date_json_parse _ Hu) as (su & Hsu & Hpu & _).
  destruct (link_json_get l) as (Hi & Hco & Ht & Hn & Hca & Hlcl & Hua).
  unfold read_link. rewrite Hi, Hco, Ht, Hn, Hca, Hua, Hlcl, Hsc, Hsu. cbn -[date_parse].
  rewrite Hpc, Hpu. cbn -[date_parse].
  destruct (lastClicked l) as [t|] eqn:Hl; cbn -[date_parse].
  - destruct (date_json_parse t (Hlc t eq_refl)) as (st & Hst & Hpt & Hne).
    rewrite Hst. cbn -[date_parse].
    replace (negb (String.eqb st "")) with true
      by (symmetry; apply negb_true_iff, String.eqb_neq, Hne).
    rewrite Hpt. cbn. rewrite Nat2Z.id. by destruct l; simpl in *; subst.
  - rewrite Nat2Z.id. by destruct l; simpl in *; subst.
Qed.

(** The JSON of a record in range has the type the pages declare. *)
Lemma link_json_typed l : link_in_range l -> has_type link_type (link_json l) = true.
Proof.
  intros (Hc & Hu & Hlc).
  destruct (date_json_parse _ Hc) as (sc & Hsc & Hpc & _).
  destruct (date_json_parse _ Hu) as (su & Hsu & Hpu & _).
  destruct (link_json_get l) as (Hi & Hco & Ht & Hn & Hca & Hlcl & Hua).
  change (has_type link_type (link_json l)) with
    (match Js.get (link_json l) "id" with Some x => has_type TAny x | None => false end &&
     (match Js.get (link_json l) "code" with Some x => has_type TStr x | None => false end &&
     (match Js.get (link_json l) "targetUrl" with Some x => has_type TStr x | None => false end &&
     (match Js.get (link_json l) "clicks" with Some x => has_type TNum x | None => false end &&
     (match Js.get (link_json l) "createdAt" with Some x => has_type TDate x | None => false end &&
     (match Js.get (link_json l) "lastClicked" with
      | Some x => has_type (TOr TDate TNull) x | None => false end &&
     (match Js.get (link_json l) "updatedAt" with Some x => has_type TDate x | None => false end &&
      true))))))).
  rewrite Hi, Hco, Ht, Hn, Hca, Hua, Hlcl, Hsc, Hsu. cbn -[date_parse]. rewrite Hpc, Hpu.
  destruct (lastClicked l) as [t|] eqn:Hl; [|done].
  destruct (date_json_parse t (Hlc t eq_refl)) as (st & Hst & Hpt & _).
  rewrite Hst. cbn -[date_parse]. by rewrite Hpt.
Qed.

(** The JSON of a record in range also has the dashboard's type. *)
Lemma link_json_dash_typed l : link_in_range l -> has_type dash_link_type (link_json l) = true.
Proof.
  intros (Hc & Hu & Hlc).
  destruct (date_json_parse _ Hc) as (sc & Hsc & _).
  destruct (link_json_get l) as (Hi & Hco & Ht & Hn & Hca & Hlcl & _).
  change (has_type dash_link_type (link_json l)) with
    (match Js.get (link_json l) "id" with Some x => has_type TAny x | None => false end &&
     (match Js.get (link_json l) "code" with Some x => has_type TStr x | None => false end &&
     (match Js.get (link_json l) "targetUrl" with Some x => has_type TStr x | None => false end &&
     (match Js.get (link_json l) "clicks" with Some x => has_type TNum x | None => false end &&
     (match Js.get (link_json l) "createdAt" with Some x => has_type TStr x | None => false end &&
     (match Js.get (link_json l) "lastClicked" with
      | Some x => has_type (TOr TStr TNull) x | None => false end && true)))))).
  rewrite Hi, Hco, Ht, Hn, Hca, Hlcl, Hsc. simpl.
  destruct (lastClicked l) as [t|] eqn:Hl; [|done].
  by destruct (date_json_parse t (Hlc t eq_refl)) as (st & -> & _).
Qed.

(** ** Concrete runs *)

Definition sample_link : Link :=
  mkLink 7 "abc123" "https://example.com/a" 2 1700000000000 (Some 1700000100000%Z) 1700000100000.

Lemma read_link_json_witness :
  link_in_range sample_link /\ read_link (link_json sample_link) = Some sample_link.
Proof.
  assert (H : link_in_range sample_link).
  { unfold link_in_range, max_time. simpl. split_and!; [lia | lia |]. intros t [= <-]. lia. }
  split; [exact H | apply read_link_json; exact H].
Defined.

End Wire.
