(* ===== verification/Utils.v ===== *)
(** * Utils: [src/lib/utils.ts]

    [generateRandomCode] draws [length] characters from the 62-character
    alphabet with [Math.random()]; it is a handler that awaits the
    [Random] effect once per character.  [isValidCode] is the regex test
    [/^[A-Za-z0-9]{6,8}$/], run by the ECMAScript matcher of [Regex].
    [isValidUrl] asks the platform's URL parser ([new URL]) whether the
    string parses; the parser is an interface, [UrlParser], with one
    approximate instance of the WHATWG parser for concrete runs.

    Theorems: [isValidCode] equals the reference predicate "6 to 8 ASCII
    letters or digits"; the random index is always inside the alphabet;
    a generated code has the requested length and passes [isValidCode]
    when the length is 6 to 8; and every code of the alphabet is produced
    by some sequence of draws, so the generator can reach the whole code
    space. *)

From S2P Require Import Prelude Regex Schema.
Import Regex Schema.
Local Open Scope tl_scope.

Module Utils.

(** ** [generateRandomCode] (lines 1-8) *)

Definition chars : string :=
  "ABCDEFGHIJKLMNOPQRSTUVWXYZabcdefghijklmnopqrstuvwxyz0123456789".

(** [String.prototype.charAt]: the empty string outside [0, length). *)
Definition charAt (s : string) (i : Z) : string :=
  if (0 <=? i)%Z && (i <? Z.of_nat (String.length s))%Z then
    match String.get (Z.to_nat i) s with
    | Some a => String a EmptyString
    | None => ""
    end
  else "".

(** [Math.floor(Math.random() * n)] for [Math.random() = k / 2^53], with
    the product taken exactly; the double product of the source may round
    up to the next integer at a boundary between two indices. *)
Definition random_index (k n : Z) : Z := (k * n / random_den)%Z.

(** The loop [for (let i = 0; i < length; i++) code += ...], with [n]
    iterations left and [acc] the code built so far. *)
Fixpoint gen_chars (n : nat) (acc : string) : handler string :=
  match n with
  | 0 => mret acc
  | S n' =>
      k ← await Random;
      gen_chars n' (acc +:+ charAt chars (random_index k (Z.of_nat (String.length chars))))
  end.

Definition default_code_length : nat := 6.

Definition generateRandomCode (length : nat) : handler string := gen_chars length "".

(** ** [isValidCode] (lines 10-12) *)

Definition alnum_class : list (ascii * ascii) :=
  [("A", "Z"); ("a", "z"); ("0", "9")]%char.

(** [/^[A-Za-z0-9]{6,8}$/] *)
Definition code_regex : regex := Seq Bol (Seq (Repeat (Class alnum_class) 6 8) Eol).

Definition isValidCode (code : string) : bool :=
  test code_regex (String.list_ascii_of_string code).

(** ** [isValidUrl] (lines 14-20) *)

(** [String(new URL(s))]: the serialised URL, or [None] when the
    constructor throws. *)
Class UrlParser := url_href : string -> option string.

(** [try { new URL(url); return true; } catch { return false; }] *)
Definition isValidUrl `{UrlParser} (url : string) : bool :=
  match url_href url with Some _ => true | None => false end.

(** ** Reference definitions *)

Definition is_alnum (c : ascii) : bool :=
  let n := nat_of_ascii c in
  ((65 <=? n) && (n <=? 90)) || ((97 <=? n) && (n <=? 122)) || ((48 <=? n) && (n <=? 57)).

Definition valid_code_ref (code : string) : bool :=
  (6 <=? String.length code) && (String.length code <=? 8) &&
  forallb is_alnum (String.list_ascii_of_string code).

(** One iteration of the loop for the draw [k], and the code spelled by
    a sequence of [Math.random()] draws. *)
Definition draw_step (acc : string) (k : Z) : string :=
  acc +:+ charAt chars (random_index k 62).

Definition code_of_draws (ks : list Z) : string := foldl draw_step "" ks.

Definition draw_ok (k : Z) : Prop := (0 <= k < random_den)%Z.

(** A draw that selects the character [a]: [ceil(index * 2^53 / 62)]. *)
Definition index_of (a : ascii) : Z :=
  match String.index 0 (String a EmptyString) chars with
  | Some n => Z.of_nat n
  | None => 0
  end.

Definition draw_for (a : ascii) : Z := ((index_of a * random_den + 61) / 62)%Z.

(** ** An approximation of the WHATWG URL parser

    Enough of the parser for concrete runs: leading and trailing C0
    controls and spaces are stripped, tabs and newlines removed; a scheme
    (an ASCII letter, then letters, digits, [+], [-], [.]) and a colon are
    required; a special scheme other than [file] needs a non-empty host
    without spaces after its slashes.  The serialisation lowercases the
    scheme and the host of a special URL, writes [//] after its scheme
    and an empty path as [/]; ports, credentials and percent-encoding are
    not modelled. *)
Module Whatwg.
Definition is_c0_space (c : ascii) : bool := nat_of_ascii c <=? 32.
Definition is_alpha (c : ascii) : bool :=
  let n := nat_of_ascii c in ((65 <=? n) && (n <=? 90)) || ((97 <=? n) && (n <=? 122)).
Definition lower (c : ascii) : ascii :=
  let n := nat_of_ascii c in
  if (65 <=? n) && (n <=? 90) then ascii_of_nat (n + 32) else c.

Fixpoint ltrim (s : list ascii) : list ascii :=
  match s with
  | c :: s' => if is_c0_space c then ltrim s' else s
  | [] => []
  end.

Definition clean (s : string) : list ascii :=
  filter (fun c => negb (bool_decide (nat_of_ascii c ∈ [9; 10; 13])))
    (reverse (ltrim (reverse (ltrim (String.list_ascii_of_string s))))).

Fixpoint scheme_rest (s : list ascii) (acc : list ascii) : option (list ascii * list ascii) :=
  match s with
  | [] => None
  | c :: s' =>
      if bool_decide (c = ":"%char) then Some (reverse acc, s')
      else if is_alnum c || bool_decide (c ∈ ["+"; "-"; "."]%char)
      then scheme_rest s' (lower c :: acc) else None
  end.

Definition split_scheme (s : list ascii) : option (list ascii * list ascii) :=
  match s with
  | c :: s' => if is_alpha c then scheme_rest s' [lower c] else None
  | [] => None
  end.

Fixpoint drop_slashes (l : list ascii) : list ascii :=
  match l with
  | c :: l' => if bool_decide (c ∈ ["/"; "\"]%char) then drop_slashes l' else l
  | [] => []
  end.

Fixpoint host_part (l : list ascii) : list ascii :=
  match l with
  | c :: l' => if bool_decide (c ∈ ["/"; "\"; "?"; "#"]%char) then [] else c :: host_part l'
  | [] => []
  end.

Fixpoint after_host (l : list ascii) : list ascii :=
  match l with
  | c :: l' => if bool_decide (c ∈ ["/"; "\"; "?"; "#"]%char) then l else after_host l'
  | [] => []
  end.

Definition host_ok (host : list ascii) : bool :=
  negb (bool_decide (host = [])) && negb (bool_decide (" "%char ∈ host)).

Definition special : list (list ascii) :=
  map String.list_ascii_of_string ["http"; "https"; "ws"; "wss"; "ftp"].

Definition path_of (p : list ascii) : list ascii :=
  match p with
  | [] => ["/"%char]
  | c :: _ => if bool_decide (c ∈ ["?"; "#"]%char) then "/"%char :: p else p
  end.

Definition href (s : string) : option string :=
  match split_scheme (clean s) with
  | None => None
  | Some (sch, rest) =>
      if bool_decide (sch ∈ special) then
        let r := drop_slashes rest in
        let host := host_part r in
        if host_ok host then
          Some (String.string_of_list_ascii
                  (sch ++ String.list_ascii_of_string "://" ++ map lower host ++ path_of (after_host r)))
        else None
      else Some (String.string_of_list_ascii (sch ++ [":"%char] ++ rest))
  end.

#[export] Instance whatwg_parser : UrlParser := href.
End Whatwg.

(** ** Theorems *)

Lemma in_class_alnum c : in_class alnum_class c = is_alnum c.
Proof.
  unfold in_class, alnum_class, in_range, is_alnum. simpl.
  by rewrite orb_false_r, orb_assoc.
Qed.

(** [isValidCode] against its reference. *)
Lemma isValidCode_ref code : isValidCode code = valid_code_ref code.
Proof.
  apply Bool.eq_true_iff_eq. unfold isValidCode, valid_code_ref.
  rewrite test_spec, !andb_true_iff, !Nat.leb_le, forallb_true_iff,
    Forall_lookup, <- length_list_ascii.
  set (inp := String.list_ascii_of_string code). split.
  - intros (x & y & _ & Hm).
    apply matches_seq_inv in Hm as (x1 & Hb & Hm).
    apply matches_bol_inv in Hb as [-> ->].
    apply matches_seq_inv in Hm as (z & Hr & He).
    apply matches_eol_inv in He as [-> ->].
    apply matches_repeat_class in Hr as (_ & Hb & Hall); [|lia].
    split; [lia|]. intros i a Ha.
    destruct (Hall i) as (a' & Ha' & Hc); [apply lookup_lt_Some in Ha; lia|].
    rewrite Ha in Ha'. injection Ha' as <-. by rewrite <- in_class_alnum.
  - intros [Hlen Hall]. exists 0, (length inp). split; [lia|].
    eapply m_seq; [constructor|]. eapply m_seq; [|constructor].
    apply matches_repeat_class; [lia|]. do 2 (split; [lia|]). intros i Hi.
    destruct (lookup_lt_is_Some_2 inp i) as [a Ha]; [lia|].
    exists a. split; [done|]. rewrite in_class_alnum. by eapply Hall.
Qed.

(** C3: [/^[A-Za-z0-9]{6,8}$/.test(code)] holds exactly when the code has
    6 to 8 characters, all ASCII letters or digits. *)
Theorem isValidCode_correct code : isValidCode code = valid_code_ref code.
Proof. apply isValidCode_ref; assumption. Qed.

(** [Math.floor(Math.random() * n)] is an index in [0, n). *)
Lemma random_index_bound k n :
  draw_ok k -> (0 < n)%Z -> (0 <= random_index k n < n)%Z.
Proof.
  unfold draw_ok, random_index, random_den. intros Hk Hn. split.
  - apply Z.div_pos; lia.
  - apply Z.div_lt_upper_bound; nia.
Qed.

Lemma chars_table :
  forallb (fun n => match charAt chars (Z.of_nat n) with
                    | String a EmptyString => is_alnum a
                    | _ => false
                    end) (seq 0 62) = true.
Proof. vm_compute. reflexivity. Qed.

Lemma charAt_chars i :
  (0 <= i < 62)%Z -> exists a, charAt chars i = String a EmptyString /\ is_alnum a = true.
Proof.
  intros Hi. pose proof chars_table as Ht. rewrite forallb_forall in Ht.
  specialize (Ht (Z.to_nat i)). rewrite Z2Nat.id in Ht by lia.
  destruct (charAt chars i) as [|a [|]]; try (exfalso; apply Bool.diff_false_true, Ht, in_seq; lia).
  exists a. split; [done|]. apply Ht, in_seq. lia.
Qed.

Lemma draw_step_alnum acc k :
  draw_ok k ->
  String.length (draw_step acc k) = S (String.length acc) /\
  forallb is_alnum (String.list_ascii_of_string (draw_step acc k)) =
  forallb is_alnum (String.list_ascii_of_string acc).
Proof.
  intros Hk. destruct (charAt_chars (random_index k 62)) as (a & Ha & Hal).
  { by apply random_index_bound. }
  unfold draw_step. rewrite Ha. autorewrite with tl_str.
  rewrite forallb_app. simpl. rewrite Hal. split; [lia | by rewrite !andb_true_r].
Qed.

Lemma foldl_draw_step_alnum acc ks :
  Forall draw_ok ks ->
  String.length (foldl draw_step acc ks) = String.length acc + length ks /\
  forallb is_alnum (String.list_ascii_of_string (foldl draw_step acc ks)) =
  forallb is_alnum (String.list_ascii_of_string acc).
Proof.
  revert acc. induction ks as [|k ks IH]; intros acc Hks; simpl; [split; [lia | done]|].
  apply Forall_cons in Hks as [Hk Hks].
  destruct (draw_step_alnum acc k Hk) as [Hl Ha].
  destruct (IH (draw_step acc k) Hks) as [Hl' Ha']. split; [lia | congruence].
Qed.

(** The code spelled by [n] valid draws has [n] characters, all in the
    alphabet. *)
Lemma code_of_draws_alnum ks :
  Forall draw_ok ks ->
  String.length (code_of_draws ks) = length ks /\
  forallb is_alnum (String.list_ascii_of_string (code_of_draws ks)) = true.
Proof. intros H. by destruct (foldl_draw_step_alnum "" ks H). Qed.

Lemma draw_for_table :
  forallb (fun n => let a := ascii_of_nat n in
                    implb (is_alnum a)
                      (bool_decide (charAt chars (random_index (draw_for a) 62) = String a EmptyString)
                       && (0 <=? draw_for a)%Z && (draw_for a <? random_den)%Z))
    (seq 0 256) = true.
Proof. vm_compute. reflexivity. Qed.

Lemma draw_for_spec a :
  is_alnum a = true ->
  charAt chars (random_index (draw_for a) 62) = String a EmptyString /\ draw_ok (draw_for a).
Proof.
  intros Ha. pose proof draw_for_table as Ht. rewrite forallb_forall in Ht.
  assert (Hin : In (nat_of_ascii a) (seq 0 256)).
  { apply in_seq. pose proof (nat_ascii_bounded a). lia. }
  specialize (Ht _ Hin). cbv zeta in Ht. rewrite ascii_nat_embedding, Ha in Ht.
  simpl implb in Ht.
  rewrite !andb_true_iff, bool_decide_eq_true, Z.leb_le, Z.ltb_lt in Ht.
  destruct Ht as [[Hc H0] H1]. split; [done | unfold draw_ok; lia].
Qed.

Lemma foldl_draw_for acc l :
  Forall (fun a => is_alnum a = true) l ->
  foldl draw_step acc (map draw_for l) = acc +:+ String.string_of_list_ascii l.
Proof.
  revert acc. induction l as [|a l IH]; intros acc Hl; simpl.
  - by rewrite string_app_nil_r.
  - apply Forall_cons in Hl as [Ha Hl]. rewrite IH by done.
    unfold draw_step. rewrite (proj1 (draw_for_spec a Ha)).
    by rewrite <- string_app_assoc.
Qed.

(** Every code over the alphabet is spelled by some sequence of
    valid draws: the generator can produce the whole code space. *)
Theorem code_of_draws_surjective code :
  forallb is_alnum (String.list_ascii_of_string code) = true ->
  exists ks, Forall draw_ok ks /\ length ks = String.length code /\ code_of_draws ks = code.
Proof.
  intros Hc. apply forallb_true_iff in Hc.
  exists (map draw_for (String.list_ascii_of_string code)). split_and!.
  - apply Forall_map. eapply Forall_impl; [done|]. intros a Ha. by apply draw_for_spec.
  - by rewrite length_map, length_list_ascii.
  - unfold code_of_draws. rewrite foldl_draw_for by done.
    apply String.string_of_list_ascii_of_string.
Qed.

(** ** The generator loop under a source of draws *)

Section Generator.
Context {W : Type} (perform : forall e, W -> (exn + ans e) * W).
Variables (draw : W -> Z) (adv : W -> W).
Hypothesis perform_random : forall w, perform Random w = (inr (draw w), adv w).

Fixpoint draws (n : nat) (w : W) : list Z :=
  match n with 0 => [] | S n' => draw w :: draws n' (adv w) end.

Fixpoint advance (n : nat) (w : W) : W :=
  match n with 0 => w | S n' => advance n' (adv w) end.

Lemma gen_chars_run n acc w :
  run perform (gen_chars n acc) w = (Normal (foldl draw_step acc (draws n w)), advance n w).
Proof.
  revert acc w. induction n as [|n IH]; intros acc w; [done|].
  simpl gen_chars. run_simpl. rewrite perform_random. apply IH.
Qed.

Lemma generateRandomCode_run n w :
  run perform (generateRandomCode n) w = (Normal (code_of_draws (draws n w)), advance n w).
Proof. apply gen_chars_run. Qed.

Hypothesis draw_range : forall w, draw_ok (draw w).

Lemma draws_ok n w : Forall draw_ok (draws n w) /\ length (draws n w) = n.
Proof.
  revert w. induction n as [|n IH]; intros w; simpl; [done|].
  destruct (IH (adv w)). split; [by constructor | lia].
Qed.

(** C14: [generateRandomCode(n)] returns a code of [n] characters of the
    alphabet; for [6 <= n <= 8], in particular the default length 6, the
    code passes [isValidCode]. *)
Theorem generateRandomCode_valid n w :
  6 <= n <= 8 ->
  exists code, run perform (generateRandomCode n) w = (Normal code, advance n w) /\
    String.length code = n /\ isValidCode code = true.
Proof.
  intros Hn. rewrite generateRandomCode_run. eexists. split; [done|].
  destruct (draws_ok n w) as [Hok Hlen].
  destruct (code_of_draws_alnum _ Hok) as [Hl Ha].
  rewrite isValidCode_ref. unfold valid_code_ref.
  rewrite Hl, Hlen, Ha. split; [done|].
  rewrite andb_true_r, andb_true_iff, !Nat.leb_le. lia.
Qed.
End Generator.

(** ** Concrete runs *)

(** A world that is only a position on a tape of draws. *)
Definition tape_perform (tape : nat -> Z) (e : eff) (n : nat) : (exn + ans e) * nat :=
  match e as e0 return (exn + ans e0) * nat with
  | Random => (inr (tape n mod random_den)%Z, S n)
  | Now => (inr 0%Z, n)
  | FindUnique _ | Create _ _ | UpdateClicks _ _ _ | Delete _ | FindMany =>
      (inl (DbError Unreachable), n)
  end.

Definition sample_tape (n : nat) : Z := (Z.of_nat n * 1000000000000007)%Z.

Lemma generateRandomCode_valid_witness :
  exists code, run (tape_perform sample_tape) (generateRandomCode 6) 0 =
    (Normal code, advance (fun n => S n) 6 0) /\
    String.length code = 6 /\ isValidCode code = true.
Proof.
  apply (generateRandomCode_valid (tape_perform sample_tape)
           (fun n => sample_tape n mod random_den)%Z S);
    [reflexivity | intros n; apply Z.mod_pos_bound; reflexivity | lia].
Defined.

Lemma code_of_draws_surjective_witness :
  exists ks, Forall draw_ok ks /\ length ks = String.length "Ab3xY9" /\
             code_of_draws ks = "Ab3xY9".
Proof. apply code_of_draws_surjective. vm_compute. reflexivity. Defined.

End Utils.
