(* ===== verification/Store.v ===== *)
(** * Store: the Link table behind [prisma.link], and the contract the
    handlers rely on

    The handlers of [src/app] reach the database only through the Prisma
    client exported by [@/lib/db] (not among the sources).  [World] is the
    state those calls act on: the Link table keyed by its unique [code]
    column, the next id, whether the database is reachable, the wall
    clock and the [Math.random] tape.  [perform] gives each effect of
    [Schema.eff] its semantics on the world, after the Prisma client's
    argument validation; the ordering of [findMany] is a merge sort on
    [createdAt], newest first.

    The handlers are verified against [LinkStore], an interface with an
    abstract specification [op_spec] of every effect in terms of the
    table only; [World] implements it ([perform_refines]) under the
    invariant [wf], which every effect preserves ([perform_wf]). *)

From S2P Require Import Prelude JsValue Schema Utils.
Import Schema.

Module Store.

(** ** The world *)

Record World : Type := mkWorld {
  links : gmap string Link;
  next_id : nat;
  db_up : bool;
  clock : Z;
  rng : nat -> Z;
  rng_pos : nat;
}.

Definition with_links (m : gmap string Link) (w : World) : World :=
  mkWorld m (next_id w) (db_up w) (clock w) (rng w) (rng_pos w).

(** The Prisma client accepts a [String] argument only. *)
Definition as_string (v : Js.value) : option string :=
  match v with Js.JStr s => Some s | _ => None end.

Definition new_link (w : World) (c url : string) : Link :=
  mkLink (next_id w) c url 0 (clock w) None (clock w).

(** [data: { clicks: n, lastClicked: t }]; [@updatedAt] is set to now. *)
Definition clicked (l : Link) (n t now : Z) : Link :=
  mkLink (id l) (code l) (targetUrl l) n (createdAt l) (Some t) now.

(** [orderBy: { createdAt: 'desc' }] *)
Definition newer_first (l1 l2 : Link) : Prop := (createdAt l2 <= createdAt l1)%Z.

#[export] Instance newer_first_dec l1 l2 : Decision (newer_first l1 l2).
Proof. unfold newer_first. apply _. Defined.

Definition order_desc (ls : list Link) : list Link := merge_sort newer_first ls.

(** ** The queries *)

Definition failed {A} (e : db_error) (w : World) : (exn + A) * World :=
  (inl (DbError e), w).

Definition db_find (c : Js.value) (w : World) : (exn + option Link) * World :=
  match as_string c with
  | None => failed ValidationError w
  | Some s => if db_up w then (inr (links w !! s), w) else failed Unreachable w
  end.

Definition db_create (c url : Js.value) (w : World) : (exn + Link) * World :=
  match as_string c, as_string url with
  | Some s, Some u =>
      if db_up w then
        match links w !! s with
        | Some _ => failed UniqueViolation w
        | None =>
            let l := new_link w s u in
            (inr l, mkWorld (<[s := l]> (links w)) (S (next_id w)) (db_up w)
                      (clock w) (rng w) (rng_pos w))
        end
      else failed Unreachable w
  | _, _ => failed ValidationError w
  end.

Definition db_update (c : Js.value) (n t : Z) (w : World) : (exn + Link) * World :=
  match as_string c with
  | None => failed ValidationError w
  | Some s =>
      if db_up w then
        match links w !! s with
        | None => failed RecordNotFound w
        | Some l =>
            if in_int4 n then
              let l' := clicked l n t (clock w) in
              (inr l', with_links (<[s := l']> (links w)) w)
            else failed ValueOutOfRange w
        end
      else failed Unreachable w
  end.

Definition db_delete (c : Js.value) (w : World) : (exn + Link) * World :=
  match as_string c with
  | None => failed ValidationError w
  | Some s =>
      if db_up w then
        match links w !! s with
        | None => failed RecordNotFound w
        | Some l => (inr l, with_links (delete s (links w)) w)
        end
      else failed Unreachable w
  end.

Definition db_find_many (w : World) : (exn + list Link) * World :=
  if db_up w then (inr (order_desc (map_to_list (links w)).*2), w)
  else failed Unreachable w.

(** [Math.random()]: the next value of the tape, as [k / 2^53]. *)
Definition random (w : World) : (exn + Z) * World :=
  (inr (rng w (rng_pos w) mod random_den)%Z,
   mkWorld (links w) (next_id w) (db_up w) (clock w) (rng w) (S (rng_pos w))).

Definition perform (e : eff) (w : World) : (exn + ans e) * World :=
  match e as e0 return (exn + ans e0) * World with
  | FindUnique c => db_find c w
  | Create c url => db_create c url w
  | UpdateClicks c n t => db_update c n t w
  | Delete c => db_delete c w
  | FindMany => db_find_many w
  | Random => random w
  | Now => (inr (clock w), w)
  end.

(** ** The abstract specification of the effects

    [op_spec e m up now r m']: performing [e] on a table [m], with the
    database reachable or not ([up]) at time [now], may answer [r] and
    leave the table [m']. *)

Definition fresh_id (m : gmap string Link) (i : nat) : Prop :=
  map_Forall (fun _ l => id l <> i) m.

(** A query on a string argument: fails when the database is down. *)
Definition on_db (up : bool) {A} (r : exn + A) (m m' : gmap string Link)
    (P : Prop) : Prop :=
  if up then P else r = inl (DbError Unreachable) /\ m' = m.

Definition op_spec (e : eff) (m : gmap string Link) (up : bool) (now : Z)
    (r : exn + ans e) (m' : gmap string Link) : Prop :=
  match e as e0 return exn + ans e0 -> Prop with
  | FindUnique c => fun r =>
      match as_string c with
      | None => r = inl (DbError ValidationError) /\ m' = m
      | Some s => on_db up r m m' (r = inr (m !! s) /\ m' = m)
      end
  | Create c u => fun r =>
      match as_string c, as_string u with
      | Some s, Some url =>
          on_db up r m m'
            (match m !! s with
             | Some _ => r = inl (DbError UniqueViolation) /\ m' = m
             | None => exists i, fresh_id m i /\
                 r = inr (mkLink i s url 0 now None now) /\
                 m' = <[s := mkLink i s url 0 now None now]> m
             end)
      | _, _ => r = inl (DbError ValidationError) /\ m' = m
      end
  | UpdateClicks c n t => fun r =>
      match as_string c with
      | None => r = inl (DbError ValidationError) /\ m' = m
      | Some s =>
          on_db up r m m'
            (match m !! s with
             | None => r = inl (DbError RecordNotFound) /\ m' = m
             | Some l =>
                 if in_int4 n then r = inr (clicked l n t now) /\ m' = <[s := clicked l n t now]> m
                 else r = inl (DbError ValueOutOfRange) /\ m' = m
             end)
      end
  | Delete c => fun r =>
      match as_string c with
      | None => r = inl (DbError ValidationError) /\ m' = m
      | Some s =>
          on_db up r m m'
            (match m !! s with
             | None => r = inl (DbError RecordNotFound) /\ m' = m
             | Some l => r = inr l /\ m' = delete s m
             end)
      end
  | FindMany => fun r =>
      on_db up r m m'
        (exists ls, r = inr ls /\ ls ≡ₚ (map_to_list m).*2 /\
                    Sorted newer_first ls /\ m' = m)
  | Random => fun r => exists k, r = inr k /\ Utils.draw_ok k /\ m' = m
  | Now => fun r => r = inr now /\ m' = m
  end r.

(** ** The interface the handlers are verified against *)

Class LinkStore (W : Type) := {
  ls_perform : forall e, W -> (exn + ans e) * W;
  ls_links : W -> gmap string Link;
  ls_up : W -> bool;
  ls_clock : W -> Z;
  ls_inv : W -> Prop;
}.

(** Every effect meets [op_spec], leaves connectivity and clock alone and
    preserves the implementation's invariant. *)
Class LinkStoreLaws (W : Type) `{LinkStore W} := {
  ls_spec : forall e w, ls_inv w ->
    op_spec e (ls_links w) (ls_up w) (ls_clock w)
      (ls_perform e w).1 (ls_links (ls_perform e w).2) /\
    ls_up (ls_perform e w).2 = ls_up w /\
    ls_clock (ls_perform e w).2 = ls_clock w /\
    ls_inv (ls_perform e w).2;
}.

(** [ls_norm H]: state [H] in terms of the first world of the run, with
    the equations on [ls_up], [ls_clock] and [ls_links] gathered so far. *)
Ltac ls_norm H :=
  repeat match goal with
  | E : ls_up _ = _ |- _ => progress rewrite E in H
  | E : ls_clock _ = _ |- _ => progress rewrite E in H
  | E : ls_links _ = _ |- _ => progress rewrite E in H
  end.

(** [ls_step]: perform the next effect of a run symbolically, with what
    the contract says about its answer and the world it leaves. *)
Ltac ls_step :=
  match goal with
  | Hi : ls_inv ?w |- context [ls_perform ?e ?w] =>
      let Hs := fresh "Hs" in let Hu := fresh "Hup" in let Hc := fresh "Hclk" in
      let Hi' := fresh "Hinv" in let r := fresh "r" in let w' := fresh "w" in
      destruct (ls_spec e w Hi) as (Hs & Hu & Hc & Hi');
      destruct (ls_perform e w) as [r w']; simpl in Hs, Hu, Hc, Hi';
      unfold on_db in Hs; ls_norm Hs
  end.

Section Frame.
Context {W : Type} `{LinkStoreLaws W}.

(** Any handler preserves the store's invariant, and leaves the
    connectivity and the clock to the environment. *)
Lemma run_frame {A} (p : handler A) w :
  ls_inv w ->
  ls_inv (run ls_perform p w).2 /\ ls_up (run ls_perform p w).2 = ls_up w /\
  ls_clock (run ls_perform p w).2 = ls_clock w.
Proof.
  revert w. induction p as [| | |e k IH]; intros w Hi; simpl; try done.
  destruct (ls_spec e w Hi) as (_ & Hu & Hc & Hi').
  destruct (ls_perform e w) as [r w'] eqn:E; simpl in *.
  destruct (IH r w' Hi') as (? & -> & ->). done.
Qed.

(** ** Handlers that only read the table

    [reads e] holds of the queries that do not write ([findUnique],
    [findMany]) and of [Math.random()] and [new Date()]; [reads_only p]
    says that every effect [p] may await is one of them. *)

Definition reads (e : eff) : bool :=
  match e with FindUnique _ | FindMany | Random | Now => true | _ => false end.

Inductive reads_only {A} : handler A -> Prop :=
| ro_ret a : reads_only (Ret a)
| ro_throw x : reads_only (Throw x)
| ro_loop : reads_only Loop
| ro_call e k : reads e = true -> (forall r, reads_only (k r)) -> reads_only (Call e k).

Lemma reads_only_bind {A B} (p : handler A) (f : A -> handler B) :
  reads_only p -> (forall a, reads_only (f a)) -> reads_only (x ← p; f x).
Proof.
  intros Hp Hf. change (reads_only (bind p f)).
  induction Hp; simpl; [apply Hf | constructor.. | constructor; auto].
Qed.

Lemma reads_only_call e : reads e = true -> reads_only (call e).
Proof. intros He. constructor; [done|]. intros [x|a]; constructor. Qed.

Lemma op_spec_reads e m up now r m' : reads e = true -> op_spec e m up now r m' -> m' = m.
Proof.
  destruct e; intros He; try discriminate; simpl; unfold on_db.
  - destruct (as_string c); [|tauto]. destruct up; tauto.
  - destruct up; [intros (? & _ & _ & _ & ->)|intros [_ ->]]; done.
  - by intros (_ & _ & _ & ->).
  - by intros [_ ->].
Qed.

(** A handler that only reads leaves the table as it found it. *)
Lemma run_reads_only {A} (p : handler A) w :
  ls_inv w -> reads_only p -> ls_links (run ls_perform p w).2 = ls_links w.
Proof.
  intros Hi Hp. revert w Hi. induction Hp as [| | |e k He _ IH]; intros w Hi; simpl; try done.
  destruct (ls_spec e w Hi) as (Hs & _ & _ & Hi').
  destruct (ls_perform e w) as [r w']. simpl in *.
  rewrite (IH r w' Hi'). by eapply op_spec_reads.
Qed.
End Frame.

#[export] Hint Resolve reads_only_bind reads_only_call ro_ret ro_throw ro_loop : tinylink.

(** [await e] of a reading effect, with [e] given to the dependent [ans e]. *)
Ltac ro_call := match goal with |- reads_only (call ?e) => exact (reads_only_call e eq_refl) end.

(** ** The invariant of the table *)

Definition link_ok (next : nat) (now : Z) (s : string) (l : Link) : Prop :=
  code l = s /\ id l < next /\ in_int4 (clicks l) = true /\
  ((0 < clicks l)%Z -> is_Some (lastClicked l)) /\
  (createdAt l <= updatedAt l <= now)%Z.

Definition ids_unique (m : gmap string Link) : Prop :=
  forall s1 s2 l1 l2, m !! s1 = Some l1 -> m !! s2 = Some l2 -> id l1 = id l2 -> s1 = s2.

Definition wf (w : World) : Prop :=
  map_Forall (link_ok (next_id w) (clock w)) (links w) /\ ids_unique (links w).

Lemma link_ok_mono n n' t t' s l :
  n <= n' -> (t <= t')%Z -> link_ok n t s l -> link_ok n' t' s l.
Proof. unfold link_ok. intros ? ? (? & ? & ? & ? & ?). split_and!; auto; lia. Qed.

Lemma ids_unique_insert_fresh m s l :
  ids_unique m -> fresh_id m (id l) -> ids_unique (<[s := l]> m).
Proof.
  intros Hu Hf s1 s2 l1 l2 H1 H2 Heq.
  apply lookup_insert_Some in H1 as [[<- <-]|[Hne1 H1]];
  apply lookup_insert_Some in H2 as [[<- <-]|[Hne2 H2]]; try done.
  - by destruct (Hf _ _ H2).
  - by destruct (Hf _ _ H1).
  - by eapply Hu.
Qed.

Lemma ids_unique_insert_same m s l l' :
  ids_unique m -> m !! s = Some l -> id l' = id l -> ids_unique (<[s := l']> m).
Proof.
  intros Hu Hs Hid s1 s2 l1 l2 H1 H2 Heq.
  apply lookup_insert_Some in H1 as [[<- <-]|[Hne1 H1]];
  apply lookup_insert_Some in H2 as [[<- <-]|[Hne2 H2]]; try done;
  eapply Hu; eauto; congruence.
Qed.

Lemma ids_unique_delete m s : ids_unique m -> ids_unique (delete s m).
Proof.
  intros Hu s1 s2 l1 l2 H1 H2. apply lookup_delete_Some in H1 as [_ H1].
  apply lookup_delete_Some in H2 as [_ H2]. eauto.
Qed.

#[export] Hint Resolve ids_unique_insert_fresh ids_unique_insert_same ids_unique_delete : tinylink.

(** [next_id] is fresh in a well-formed world. *)
Lemma wf_fresh w : wf w -> fresh_id (links w) (next_id w).
Proof.
  intros [Hok _] s l Hl. destruct (Hok s l Hl) as (_ & ? & _). lia.
Qed.

(** An executable check of [wf], for concrete worlds. *)
Definition wf_check (w : World) : bool :=
  bool_decide (map_Forall (link_ok (next_id w) (clock w)) (links w)) &&
  bool_decide (map_Forall (fun s1 l1 =>
                 map_Forall (fun s2 l2 => id l1 = id l2 -> s1 = s2) (links w)) (links w)).

Lemma wf_check_sound w : wf_check w = true -> wf w.
Proof.
  unfold wf_check. rewrite andb_true_iff, !bool_decide_eq_true.
  intros [Hok Hu]. split; [done|]. intros s1 s2 l1 l2 H1 H2. exact (Hu _ _ H1 _ _ H2).
Qed.

Lemma link_ok_new w s u :
  link_ok (S (next_id w)) (clock w) s (new_link w s u).
Proof. unfold link_ok, new_link. simpl. split_and!; try done; lia. Qed.

Lemma link_ok_clicked next now s l n t :
  link_ok next now s l -> in_int4 n = true -> link_ok next now s (clicked l n t now).
Proof.
  unfold link_ok, clicked. simpl. intros (? & ? & ? & ? & ?) Hn.
  split_and!; try done; lia.
Qed.

(** Every effect preserves [wf]. *)
Lemma perform_preserves_wf e w : wf w -> wf (perform e w).2.
Proof.
  intros [Hok Hu]. destruct e as [c|c u|c n t|c| | |]; simpl;
    unfold db_find, db_create, db_update, db_delete, db_find_many, random, failed;
    repeat (case_match; simpl); try by split.
  - (* create *)
    split; [|apply ids_unique_insert_fresh; [done | by apply wf_fresh]].
    apply map_Forall_insert_2; [apply (link_ok_new w)|].
    eapply map_Forall_impl; [done|]. intros i x Hx.
    apply (link_ok_mono (next_id w) _ (clock w)); simpl; [lia | lia | done].
  - (* update *)
    split; [|eapply ids_unique_insert_same; eauto].
    apply map_Forall_insert_2; [|done]. apply link_ok_clicked; [|done].
    by apply Hok.
  - (* delete *)
    split; [by apply map_Forall_delete | by apply ids_unique_delete].
Qed.

(** C4: every effect preserves the invariant of the table: keys are the
    records' codes, ids are unique and below the counter, [clicks] fits
    its 32-bit column, [clicks > 0] implies [lastClicked] is set, and
    [createdAt <= updatedAt <= now]. *)
Theorem perform_wf e w : wf w -> wf (perform e w).2.
Proof. apply perform_preserves_wf; assumption. Qed.

Lemma order_desc_spec ls : order_desc ls ≡ₚ ls /\ Sorted newer_first (order_desc ls).
Proof.
  split; [apply merge_sort_Permutation|].
  apply Sorted_merge_sort. intros l1 l2. unfold newer_first. lia.
Qed.

(** Every effect meets [op_spec]. *)
Lemma perform_op_spec e w :
  wf w ->
  op_spec e (links w) (db_up w) (clock w) (perform e w).1 (links (perform e w).2).
Proof.
  intros Hw. destruct e as [c|c u|c n t|c| | |]; simpl;
    unfold db_find, db_create, db_update, db_delete, db_find_many, random,
      failed, on_db; simpl.
  - destruct (as_string c); [|done]. by destruct (db_up w).
  - destruct (as_string c), (as_string u); try done. destruct (db_up w); [|done].
    destruct (links w !! _); [done|]. exists (next_id w). split; [by apply wf_fresh | done].
  - destruct (as_string c); [|done]. destruct (db_up w); [|done].
    destruct (links w !! _); [|done]. by destruct (in_int4 n).
  - destruct (as_string c); [|done]. destruct (db_up w); [|done].
    by destruct (links w !! _).
  - destruct (db_up w); [|done]. eexists. split_and!; [done | apply order_desc_spec.. | done].
  - eexists. split_and!; [done| |done]. unfold Utils.draw_ok, random_den.
    apply Z.mod_pos_bound. lia.
  - done.
Qed.

(** The Prisma-backed world implements the abstract specification of
    every effect (a functional refinement of [op_spec]). *)
Theorem perform_refines e w :
  wf w ->
  op_spec e (links w) (db_up w) (clock w) (perform e w).1 (links (perform e w).2).
Proof. apply perform_op_spec; assumption. Qed.

Lemma perform_frame e w :
  db_up (perform e w).2 = db_up w /\ clock (perform e w).2 = clock w.
Proof.
  destruct e; simpl;
    unfold db_find, db_create, db_update, db_delete, db_find_many, random, failed;
    repeat (case_match; simpl); done.
Qed.

#[export] Instance world_store : LinkStore World := {|
  ls_perform := perform;
  ls_links := links;
  ls_up := db_up;
  ls_clock := clock;
  ls_inv := wf;
|}.

#[export] Instance world_store_laws : LinkStoreLaws World.
Proof.
  constructor. intros e w Hw. simpl.
  destruct (perform_frame e w). split_and!; try done.
  - by apply perform_op_spec.
  - by apply perform_preserves_wf.
Qed.

(** ** Concrete runs *)

Definition store_sample : World :=
  mkWorld {[ "abc123" := mkLink 0 "abc123" "https://example.com/a" 2 100 (Some 150%Z) 150 ]}
    1 true 200 (fun _ => 0%Z) 0.

Lemma perform_wf_witness :
  wf (perform (UpdateClicks (Js.JStr "abc123") 3 200) store_sample).2.
Proof. apply perform_wf. apply wf_check_sound. vm_compute. reflexivity. Defined.

Lemma perform_refines_witness :
  op_spec (Create (Js.JStr "xyz789") (Js.JStr "https://example.com/b"))
    (links store_sample) (db_up store_sample) (clock store_sample)
    (perform (Create (Js.JStr "xyz789") (Js.JStr "https://example.com/b")) store_sample).1
    (links (perform (Create (Js.JStr "xyz789") (Js.JStr "https://example.com/b")) store_sample).2).
Proof. apply perform_refines. apply wf_check_sound. vm_compute. reflexivity. Defined.

End Store.
