(* ===== verification/Redirect.v ===== *)
(** * Redirect: [src/app/[code]/route.ts]

    [GET /{code}] looks the code up, answers 404 when it is absent, and
    otherwise writes [clicks: link.clicks + 1, lastClicked: new Date()]
    and redirects with status 302.  Any exception in between becomes a 500.
    [GET] is the handler as a program over the effects of [Schema]; the
    redirect goes through [NextResponse.redirect], whose [validateURL]
    serialises the target with [String(new URL(url))].

    [redirect_ref] is the same request as a function of the abstract
    table; [GET_spec] proves that every run of the handler, in any world
    that implements [LinkStore], answers and updates the table as
    [redirect_ref] says. *)

From S2P Require Import Prelude JsValue Schema Utils Store.
Import Schema Utils Store.
Local Open Scope tl_scope.

Module Redirect.

Definition not_found : response := RJson 404 (BError "Not found").
Definition internal_error : response := RJson 500 (BError "Internal server error").

(** [export async function GET(request, { params })] *)
Definition GET `{UrlParser} (c : string) : handler response :=
  catch
    (link ← await (FindUnique (Js.JStr c));
     match link with
     | None => mret not_found
     | Some l =>
         t ← await Now;
         _ ← await (UpdateClicks (Js.JStr c) (clicks l + 1) t);
         match url_href (targetUrl l) with
         | Some loc => mret (RRedirect 302 loc)
         | None => Throw MalformedUrl
         end
     end)
    (fun _ => mret internal_error).

(** The request on the abstract table [m], with the database reachable
    or not, at time [now]. *)
Definition redirect_ref `{UrlParser} (m : gmap string Link) (up : bool) (now : Z)
    (c : string) : response * gmap string Link :=
  if up then
    match m !! c with
    | None => (not_found, m)
    | Some l =>
        if in_int4 (clicks l + 1) then
          let m' := <[c := clicked l (clicks l + 1) now now]> m in
          match url_href (targetUrl l) with
          | Some loc => (RRedirect 302 loc, m')
          | None => (internal_error, m')
          end
        else (internal_error, m)
    end
  else (internal_error, m).

Section Spec.
Context `{UrlParser} {W : Type} `{LinkStoreLaws W}.

(** The run of [GET /{code}] against [redirect_ref]. *)
Lemma GET_run c w :
  ls_inv w ->
  let '(o, w') := run ls_perform (GET c) w in
  o = Normal (redirect_ref (ls_links w) (ls_up w) (ls_clock w) c).1 /\
  ls_links w' = (redirect_ref (ls_links w) (ls_up w) (ls_clock w) c).2 /\
  ls_inv w'.
Proof.
  intros Hi. unfold GET, redirect_ref. run_simpl.
  destruct (ls_up w) eqn:Hu0; ls_step; destruct Hs as [-> Hm]; run_simpl;
    [|by rewrite Hm].
  destruct (ls_links w !! c) as [l|] eqn:Hl; run_simpl; [|by rewrite Hm].
  ls_step. destruct Hs as [-> Hm1]. run_simpl.
  ls_step. rewrite Hl in Hs.
  destruct (in_int4 (clicks l + 1)); destruct Hs as [-> Hm2]; run_simpl;
    [|by rewrite Hm2].
  destruct (url_href (targetUrl l)); run_simpl; by rewrite Hm2.
Qed.

(** C1: every run of [GET /{code}] answers and changes the table as
    [redirect_ref] says: 500 when the database is unreachable, 404 for
    an unknown code, 500 without a write when [clicks + 1] leaves the
    32-bit column, and otherwise the click recorded ([clicks + 1],
    [lastClicked] and [updatedAt] set to now) with a 302 to the
    serialised target, or a 500 after the write when the target does not
    parse; the invariant of the store is preserved. *)
Theorem GET_spec c w :
  ls_inv w ->
  let '(o, w') := run ls_perform (GET c) w in
  o = Normal (redirect_ref (ls_links w) (ls_up w) (ls_clock w) c).1 /\
  ls_links w' = (redirect_ref (ls_links w) (ls_up w) (ls_clock w) c).2 /\
  ls_inv w'.
Proof. apply GET_run; assumption. Qed.

(** A redirect to an unknown code answers 404 and performs no
    mutation of the table. *)
Corollary GET_unknown_code c w :
  ls_inv w -> ls_up w = true -> ls_links w !! c = None ->
  exists w', run ls_perform (GET c) w = (Normal not_found, w') /\ ls_links w' = ls_links w.
Proof.
  intros Hi Hu Hl. pose proof (GET_run c w Hi) as Hs.
  destruct (run _ _ _) as [o w']. unfold redirect_ref in Hs. rewrite Hu, Hl in Hs.
  destruct Hs as (-> & Hm & _). eauto.
Qed.

(** A redirect to a stored code. *)
Lemma GET_known_run c l loc w :
  ls_inv w -> ls_up w = true -> ls_links w !! c = Some l ->
  (0 <= clicks l < int4_max)%Z -> url_href (targetUrl l) = Some loc ->
  exists w', run ls_perform (GET c) w = (Normal (RRedirect 302 loc), w') /\
    ls_links w' = <[c := clicked l (clicks l + 1) (ls_clock w) (ls_clock w)]> (ls_links w).
Proof.
  intros Hi Hu Hl Hc Hloc. pose proof (GET_run c w Hi) as Hs.
  destruct (run _ _ _) as [o w']. unfold redirect_ref in Hs. rewrite Hu, Hl, Hloc in Hs.
  replace (in_int4 (clicks l + 1)) with true in Hs.
  - destruct Hs as (-> & Hm & _). eauto.
  - symmetry. unfold in_int4, int4_min, int4_max in *.
    rewrite andb_true_iff, !Z.leb_le. lia.
Qed.

(** C19: a redirect to a stored code whose counter can still grow
    answers 302 with the serialised target and records exactly one
    click: [clicks + 1], [lastClicked] and [updatedAt] set to now. *)
Corollary GET_known_code c l loc w :
  ls_inv w -> ls_up w = true -> ls_links w !! c = Some l ->
  (0 <= clicks l < int4_max)%Z -> url_href (targetUrl l) = Some loc ->
  exists w', run ls_perform (GET c) w = (Normal (RRedirect 302 loc), w') /\
    ls_links w' = <[c := clicked l (clicks l + 1) (ls_clock w) (ls_clock w)]> (ls_links w).
Proof. apply GET_known_run; assumption. Qed.

(** C18: once a link has [2^31 - 1] clicks, every redirect to it fails
    with 500 and leaves the table unchanged: the increment does not fit
    the [Int] column. *)
Corollary GET_click_overflow c l w :
  ls_inv w -> ls_up w = true -> ls_links w !! c = Some l -> clicks l = int4_max ->
  exists w', run ls_perform (GET c) w = (Normal internal_error, w') /\ ls_links w' = ls_links w.
Proof.
  intros Hi Hu Hl Hc. pose proof (GET_run c w Hi) as Hs.
  destruct (run _ _ _) as [o w']. unfold redirect_ref in Hs. rewrite Hu, Hl, Hc in Hs.
  simpl in Hs. destruct Hs as (-> & Hm & _). eauto.
Qed.
End Spec.

(** ** Concrete runs, with the approximate WHATWG parser *)

Import Whatwg.

Definition sample_link (url : string) (n : Z) : Link :=
  mkLink 0 "abc123" url n 100 (if decide (n = 0%Z) then None else Some 150%Z) 150.

Definition sample_world (url : string) (n : Z) : World :=
  mkWorld {[ "abc123" := sample_link url n ]} 1 true 200 (fun _ => 0%Z) 0.

Lemma GET_spec_witness :
  let '(o, w') := run ls_perform (GET "abc123") (sample_world "https://example.com/a" 0) in
  o = Normal (redirect_ref (ls_links (sample_world "https://example.com/a" 0))
                (ls_up (sample_world "https://example.com/a" 0))
                (ls_clock (sample_world "https://example.com/a" 0)) "abc123").1 /\
  ls_links w' = (redirect_ref (ls_links (sample_world "https://example.com/a" 0))
                   (ls_up (sample_world "https://example.com/a" 0))
                   (ls_clock (sample_world "https://example.com/a" 0)) "abc123").2 /\
  ls_inv w'.
Proof. apply GET_spec. apply wf_check_sound. vm_compute. reflexivity. Defined.

Lemma GET_unknown_code_witness :
  exists w', run ls_perform (GET "zzz999") (sample_world "https://example.com/a" 0) =
             (Normal not_found, w') /\
           ls_links w' = ls_links (sample_world "https://example.com/a" 0).
Proof.
  apply GET_unknown_code; [apply wf_check_sound; vm_compute | ..]; reflexivity.
Defined.

Lemma GET_known_code_witness :
  exists w', run ls_perform (GET "abc123") (sample_world "https://example.com/a" 0) =
             (Normal (RRedirect 302 "https://example.com/a"), w') /\
           ls_links w' =
             <[ "abc123" := clicked (sample_link "https://example.com/a" 0)
                              (clicks (sample_link "https://example.com/a" 0) + 1)
                              (ls_clock (sample_world "https://example.com/a" 0))
                              (ls_clock (sample_world "https://example.com/a" 0)) ]>
               (ls_links (sample_world "https://example.com/a" 0)).
Proof.
  apply (GET_known_code "abc123" (sample_link "https://example.com/a" 0));
    [apply wf_check_sound; vm_compute; reflexivity | reflexivity | reflexivity
    | unfold int4_max; simpl; lia | vm_compute; reflexivity].
Defined.

Lemma GET_click_overflow_witness :
  exists w', run ls_perform (GET "abc123") (sample_world "https://example.com/a" int4_max) =
             (Normal internal_error, w') /\
           ls_links w' = ls_links (sample_world "https://example.com/a" int4_max).
Proof.
  apply (GET_click_overflow "abc123" (sample_link "https://example.com/a" int4_max));
    [apply wf_check_sound; vm_compute | ..]; reflexivity.
Defined.

(** The [Location] of the redirect is the URL parser's
    serialisation of the stored target, not the stored string: a link to
    [https://Example.com] redirects to [https://example.com/]. *)
Example GET_location_normalised :
  (run ls_perform (GET "abc123") (sample_world "https://Example.com" 0)).1 =
    Normal (RRedirect 302 "https://example.com/") /\
  targetUrl (sample_link "https://Example.com" 0) <> "https://example.com/".
Proof. split; [vm_compute; reflexivity | discriminate]. Qed.

End Redirect.
