(* ===== verification/Admin.v ===== *)
(** * Admin: [src/app/api/links/route.ts] and [src/app/api/links/[code]/route.ts]

    The link administration API.  [POST] reads [{ targetUrl, code }] from
    the JSON body, answers 400 when [targetUrl] is missing or does not
    parse, validates a supplied [code] (400) and checks that it is free
    (409), or else draws random codes until one is free; it then creates
    the link and answers 201.  [GET_list] returns every link, newest
    first; [GET_one] and [DELETE] answer 404 for an unknown code.  Every
    exception becomes a 500.

    The [while] loop of [POST] has no bound in the source; [gen_loop]
    runs it with [fuel] checks and ends in [Loop] (a [Diverged] outcome)
    when the fuel runs out, and the theorems on it hold for every fuel.

    The handlers are verified against the [LinkStore] interface:
    reference functions on the abstract table give the answer and the
    new table of [GET_one], [DELETE], [GET_list] and of [POST] with a
    supplied code; [POST] without a code creates a 6-character valid code
    that was free. *)

From S2P Require Import Prelude JsValue Schema Utils Store.
Import Schema Utils Store.
Local Open Scope tl_scope.

Module Admin.

(** ** [POST /api/links] *)

Definition bad_request (msg : string) : response := RJson 400 (BError msg).

(** [await request.json()]: [None] is a body that is not JSON. *)
Definition read_json (body : option Js.value) : handler Js.value :=
  match body with Some v => mret v | None => Throw SyntaxError end.

(** [const { targetUrl, code } = body] *)
Definition read_fields (v : Js.value) : handler (option Js.value * option Js.value) :=
  match Js.destructure v "targetUrl" "code" with
  | inl _ => Throw TypeError
  | inr fields => mret fields
  end.

(** [while (await prisma.link.findUnique({ where: { code: shortCode } }))
      { shortCode = generateRandomCode(); }] with [fuel] checks. *)
Fixpoint gen_loop (fuel : nat) (sc : string) : handler string :=
  match fuel with
  | 0 => Loop
  | S fuel' =>
      found ← await (FindUnique (Js.JStr sc));
      match found with
      | None => mret sc
      | Some _ => sc' ← generateRandomCode default_code_length; gen_loop fuel' sc'
      end
  end.

(** The [else] branch: [shortCode = generateRandomCode();] then the loop. *)
Definition gen_unique (fuel : nat) : handler string :=
  sc ← generateRandomCode default_code_length; gen_loop fuel sc.

(** [prisma.link.create({ data: { code: shortCode, targetUrl } })] and the
    201 answer. *)
Definition create_link (sc tu : Js.value) : handler response :=
  link ← await (Create sc tu); mret (RJson 201 (BLink link)).

Definition POST `{UrlParser} (fuel : nat) (body : option Js.value) : handler response :=
  catch
    (v ← read_json body;
     '(tu, c) ← read_fields v;
     match tu with
     | Some tu' =>
       if negb (Js.truthy tu) then mret (bad_request "targetUrl is required")
       else if negb (isValidUrl (Js.to_string tu')) then mret (bad_request "Invalid URL format")
       else
         match c with
         | Some c' =>
           if Js.truthy c then
             if negb (isValidCode (Js.to_string c')) then
               mret (bad_request "Code must be 6-8 alphanumeric characters")
             else
               existing ← await (FindUnique c');
               match existing with
               | Some _ => mret (RJson 409 (BError "Code already exists"))
               | None => create_link c' tu'
               end
           else sc ← gen_unique fuel; create_link (Js.JStr sc) tu'
         | None => sc ← gen_unique fuel; create_link (Js.JStr sc) tu'
         end
     | None => mret (bad_request "targetUrl is required")
     end)
    (fun _ => mret (RJson 500 (BError "Failed to create link"))).

(** ** [GET /api/links] *)

Definition GET_list : handler response :=
  catch
    (links ← await FindMany; mret (RJson 200 (BLinks links)))
    (fun _ => mret (RJson 500 (BError "Failed to fetch links"))).

(** ** [GET /api/links/{code}] and [DELETE /api/links/{code}] *)

Definition link_not_found : response := RJson 404 (BError "Link not found").

Definition GET_one (c : string) : handler response :=
  catch
    (link ← await (FindUnique (Js.JStr c));
     match link with
     | None => mret link_not_found
     | Some l => mret (RJson 200 (BLink l))
     end)
    (fun _ => mret (RJson 500 (BError "Failed to fetch link"))).

Definition DELETE (c : string) : handler response :=
  catch
    (link ← await (FindUnique (Js.JStr c));
     match link with
     | None => mret link_not_found
     | Some _ => await (Delete (Js.JStr c));; mret (RJson 200 BSuccess)
     end)
    (fun _ => mret (RJson 500 (BError "Failed to delete link"))).

(** ** Reference functions on the abstract table *)

Definition fetch_failed : response := RJson 500 (BError "Failed to fetch link").
Definition delete_failed : response := RJson 500 (BError "Failed to delete link").

Definition get_one_ref (m : gmap string Link) (up : bool) (c : string) : response :=
  if up then
    match m !! c with None => link_not_found | Some l => RJson 200 (BLink l) end
  else fetch_failed.

Definition delete_ref (m : gmap string Link) (up : bool) (c : string)
    : response * gmap string Link :=
  if up then
    match m !! c with
    | None => (link_not_found, m)
    | Some _ => (RJson 200 BSuccess, delete c m)
    end
  else (delete_failed, m).

Section Spec.
Context {W : Type} `{LinkStoreLaws W}.

(** The run of [GET /api/links/{code}]. *)
Lemma GET_one_run c w :
  ls_inv w ->
  (run ls_perform (GET_one c) w).1 = Normal (get_one_ref (ls_links w) (ls_up w) c) /\
  ls_links (run ls_perform (GET_one c) w).2 = ls_links w.
Proof.
  intros Hi. unfold GET_one, get_one_ref. run_simpl.
  destruct (ls_up w) eqn:Hu0; ls_step; destruct Hs as [-> Hm]; run_simpl; [|done].
  by destruct (ls_links w !! c).
Qed.

(** C21: [GET /api/links/{code}] answers 200 with the stored record,
    404 for an unknown code and 500 when the database is unreachable,
    and never changes the table. *)
Theorem GET_one_spec c w :
  ls_inv w ->
  (run ls_perform (GET_one c) w).1 = Normal (get_one_ref (ls_links w) (ls_up w) c) /\
  ls_links (run ls_perform (GET_one c) w).2 = ls_links w.
Proof. apply GET_one_run; assumption. Qed.

(** The run of [DELETE]. *)
Lemma DELETE_run c w :
  ls_inv w ->
  (run ls_perform (DELETE c) w).1 = Normal (delete_ref (ls_links w) (ls_up w) c).1 /\
  ls_links (run ls_perform (DELETE c) w).2 = (delete_ref (ls_links w) (ls_up w) c).2.
Proof.
  intros Hi. unfold DELETE, delete_ref. run_simpl.
  destruct (ls_up w) eqn:Hu0; ls_step; destruct Hs as [-> Hm]; run_simpl; [|done].
  destruct (ls_links w !! c) as [l|] eqn:Hl; run_simpl; [|done].
  ls_step. rewrite Hl in Hs. destruct Hs as [-> Hm1]. run_simpl. done.
Qed.

(** C11: [DELETE /api/links/{code}] removes exactly the record of the
    code and answers 200 [{ success: true }], answers 404 for an unknown
    code, and 500 without a change when the database is unreachable. *)
Theorem DELETE_spec c w :
  ls_inv w ->
  (run ls_perform (DELETE c) w).1 = Normal (delete_ref (ls_links w) (ls_up w) c).1 /\
  ls_links (run ls_perform (DELETE c) w).2 = (delete_ref (ls_links w) (ls_up w) c).2.
Proof. apply DELETE_run; assumption. Qed.

(** C30: the spec's deletion property: after a successful
    [DELETE /api/links/{code}] of a stored code, a following
    [GET /api/links/{code}] answers 404. *)
Corollary DELETE_then_GET_one c l w :
  ls_inv w -> ls_up w = true -> ls_links w !! c = Some l ->
  let w1 := (run ls_perform (DELETE c) w).2 in
  (run ls_perform (DELETE c) w).1 = Normal (RJson 200 BSuccess) /\
  (run ls_perform (GET_one c) w1).1 = Normal link_not_found.
Proof.
  intros Hi Hu Hl w1.
  destruct (DELETE_run c w Hi) as [Ho Hm]. destruct (run_frame (DELETE c) w Hi) as (Hi1 & Hu1 & _).
  unfold delete_ref in Ho, Hm. rewrite Hu, Hl in Ho, Hm. split; [done|].
  destruct (GET_one_run c w1 Hi1) as [Ho' _]. rewrite Ho'. unfold get_one_ref.
  subst w1. rewrite Hu1, Hu, Hm. simpl. by rewrite lookup_delete_eq.
Qed.

(** ** [POST] *)


Definition valid6 (sc : string) : Prop := String.length sc = 6 /\ isValidCode sc = true.

Lemma gen_chars_store n acc w :
  ls_inv w ->
  ls_links (run ls_perform (gen_chars n acc) w).2 = ls_links w /\
  exists sc, (run ls_perform (gen_chars n acc) w).1 = Normal sc /\
    String.length sc = String.length acc + n /\
    forallb is_alnum (String.list_ascii_of_string sc) =
    forallb is_alnum (String.list_ascii_of_string acc).
Proof.
  revert acc w. induction n as [|n IH]; intros acc w Hi.
  { split; [done|]. eexists. split_and!; [done | lia | done]. }
  simpl gen_chars. run_simpl. ls_step. destruct Hs as (k & -> & Hk & Hm). simpl.
  destruct (IH (draw_step acc k) _ Hinv) as [Hm' (sc & Ho & Hl & Ha)].
  destruct (draw_step_alnum acc k Hk) as [Hl1 Ha1].
  split; [etransitivity; [exact Hm' | done]|].
  exists sc. split_and!; [exact Ho | lia | congruence].
Qed.

Lemma generateRandomCode_store w :
  ls_inv w ->
  ls_links (run ls_perform (generateRandomCode default_code_length) w).2 = ls_links w /\
  exists sc, (run ls_perform (generateRandomCode default_code_length) w).1 = Normal sc /\
    valid6 sc.
Proof.
  intros Hi. destruct (gen_chars_store default_code_length "" w Hi)
    as [Hm (sc & Ho & Hl & Ha)].
  split; [done|]. exists sc. split; [done|]. split; [done|].
  rewrite isValidCode_ref. unfold valid_code_ref. rewrite Ha, Hl. done.
Qed.

(** The generation of a code only reads the table. *)
Lemma gen_chars_reads n acc : reads_only (gen_chars n acc).
Proof.
  revert acc. induction n as [|n IH]; intros acc; cbn [gen_chars]; [constructor|].
  apply reads_only_bind; [ro_call | intros; apply IH].
Qed.

Lemma gen_loop_reads fuel sc : reads_only (gen_loop fuel sc).
Proof.
  revert sc. induction fuel as [|fuel IH]; intros sc; cbn [gen_loop]; [constructor|].
  apply reads_only_bind; [ro_call|]. intros [?|]; [|constructor].
  apply reads_only_bind; [apply gen_chars_reads | intros; apply IH].
Qed.

Lemma gen_unique_reads fuel : reads_only (gen_unique fuel).
Proof. apply reads_only_bind; [apply gen_chars_reads | intros; apply gen_loop_reads]. Qed.

#[local] Opaque generateRandomCode.

(** The [while] loop, for any fuel, either runs out of fuel or returns a
    valid code that is free in the table, and only reads the table. *)
Lemma gen_loop_spec fuel sc w :
  ls_inv w -> ls_up w = true -> valid6 sc ->
  ls_links (run ls_perform (gen_loop fuel sc) w).2 = ls_links w /\
  ((run ls_perform (gen_loop fuel sc) w).1 = Diverged \/
   exists sc', (run ls_perform (gen_loop fuel sc) w).1 = Normal sc' /\
     ls_links w !! sc' = None /\ valid6 sc').
Proof.
  revert sc w. induction fuel as [|fuel IH]; intros sc w Hi Hu Hv; [by split; [|left]|].
  cbn [gen_loop]. run_simpl. ls_step. destruct Hs as [-> Hm]. simpl.
  destruct (ls_links w !! sc) as [l|] eqn:Hl; run_simpl; [|split; [done | right; eauto]].
  destruct (generateRandomCode_store w0 Hinv) as [Hm1 (sc' & Ho & Hv')].
  destruct (run_frame (generateRandomCode default_code_length) w0 Hinv) as (Hi1 & Hu1 & _).
  destruct (run ls_perform (generateRandomCode default_code_length) w0) as [o w1].
  simpl in *. subst o.
  destruct (IH sc' w1 Hi1) as [Hm2 Hr]; [congruence | done |].
  rewrite Hm2, Hm1, Hm. split; [done|]. by rewrite Hm1, Hm in Hr.
Qed.

(** The [else] branch of [POST] followed by [create]. *)
Lemma gen_create_spec fuel u w :
  ls_inv w -> ls_up w = true ->
  let p := sc ← gen_unique fuel; create_link (Js.JStr sc) (Js.JStr u) in
  ((run ls_perform p w).1 = Diverged /\ ls_links (run ls_perform p w).2 = ls_links w) \/
  exists sc i,
    (run ls_perform p w).1 =
      Normal (RJson 201 (BLink (mkLink i sc u 0 (ls_clock w) None (ls_clock w)))) /\
    ls_links w !! sc = None /\ valid6 sc /\ fresh_id (ls_links w) i /\
    ls_links (run ls_perform p w).2 =
      <[sc := mkLink i sc u 0 (ls_clock w) None (ls_clock w)]> (ls_links w).
Proof.
  intros Hi Hu p. subst p. unfold gen_unique. run_simpl.
  destruct (generateRandomCode_store w Hi) as [Hm1 (sc & Ho & Hv)].
  destruct (run_frame (generateRandomCode default_code_length) w Hi) as (Hi1 & Hu1 & Hc1).
  destruct (run ls_perform (generateRandomCode default_code_length) w) as [o w1].
  simpl in *. subst o.
  destruct (gen_loop_spec fuel sc w1 Hi1) as [Hm2 Hr]; [congruence | done |].
  destruct (run_frame (gen_loop fuel sc) w1 Hi1) as (Hi2 & Hu2 & Hc2).
  destruct (run ls_perform (gen_loop fuel sc) w1) as [o2 w2]. simpl in *.
  destruct Hr as [-> | (sc' & -> & Hfree & Hv')]; [left; simpl; split; congruence|].
  right. rewrite Hm1 in Hfree. unfold create_link. run_simpl. ls_step.
  rewrite Hfree in Hs. destruct Hs as (i & Hf & -> & Hm3). run_simpl.
  exists sc', i. done.
Qed.

Definition gen_tail (fuel : nat) (u : string) : handler response :=
  sc ← gen_unique fuel; create_link (Js.JStr sc) (Js.JStr u).

(** Without a usable [code], [POST] is the generation branch under the
    handler's [catch]. *)
Lemma POST_gen_run `{UrlParser} fuel v u c w :
  Js.destructure v "targetUrl" "code" = inr (Some (Js.JStr u), c) ->
  u <> "" -> isValidUrl u = true -> Js.truthy c = false ->
  run ls_perform (POST fuel (Some v)) w =
    match run ls_perform (gen_tail fuel u) w with
    | (Thrown _, w') => (Normal (RJson 500 (BError "Failed to create link")), w')
    | o => o
    end.
Proof.
  intros Hd Hne Hurl Hc. unfold POST. rewrite run_catch. run_simpl.
  unfold read_fields. rewrite Hd. run_simpl.
  destruct (String.eqb_spec u "") as [|_]; [done|]. rewrite Hurl. simpl negb. cbn iota.
  destruct c as [c'|]; [rewrite Hc|]; unfold gen_tail;
    by destruct (run ls_perform (sc ← gen_unique fuel; create_link (Js.JStr sc) (Js.JStr u)) w)
      as [[] ?].
Qed.

(** The run of [POST] with a generated code. *)
Lemma POST_generated_run `{UrlParser} fuel v u c w :
  ls_inv w -> ls_up w = true ->
  Js.destructure v "targetUrl" "code" = inr (Some (Js.JStr u), c) ->
  u <> "" -> isValidUrl u = true -> Js.truthy c = false ->
  ((run ls_perform (POST fuel (Some v)) w).1 = Diverged /\
   ls_links (run ls_perform (POST fuel (Some v)) w).2 = ls_links w) \/
  exists sc i,
    (run ls_perform (POST fuel (Some v)) w).1 =
      Normal (RJson 201 (BLink (mkLink i sc u 0 (ls_clock w) None (ls_clock w)))) /\
    ls_links w !! sc = None /\ valid6 sc /\ fresh_id (ls_links w) i /\
    ls_links (run ls_perform (POST fuel (Some v)) w).2 =
      <[sc := mkLink i sc u 0 (ls_clock w) None (ls_clock w)]> (ls_links w).
Proof.
  intros Hi Hu Hd Hne Hurl Hc. rewrite (POST_gen_run fuel v u c w Hd Hne Hurl Hc).
  pose proof (gen_create_spec fuel u w Hi Hu) as Hg. cbv zeta in Hg. fold (gen_tail fuel u) in Hg.
  destruct (run ls_perform (gen_tail fuel u) w) as [o w'].
  destruct Hg as [[Ho Hm] | (sc & i & Ho & Hg)]; simpl in *; subst o;
    [left; by split | right; by exists sc, i].
Qed.

(** C7: [POST /api/links] without a usable [code] (absent or
    falsy) and with a valid [targetUrl]: for every fuel of the unbounded
    [while] loop, the handler either is still looping, having only read
    the table, or answers 201 with a new record whose code has 6
    characters, passes [isValidCode] and was free, with a fresh id,
    [clicks = 0], no [lastClicked] and both timestamps now; the table
    gains exactly that record. *)
Theorem POST_generated `{UrlParser} fuel v u c w :
  ls_inv w -> ls_up w = true ->
  Js.destructure v "targetUrl" "code" = inr (Some (Js.JStr u), c) ->
  u <> "" -> isValidUrl u = true -> Js.truthy c = false ->
  ((run ls_perform (POST fuel (Some v)) w).1 = Diverged /\
   ls_links (run ls_perform (POST fuel (Some v)) w).2 = ls_links w) \/
  exists sc i,
    (run ls_perform (POST fuel (Some v)) w).1 =
      Normal (RJson 201 (BLink (mkLink i sc u 0 (ls_clock w) None (ls_clock w)))) /\
    ls_links w !! sc = None /\ valid6 sc /\ fresh_id (ls_links w) i /\
    ls_links (run ls_perform (POST fuel (Some v)) w).2 =
      <[sc := mkLink i sc u 0 (ls_clock w) None (ls_clock w)]> (ls_links w).
Proof. apply POST_generated_run; assumption. Qed.

(** Enough fuel for the loop of [POST]. *)
Lemma POST_generated_total `{UrlParser} fuel v u c w :
  ls_inv w -> ls_up w = true ->
  Js.destructure v "targetUrl" "code" = inr (Some (Js.JStr u), c) ->
  u <> "" -> isValidUrl u = true -> Js.truthy c = false -> 1 <= fuel ->
  map_Forall (fun k _ => String.length k <> 6) (ls_links w) ->
  exists l, (run ls_perform (POST fuel (Some v)) w).1 = Normal (RJson 201 (BLink l)).
Proof.
  intros Hi Hu Hd Hne Hurl Hc Hf Hlen. rewrite (POST_gen_run fuel v u c w Hd Hne Hurl Hc).
  unfold gen_tail, gen_unique. run_simpl.
  destruct (generateRandomCode_store w Hi) as [Hm1 (sc & Ho & Hv)].
  destruct (run_frame (generateRandomCode default_code_length) w Hi) as (Hi1 & Hu1 & Hc1).
  destruct (run ls_perform (generateRandomCode default_code_length) w) as [o w1].
  simpl in *. subst o.
  assert (Hfree : ls_links w !! sc = None).
  { destruct (ls_links w !! sc) as [l|] eqn:Hl; [|done].
    destruct (Hlen sc l Hl). by destruct Hv. }
  destruct fuel as [|fuel]; [lia|]. cbn [gen_loop]. run_simpl.
  ls_step. destruct Hs as [-> Hm2]. rewrite Hfree. run_simpl.
  unfold create_link. run_simpl. ls_step. rewrite Hfree in Hs.
  destruct Hs as (i & _ & -> & _). run_simpl. eauto.
Qed.

(** C15: termination of the code-generation loop: when no stored
    code has 6 characters (e.g. an empty table, or only custom codes of
    7 or 8 characters), [POST /api/links] without a usable code and with
    a valid [targetUrl] answers 201 with any fuel of at least one check:
    the first generated code is free. *)
Theorem POST_generated_terminates `{UrlParser} fuel v u c w :
  ls_inv w -> ls_up w = true ->
  Js.destructure v "targetUrl" "code" = inr (Some (Js.JStr u), c) ->
  u <> "" -> isValidUrl u = true -> Js.truthy c = false -> 1 <= fuel ->
  map_Forall (fun k _ => String.length k <> 6) (ls_links w) ->
  exists l, (run ls_perform (POST fuel (Some v)) w).1 = Normal (RJson 201 (BLink l)).
Proof. apply POST_generated_total; assumption. Qed.

(** The run of [POST] with a custom code. *)
Lemma POST_custom_run `{UrlParser} fuel v u s w :
  ls_inv w -> ls_up w = true ->
  Js.destructure v "targetUrl" "code" = inr (Some (Js.JStr u), Some (Js.JStr s)) ->
  u <> "" -> isValidUrl u = true -> s <> "" -> isValidCode s = true ->
  match ls_links w !! s with
  | Some _ =>
      (run ls_perform (POST fuel (Some v)) w).1 = Normal (RJson 409 (BError "Code already exists")) /\
      ls_links (run ls_perform (POST fuel (Some v)) w).2 = ls_links w
  | None => exists i, fresh_id (ls_links w) i /\
      (run ls_perform (POST fuel (Some v)) w).1 =
        Normal (RJson 201 (BLink (mkLink i s u 0 (ls_clock w) None (ls_clock w)))) /\
      ls_links (run ls_perform (POST fuel (Some v)) w).2 =
        <[s := mkLink i s u 0 (ls_clock w) None (ls_clock w)]> (ls_links w)
  end.
Proof.
  intros Hi Hu Hd Hne Hurl Hsne Hcode.
  unfold POST. run_simpl. unfold read_fields. rewrite Hd. run_simpl.
  destruct (String.eqb_spec u "") as [|_]; [done|].
  destruct (String.eqb_spec s "") as [|_]; [done|].
  rewrite Hurl, Hcode. run_simpl. ls_step. destruct Hs as [-> Hm]. run_simpl.
  destruct (ls_links w !! s) as [l|] eqn:Hl; run_simpl; [done|].
  unfold create_link. run_simpl. ls_step. rewrite Hl in Hs.
  destruct Hs as (i & Hf & -> & Hm1). run_simpl. eauto.
Qed.

(** C2: [POST /api/links] with a valid [targetUrl] and a supplied
    valid [code]: 409 with the table unchanged when the code is taken,
    otherwise 201 with the new record ([clicks = 0], no [lastClicked],
    both timestamps now, a fresh id), which the table gains. *)
Theorem POST_custom `{UrlParser} fuel v u s w :
  ls_inv w -> ls_up w = true ->
  Js.destructure v "targetUrl" "code" = inr (Some (Js.JStr u), Some (Js.JStr s)) ->
  u <> "" -> isValidUrl u = true -> s <> "" -> isValidCode s = true ->
  match ls_links w !! s with
  | Some _ =>
      (run ls_perform (POST fuel (Some v)) w).1 = Normal (RJson 409 (BError "Code already exists")) /\
      ls_links (run ls_perform (POST fuel (Some v)) w).2 = ls_links w
  | None => exists i, fresh_id (ls_links w) i /\
      (run ls_perform (POST fuel (Some v)) w).1 =
        Normal (RJson 201 (BLink (mkLink i s u 0 (ls_clock w) None (ls_clock w)))) /\
      ls_links (run ls_perform (POST fuel (Some v)) w).2 =
        <[s := mkLink i s u 0 (ls_clock w) None (ls_clock w)]> (ls_links w)
  end.
Proof. apply POST_custom_run; assumption. Qed.

(** C8: the spec's duplicate-code property: creating two links with the
    same explicit code in sequence:
    the first request answers 201, the second 409 and leaves the table
    as the first left it, with the first record under the code. *)
Corollary POST_same_code_twice `{UrlParser} fuel v u s w :
  ls_inv w -> ls_up w = true ->
  Js.destructure v "targetUrl" "code" = inr (Some (Js.JStr u), Some (Js.JStr s)) ->
  u <> "" -> isValidUrl u = true -> s <> "" -> isValidCode s = true ->
  ls_links w !! s = None ->
  let w1 := (run ls_perform (POST fuel (Some v)) w).2 in
  (exists l, (run ls_perform (POST fuel (Some v)) w).1 = Normal (RJson 201 (BLink l)) /\
             ls_links w1 !! s = Some l) /\
  (run ls_perform (POST fuel (Some v)) w1).1 = Normal (RJson 409 (BError "Code already exists")) /\
  ls_links (run ls_perform (POST fuel (Some v)) w1).2 = ls_links w1.
Proof.
  intros Hi Hu Hd Hne Hurl Hsne Hcode Hfree w1.
  pose proof (POST_custom_run fuel v u s w Hi Hu Hd Hne Hurl Hsne Hcode) as Hp1.
  rewrite Hfree in Hp1. destruct Hp1 as (i & _ & Ho1 & Hm1).
  destruct (run_frame (POST fuel (Some v)) w Hi) as (Hi1 & Hu1 & _).
  pose proof (POST_custom_run fuel v u s w1 Hi1 ltac:(by subst w1; rewrite Hu1)
                Hd Hne Hurl Hsne Hcode) as Hp2.
  subst w1. rewrite Hm1, lookup_insert_eq in Hp2 |- *. split; [eauto | done].
Qed.

(** The validation answers of [POST]. *)
Lemma POST_validation_run `{UrlParser} fuel v tu c w :
  Js.destructure v "targetUrl" "code" = inr (tu, c) ->
  (Js.truthy tu = false ->
     run ls_perform (POST fuel (Some v)) w = (Normal (bad_request "targetUrl is required"), w)) /\
  (forall t, tu = Some t -> Js.truthy tu = true -> isValidUrl (Js.to_string t) = false ->
     run ls_perform (POST fuel (Some v)) w = (Normal (bad_request "Invalid URL format"), w)) /\
  (forall t c', tu = Some t -> c = Some c' -> Js.truthy tu = true ->
     isValidUrl (Js.to_string t) = true -> Js.truthy c = true ->
     isValidCode (Js.to_string c') = false ->
     run ls_perform (POST fuel (Some v)) w =
       (Normal (bad_request "Code must be 6-8 alphanumeric characters"), w)).
Proof.
  intros Hd. unfold POST. run_simpl. unfold read_fields. rewrite Hd. run_simpl.
  split_and!.
  - intros Ht. destruct tu as [t|]; [|done]. by rewrite Ht.
  - intros t -> Ht Hurl. by rewrite Ht, Hurl.
  - intros t c' -> -> Ht Hurl Hc Hcode. by rewrite Ht, Hurl, Hc, Hcode.
Qed.

(** C13: [POST /api/links] rejects with 400, before any query and
    leaving the world as it was, a body whose [targetUrl] is falsy,
    whose [targetUrl] does not parse as a URL, or whose truthy [code]
    fails [isValidCode]. *)
Theorem POST_validation `{UrlParser} fuel v tu c w :
  Js.destructure v "targetUrl" "code" = inr (tu, c) ->
  (Js.truthy tu = false ->
     run ls_perform (POST fuel (Some v)) w = (Normal (bad_request "targetUrl is required"), w)) /\
  (forall t, tu = Some t -> Js.truthy tu = true -> isValidUrl (Js.to_string t) = false ->
     run ls_perform (POST fuel (Some v)) w = (Normal (bad_request "Invalid URL format"), w)) /\
  (forall t c', tu = Some t -> c = Some c' -> Js.truthy tu = true ->
     isValidUrl (Js.to_string t) = true -> Js.truthy c = true ->
     isValidCode (Js.to_string c') = false ->
     run ls_perform (POST fuel (Some v)) w =
       (Normal (bad_request "Code must be 6-8 alphanumeric characters"), w)).
Proof. apply POST_validation_run; assumption. Qed.

(** C29: an empty [code] is treated as an omitted one: the request
    [{ targetUrl: u, code: "" }] runs exactly as [{ targetUrl: u }]. *)
Theorem POST_empty_code `{UrlParser} fuel u w :
  run ls_perform (POST fuel (Some (Js.JObj [("targetUrl", Js.JStr u); ("code", Js.JStr "")]))) w =
  run ls_perform (POST fuel (Some (Js.JObj [("targetUrl", Js.JStr u)]))) w.
Proof.
  unfold POST. run_simpl. unfold read_fields. cbn. run_simpl. done.
Qed.

#[local] Opaque Js.truthy.

(** C26: a [code] that is not a string but whose [ToString] passes
    [isValidCode] (e.g. the number [123456]) passes the handler's
    validation and makes the Prisma query throw: the answer is 500, not
    400, and the table is unchanged. *)
Theorem POST_code_not_string `{UrlParser} fuel v u c' w :
  ls_inv w ->
  Js.destructure v "targetUrl" "code" = inr (Some (Js.JStr u), Some c') ->
  u <> "" -> isValidUrl u = true -> Js.truthy (Some c') = true ->
  isValidCode (Js.to_string c') = true -> as_string c' = None ->
  (run ls_perform (POST fuel (Some v)) w).1 = Normal (RJson 500 (BError "Failed to create link")) /\
  ls_links (run ls_perform (POST fuel (Some v)) w).2 = ls_links w.
Proof.
  intros Hi Hd Hne Hurl Ht Hcode Hs0.
  unfold POST. run_simpl. unfold read_fields. rewrite Hd. run_simpl.
  rewrite (proj2 (Js.truthy_str u) Hne), Hurl, Ht, Hcode. run_simpl.
  ls_step. rewrite Hs0 in Hs.
  destruct Hs as [-> Hm]. run_simpl. done.
Qed.

(** The run of [GET /api/links]. *)
Lemma GET_list_run w :
  ls_inv w ->
  ls_links (run ls_perform GET_list w).2 = ls_links w /\
  if ls_up w then
    exists ls, (run ls_perform GET_list w).1 = Normal (RJson 200 (BLinks ls)) /\
      ls ≡ₚ (map_to_list (ls_links w)).*2 /\ Sorted newer_first ls
  else (run ls_perform GET_list w).1 = Normal (RJson 500 (BError "Failed to fetch links")).
Proof.
  intros Hi. unfold GET_list. run_simpl.
  destruct (ls_up w) eqn:Hu0; ls_step.
  - destruct Hs as (ls & -> & Hp & Hs & Hm). run_simpl. eauto.
  - destruct Hs as [-> Hm]. run_simpl. done.
Qed.

(** C22: [GET /api/links] answers 200 with every record of the table,
    each exactly once, newest first by [createdAt], and does not change
    the table; it answers 500 when the database is unreachable. *)
Theorem GET_list_spec w :
  ls_inv w ->
  ls_links (run ls_perform GET_list w).2 = ls_links w /\
  if ls_up w then
    exists ls, (run ls_perform GET_list w).1 = Normal (RJson 200 (BLinks ls)) /\
      ls ≡ₚ (map_to_list (ls_links w)).*2 /\ Sorted newer_first ls
  else (run ls_perform GET_list w).1 = Normal (RJson 500 (BError "Failed to fetch links")).
Proof. apply GET_list_run; assumption. Qed.

(** ** What [POST] does to the table *)

(** [POST] inserts the record it answers with under that record's code,
    which was free, or it leaves the table as it was and answers an error
    or never answers. *)
Definition post_effect (m : gmap string Link) (o : outcome exn response) (m' : gmap string Link) : Prop :=
  (exists l, o = Normal (RJson 201 (BLink l)) /\ m !! code l = None /\ m' = <[code l := l]> m) \/
  (m' = m /\ (o = Diverged \/ exists st msg, o = Normal (RJson st (BError msg)) /\ (400 <= st)%Z)).

Lemma create_link_table sc tu w :
  ls_inv w ->
  (exists l, (run ls_perform (create_link sc tu) w).1 = Normal (RJson 201 (BLink l)) /\
     ls_links w !! code l = None /\
     ls_links (run ls_perform (create_link sc tu) w).2 = <[code l := l]> (ls_links w)) \/
  ((exists x, (run ls_perform (create_link sc tu) w).1 = Thrown x) /\
   ls_links (run ls_perform (create_link sc tu) w).2 = ls_links w).
Proof.
  intros Hi. unfold create_link. run_simpl. ls_step. simpl in Hs.
  destruct (as_string sc) as [s|], (as_string tu) as [u|];
    try (destruct Hs as [-> Hm]; run_simpl; right; eauto).
  destruct (ls_up w); [|destruct Hs as [-> Hm]; run_simpl; right; eauto].
  destruct (ls_links w !! s) eqn:Hl; [destruct Hs as [-> Hm]; run_simpl; right; eauto|].
  destruct Hs as (i & _ & -> & Hm). run_simpl. left. eexists; eauto.
Qed.

(** [POST]'s [try] block: its effect, or an exception with the table unchanged. *)
Definition post_try (m : gmap string Link) (o : outcome exn response) (m' : gmap string Link) : Prop :=
  post_effect m o m' \/ ((exists x, o = Thrown x) /\ m' = m).

Lemma post_try_bind_reads {A} (p : handler A) (f : A -> handler response) w :
  ls_inv w -> reads_only p ->
  (forall a w1, ls_inv w1 -> ls_links w1 = ls_links w ->
     post_try (ls_links w1) (run ls_perform (f a) w1).1 (ls_links (run ls_perform (f a) w1).2)) ->
  post_try (ls_links w) (run ls_perform (x ← p; f x) w).1 (ls_links (run ls_perform (x ← p; f x) w).2).
Proof.
  intros Hi Hp Hf. rewrite run_mbind, run_bind.
  pose proof (run_reads_only p w Hi Hp) as Hm. destruct (run_frame p w Hi) as (Hi1 & _ & _).
  destruct (run ls_perform p w) as [[a|x|] w1]; simpl in *.
  - rewrite <- Hm. by apply Hf.
  - right. eauto.
  - left. right. eauto.
Qed.

Lemma post_try_answer m st msg : (400 <= st)%Z -> post_try m (Normal (RJson st (BError msg))) m.
Proof. intros Hst. left. right. eauto 6. Qed.

Lemma post_try_create sc tu w :
  ls_inv w ->
  post_try (ls_links w) (run ls_perform (create_link sc tu) w).1
    (ls_links (run ls_perform (create_link sc tu) w).2).
Proof.
  intros Hi. destruct (create_link_table sc tu w Hi) as [(l & Ho & Hl & Hm) | [Ho Hm]].
  - left. left. eauto.
  - by right.
Qed.

Lemma POST_table `{UrlParser} fuel body w :
  ls_inv w ->
  post_effect (ls_links w) (run ls_perform (POST fuel body) w).1
    (ls_links (run ls_perform (POST fuel body) w).2).
Proof.
  intros Hi. unfold POST. rewrite run_catch.
  match goal with |- context [run ls_perform ?p w] =>
    assert (Ht : post_try (ls_links w) (run ls_perform p w).1 (ls_links (run ls_perform p w).2)) end.
  { apply post_try_bind_reads; [done | unfold read_json; destruct body; constructor |].
    intros v w1 Hi1 _. apply post_try_bind_reads; [done | unfold read_fields; case_match; constructor |].
    intros [tu c] w2 Hi2 _.
    destruct tu as [tu'|]; [|by apply post_try_answer].
    destruct (negb (Js.truthy (Some tu'))); [by apply post_try_answer|].
    destruct (negb (isValidUrl (Js.to_string tu'))); [by apply post_try_answer|].
    destruct c as [c'|].
    - destruct (Js.truthy (Some c')).
      + destruct (negb (isValidCode (Js.to_string c'))); [by apply post_try_answer|].
        apply post_try_bind_reads; [done | ro_call |].
        intros [?|] w3 Hi3 _; [by apply post_try_answer | by apply post_try_create].
      + apply post_try_bind_reads; [done | apply gen_unique_reads | intros; by apply post_try_create].
    - apply post_try_bind_reads; [done | apply gen_unique_reads | intros; by apply post_try_create]. }
  destruct (run ls_perform _ w) as [o w']. simpl in *.
  destruct Ht as [Hp | [[x ->] Hm]].
  { destruct o; simpl; try exact Hp.
    destruct Hp as [(? & ? & _) | (_ & [? | (? & ? & ? & _)])]; discriminate. }
  run_simpl. rewrite Hm. right. split; [done|]. right. eauto 6 with lia.
Qed.
End Spec.

(** ** Concrete runs, with the approximate WHATWG parser *)

Import Whatwg.

Definition body_of (u : string) (c : option Js.value) : Js.value :=
  Js.JObj (("targetUrl", Js.JStr u) :: match c with Some c => [("code", c)] | None => [] end).

Definition world0 : World := mkWorld ∅ 0 true 1000 (fun n => Z.of_nat n * 7919 * 1000000007)%Z 0.

Definition stored : Link := mkLink 0 "mycode1" "https://example.com/a" 3 100 (Some 500%Z) 500.

Definition world1 : World :=
  mkWorld {[ "mycode1" := stored ]} 1 true 1000 (fun n => Z.of_nat n * 7919 * 1000000007)%Z 0.

Lemma world0_wf : ls_inv world0.
Proof. apply wf_check_sound. vm_compute. reflexivity. Qed.

Lemma world1_wf : ls_inv world1.
Proof. apply wf_check_sound. vm_compute. reflexivity. Qed.

Lemma GET_one_spec_witness :
  (run ls_perform (GET_one "mycode1") world1).1 =
    Normal (get_one_ref (ls_links world1) (ls_up world1) "mycode1") /\
  ls_links (run ls_perform (GET_one "mycode1") world1).2 = ls_links world1.
Proof. apply GET_one_spec. apply wf_check_sound. vm_compute. reflexivity. Defined.

Lemma DELETE_spec_witness :
  (run ls_perform (DELETE "mycode1") world1).1 =
    Normal (delete_ref (ls_links world1) (ls_up world1) "mycode1").1 /\
  ls_links (run ls_perform (DELETE "mycode1") world1).2 =
    (delete_ref (ls_links world1) (ls_up world1) "mycode1").2.
Proof. apply DELETE_spec. apply wf_check_sound. vm_compute. reflexivity. Defined.

Lemma DELETE_then_GET_one_witness :
  let w1 := (run ls_perform (DELETE "mycode1") world1).2 in
  (run ls_perform (DELETE "mycode1") world1).1 = Normal (RJson 200 BSuccess) /\
  (run ls_perform (GET_one "mycode1") w1).1 = Normal link_not_found.
Proof.
  apply (DELETE_then_GET_one "mycode1" stored);
    [apply wf_check_sound; vm_compute | ..]; reflexivity.
Defined.

Lemma GET_list_spec_witness :
  ls_links (run ls_perform GET_list world1).2 = ls_links world1 /\
  if ls_up world1 then
    exists ls, (run ls_perform GET_list world1).1 = Normal (RJson 200 (BLinks ls)) /\
      ls ≡ₚ (map_to_list (ls_links world1)).*2 /\ Sorted newer_first ls
  else (run ls_perform GET_list world1).1 = Normal (RJson 500 (BError "Failed to fetch links")).
Proof. apply GET_list_spec. apply wf_check_sound. vm_compute. reflexivity. Defined.

Lemma POST_generated_witness :
  ((run ls_perform (POST 3 (Some (body_of "https://example.com/a" None))) world0).1 = Diverged /\
   ls_links (run ls_perform (POST 3 (Some (body_of "https://example.com/a" None))) world0).2 =
     ls_links world0) \/
  exists sc i,
    (run ls_perform (POST 3 (Some (body_of "https://example.com/a" None))) world0).1 =
      Normal (RJson 201 (BLink (mkLink i sc "https://example.com/a" 0 (ls_clock world0) None
                                  (ls_clock world0)))) /\
    ls_links world0 !! sc = None /\ valid6 sc /\ fresh_id (ls_links world0) i /\
    ls_links (run ls_perform (POST 3 (Some (body_of "https://example.com/a" None))) world0).2 =
      <[sc := mkLink i sc "https://example.com/a" 0 (ls_clock world0) None (ls_clock world0)]>
        (ls_links world0).
Proof.
  apply (POST_generated 3 _ "https://example.com/a" None);
    [apply wf_check_sound; vm_compute; reflexivity | reflexivity | reflexivity
    | discriminate | vm_compute; reflexivity | reflexivity].
Defined.

Lemma POST_generated_terminates_witness :
  exists l, (run ls_perform (POST 1 (Some (body_of "https://example.com/a" None))) world0).1 =
            Normal (RJson 201 (BLink l)).
Proof.
  apply (POST_generated_terminates 1 _ "https://example.com/a" None);
    [apply wf_check_sound; vm_compute; reflexivity | reflexivity | reflexivity
    | discriminate | vm_compute; reflexivity | reflexivity | lia | apply map_Forall_empty].
Defined.

Lemma POST_custom_witness :
  match ls_links world1 !! "mycode1" with
  | Some _ =>
      (run ls_perform (POST 3 (Some (body_of "https://example.com/b" (Some (Js.JStr "mycode1")))))
         world1).1 = Normal (RJson 409 (BError "Code already exists")) /\
      ls_links (run ls_perform (POST 3 (Some (body_of "https://example.com/b"
                                              (Some (Js.JStr "mycode1"))))) world1).2 =
        ls_links world1
  | None => exists i, fresh_id (ls_links world1) i /\
      (run ls_perform (POST 3 (Some (body_of "https://example.com/b" (Some (Js.JStr "mycode1")))))
         world1).1 =
        Normal (RJson 201 (BLink (mkLink i "mycode1" "https://example.com/b" 0 (ls_clock world1) None
                                    (ls_clock world1)))) /\
      ls_links (run ls_perform (POST 3 (Some (body_of "https://example.com/b"
                                              (Some (Js.JStr "mycode1"))))) world1).2 =
        <["mycode1" := mkLink i "mycode1" "https://example.com/b" 0 (ls_clock world1) None
                         (ls_clock world1)]> (ls_links world1)
  end.
Proof.
  apply POST_custom;
    [apply wf_check_sound; vm_compute; reflexivity | reflexivity | reflexivity
    | discriminate | vm_compute; reflexivity | discriminate | vm_compute; reflexivity].
Defined.

Lemma POST_same_code_twice_witness :
  let v := body_of "https://example.com/b" (Some (Js.JStr "newcode")) in
  let w1 := (run ls_perform (POST 3 (Some v)) world1).2 in
  (exists l, (run ls_perform (POST 3 (Some v)) world1).1 = Normal (RJson 201 (BLink l)) /\
             ls_links w1 !! "newcode" = Some l) /\
  (run ls_perform (POST 3 (Some v)) w1).1 = Normal (RJson 409 (BError "Code already exists")) /\
  ls_links (run ls_perform (POST 3 (Some v)) w1).2 = ls_links w1.
Proof.
  apply (POST_same_code_twice 3 _ "https://example.com/b" "newcode");
    [apply wf_check_sound; vm_compute; reflexivity | reflexivity | reflexivity
    | discriminate | vm_compute; reflexivity | discriminate | vm_compute; reflexivity
    | reflexivity].
Defined.

Lemma POST_validation_witness :
  let v := body_of "not a url" (Some (Js.JStr "ab")) in
  (Js.truthy (Some (Js.JStr "not a url")) = false ->
     run ls_perform (POST 3 (Some v)) world0 = (Normal (bad_request "targetUrl is required"), world0)) /\
  (forall t, Some (Js.JStr "not a url") = Some t -> Js.truthy (Some (Js.JStr "not a url")) = true ->
     isValidUrl (Js.to_string t) = false ->
     run ls_perform (POST 3 (Some v)) world0 = (Normal (bad_request "Invalid URL format"), world0)) /\
  (forall t c', Some (Js.JStr "not a url") = Some t -> Some (Js.JStr "ab") = Some c' ->
     Js.truthy (Some (Js.JStr "not a url")) = true ->
     isValidUrl (Js.to_string t) = true -> Js.truthy (Some (Js.JStr "ab")) = true ->
     isValidCode (Js.to_string c') = false ->
     run ls_perform (POST 3 (Some v)) world0 =
       (Normal (bad_request "Code must be 6-8 alphanumeric characters"), world0)).
Proof. apply POST_validation. reflexivity. Defined.

Lemma POST_code_not_string_witness :
  (run ls_perform (POST 3 (Some (body_of "https://example.com/a" (Some (Js.JNum 123456))))) world0).1 =
    Normal (RJson 500 (BError "Failed to create link")) /\
  ls_links (run ls_perform (POST 3 (Some (body_of "https://example.com/a"
                                          (Some (Js.JNum 123456))))) world0).2 = ls_links world0.
Proof.
  apply (POST_code_not_string 3 _ "https://example.com/a" (Js.JNum 123456));
    [apply wf_check_sound; vm_compute; reflexivity | reflexivity | discriminate
    | vm_compute; reflexivity | reflexivity | vm_compute; reflexivity | reflexivity].
Defined.

End Admin.
