(* ===== verification/Server.v ===== *)
(** * Server: concurrent requests over the shared store

    Next.js serves each request with its own invocation of a route
    handler, and the handlers of different requests interleave at every
    [await].  A [Sys] is the shared [World] and the list of requests in
    flight, each a handler suspended at its next effect.  [step] is the
    interleaving semantics: a thread performs its next effect atomically
    on the world, the clock advances, the database connection goes up or
    down, or a new request arrives.  [exec_sched] runs an explicit
    schedule, and [exec_sched_star] shows it follows [step].

    Theorems: the store invariant holds in every reachable state (rule
    induction on [step]); redirects served one after the other count every
    click; and, against the spec's atomicity requirement (sections 4.3 and
    5), the read-then-write of [GET /{code}] loses clicks and can even
    decrease the counter under interleaving, and two concurrent creations
    of the same code answer 500 to the loser instead of 409. *)

From S2P Require Import Prelude JsValue Schema Utils Store Redirect Admin.
Import Schema Utils Store.

Module Server.

(** ** Requests and the system state *)

Inductive request : Type :=
| ReqRedirect (c : string)                  (** [GET /{code}] *)
| ReqCreate (fuel : nat) (body : option Js.value) (** [POST /api/links] *)
| ReqList                                    (** [GET /api/links] *)
| ReqGetOne (c : string)                    (** [GET /api/links/{code}] *)
| ReqDelete (c : string).                   (** [DELETE /api/links/{code}] *)

Definition handler_of `{UrlParser} (q : request) : handler response :=
  match q with
  | ReqRedirect c => Redirect.GET c
  | ReqCreate fuel body => Admin.POST fuel body
  | ReqList => Admin.GET_list
  | ReqGetOne c => Admin.GET_one c
  | ReqDelete c => Admin.DELETE c
  end.

Record Sys : Type := mkSys {
  sys_world : World;
  sys_threads : list (handler response);
}.

Definition tick (d : Z) (w : World) : World :=
  mkWorld (links w) (next_id w) (db_up w) (clock w + d) (rng w) (rng_pos w).

Definition set_up (b : bool) (w : World) : World :=
  mkWorld (links w) (next_id w) b (clock w) (rng w) (rng_pos w).

Section Step.
Context `{UrlParser}.

Inductive step : Sys -> Sys -> Prop :=
| step_thread w ts i e k r w' :
    ts !! i = Some (Call e k) -> perform e w = (r, w') ->
    step (mkSys w ts) (mkSys w' (<[i := k r]> ts))
| step_tick w ts d :
    (0 <= d)%Z -> step (mkSys w ts) (mkSys (tick d w) ts)
| step_conn w ts b :
    step (mkSys w ts) (mkSys (set_up b w) ts)
| step_arrive w ts q :
    step (mkSys w ts) (mkSys w (ts ++ [handler_of q])).

Definition reachable (s0 s : Sys) : Prop := rtc step s0 s.
End Step.

(** ** Executing a schedule *)

Definition step_at (i : nat) (s : Sys) : Sys :=
  match sys_threads s !! i with
  | Some (Call e k) =>
      let '(r, w') := perform e (sys_world s) in mkSys w' (<[i := k r]> (sys_threads s))
  | _ => s
  end.

Definition exec_sched (sched : list nat) (s : Sys) : Sys := foldl (fun s i => step_at i s) s sched.

(** The answer of each thread, once it has returned. *)
Definition responses (s : Sys) : list (option response) :=
  map (fun p => match p with Ret r => Some r | _ => None end) (sys_threads s).

Definition clicks_of (s : Sys) (c : string) : option Z := clicks <$> links (sys_world s) !! c.

Section Exec.
Context `{UrlParser}.

Lemma step_at_step i s : step_at i s = s \/ step s (step_at i s).
Proof.
  destruct s as [w ts]. unfold step_at. simpl.
  destruct (ts !! i) as [[| | |e k]|] eqn:Hi; try by left.
  destruct (perform e w) as [r w'] eqn:He. right. by eapply step_thread.
Qed.

Lemma exec_sched_star sched s : reachable s (exec_sched sched s).
Proof.
  unfold reachable. revert s. induction sched as [|i sched IH]; intros s; simpl; [done|].
  destruct (step_at_step i s) as [-> | Hs]; [apply IH|].
  eapply rtc_l; [exact Hs | apply IH].
Qed.
End Exec.

(** ** The store invariant in every reachable state *)

Lemma wf_tick w d : (0 <= d)%Z -> wf w -> wf (tick d w).
Proof.
  intros Hd [Hok Hu]. split; [|done]. simpl.
  eapply map_Forall_impl; [done|]. intros s l. apply link_ok_mono; lia.
Qed.

Lemma wf_set_up w b : wf w -> wf (set_up b w).
Proof. done. Qed.

Section Invariant.
Context `{UrlParser}.

(** In every state reachable by interleaving requests, clock
    ticks and connection changes, the store satisfies its invariant
    (keys are codes, ids unique, [clicks] within its column,
    [clicks > 0] implies [lastClicked] set, timestamps ordered). *)
Theorem reachable_wf s0 s :
  reachable s0 s -> wf (sys_world s0) -> wf (sys_world s).
Proof.
  induction 1 as [s|s1 s2 s3 Hstep _ IH]; [done|]. intros Hw. apply IH.
  destruct Hstep as [w ts i e k r w' _ He | w ts d Hd | w ts b | w ts q]; simpl in *.
  - pose proof (perform_preserves_wf e w Hw) as Hw'. by rewrite He in Hw'.
  - by apply wf_tick.
  - by apply wf_set_up.
  - done.
Qed.
End Invariant.

(** ** Interleavings the spec rules out *)

Import Whatwg.

Definition race_link (n : Z) : Link :=
  mkLink 0 "abc123" "https://example.com/a" n 100 (if decide (n = 0%Z) then None else Some 150%Z) 150.

Definition race_world (n : Z) : World :=
  mkWorld {[ "abc123" := race_link n ]} 1 true 1000 (fun _ => 0%Z) 0.

Definition redirects (k : nat) (n : Z) : Sys :=
  mkSys (race_world n) (replicate k (Redirect.GET "abc123")).

Lemma reachable_wf_witness :
  wf (sys_world (exec_sched [0; 1; 0; 1; 0; 1] (redirects 2 0))).
Proof.
  apply (reachable_wf (redirects 2 0)); [apply exec_sched_star |].
  apply wf_check_sound. vm_compute. reflexivity.
Defined.


(** C5: two concurrent redirects to the same code can both answer 302
    while the stored counter grows by one: each reads [clicks = 0] before
    either writes, and both write [clicks = 1] (a lost update). *)
Theorem concurrent_redirects_lose_click :
  let s := exec_sched [0; 1; 0; 1; 0; 1] (redirects 2 0) in
  reachable (redirects 2 0) s /\
  responses s = [Some (RRedirect 302 "https://example.com/a");
                 Some (RRedirect 302 "https://example.com/a")] /\
  clicks_of (redirects 2 0) "abc123" = Some 0%Z /\ clicks_of s "abc123" = Some 1%Z.
Proof. split; [apply exec_sched_star | vm_compute; auto]. Qed.

(** Under interleaving the stored counter is not monotone: with
    three concurrent redirects it reaches 2 and is then written back to 1
    by a request that read it before the other two wrote. *)
Theorem concurrent_redirects_decrease :
  let s1 := exec_sched [0; 1; 1; 1; 2; 2; 2] (redirects 3 0) in
  let s2 := exec_sched [0; 0] s1 in
  reachable (redirects 3 0) s1 /\ reachable s1 s2 /\
  clicks_of s1 "abc123" = Some 2%Z /\ clicks_of s2 "abc123" = Some 1%Z.
Proof. split_and!; try apply exec_sched_star; vm_compute; reflexivity. Qed.

Definition create_body (c : string) : option Js.value :=
  Some (Admin.body_of "https://example.com/b" (Some (Js.JStr c))).

Definition two_creates : Sys :=
  mkSys (race_world 0) (replicate 2 (Admin.POST 3 (create_body "newcode"))).

(** C16: two concurrent [POST /api/links] with the same free code both
    pass the existence check; the first creates the link (201) and the
    second fails on the unique constraint and answers 500, not 409; the
    table holds the first record only. *)
Theorem concurrent_creates_conflict :
  let s := exec_sched [0; 1; 0; 1] two_creates in
  reachable two_creates s /\
  responses s = [Some (RJson 201 (BLink (mkLink 1 "newcode" "https://example.com/b" 0 1000 None 1000)));
                 Some (RJson 500 (BError "Failed to create link"))] /\
  links (sys_world s) !! "newcode" = Some (mkLink 1 "newcode" "https://example.com/b" 0 1000 None 1000).
Proof. split; [apply exec_sched_star | vm_compute; auto]. Qed.

(** ** Requests served one after the other *)

Section Sequential.
Context `{UrlParser} {W : Type} `{LinkStoreLaws W}.

Fixpoint run_seq (ps : list (handler response)) (w : W) : list (outcome exn response) * W :=
  match ps with
  | [] => ([], w)
  | p :: ps' =>
      let '(o, w1) := run ls_perform p w in
      let '(os, w2) := run_seq ps' w1 in (o :: os, w2)
  end.

(** C6: [N] redirects to a stored code served one after the other
    all answer 302 to the serialised target, and the stored counter
    grows by exactly [N] (as long as it fits the [Int] column), with
    [lastClicked] set once [N > 0]. *)
Theorem sequential_redirects_count N c l loc w :
  ls_inv w -> ls_up w = true -> ls_links w !! c = Some l ->
  (0 <= clicks l)%Z -> (clicks l + Z.of_nat N <= int4_max)%Z ->
  url_href (targetUrl l) = Some loc ->
  exists l', (run_seq (replicate N (Redirect.GET c)) w).1 =
               replicate N (Normal (RRedirect 302 loc)) /\
    ls_links (run_seq (replicate N (Redirect.GET c)) w).2 !! c = Some l' /\
    clicks l' = (clicks l + Z.of_nat N)%Z /\ targetUrl l' = targetUrl l /\
    (N <> 0 -> lastClicked l' = Some (ls_clock w)).
Proof.
  revert l w. induction N as [|N IH]; intros l w Hi Hu Hl Hc0 HcN Hloc.
  { exists l. simpl. split_and!; [done | done | lia | done | done]. }
  cbn [replicate run_seq].
  destruct (Redirect.GET_known_run c l loc w Hi Hu Hl) as (w1 & Hr & Hm); [lia | done |].
  destruct (run_frame (Redirect.GET c) w Hi) as (Hi1 & Hu1 & Hc1).
  rewrite Hr in Hi1, Hu1, Hc1 |- *. cbn [fst snd] in *.
  set (l1 := clicked l (clicks l + 1) (ls_clock w) (ls_clock w)).
  destruct (IH l1 w1) as (l' & Hos & Hl' & Hcl & Ht & Hlast);
    [done | congruence | by rewrite Hm, lookup_insert_eq | simpl; lia | simpl; lia | done |].
  assert (Hlast' : lastClicked l' = Some (ls_clock w)).
  { destruct N as [|N'].
    - simpl in Hl'. rewrite Hm, lookup_insert_eq in Hl'. by injection Hl' as <-.
    - rewrite Hlast by done. by rewrite Hc1. }
  destruct (run_seq (replicate N (Redirect.GET c)) w1) as [os w2]. simpl in *.
  exists l'. rewrite Hos. split_and!; [done | done | lia | done | done].
Qed.
(** The spec's example on the handlers themselves. *)
Lemma create_redirect_read_run fuel u loc w :
  ls_inv w -> ls_up w = true -> u <> "" -> isValidUrl u = true -> url_href u = Some loc ->
  1 <= fuel -> map_Forall (fun k _ => String.length k <> 6) (ls_links w) ->
  exists l,
    (run ls_perform (Admin.POST fuel (Some (Admin.body_of u None))) w).1 =
      Normal (RJson 201 (BLink l)) /\ String.length (code l) = 6 /\
    let w1 := (run ls_perform (Admin.POST fuel (Some (Admin.body_of u None))) w).2 in
    (run ls_perform (Redirect.GET (code l)) w1).1 = Normal (RRedirect 302 loc) /\
    exists l',
      (run ls_perform (Admin.GET_one (code l)) (run ls_perform (Redirect.GET (code l)) w1).2).1 =
        Normal (RJson 200 (BLink l')) /\ clicks l' = 1%Z /\ targetUrl l' = u.
Proof.
  intros Hi Hu Hne Hurl Hloc Hf Hlen.
  destruct (Admin.POST_generated_run fuel (Admin.body_of u None) u None w Hi Hu)
    as [[Hd _] | (sc & i & Ho & Hfree & [Hlen6 _] & _ & Hm)]; try done.
  { destruct (Admin.POST_generated_total fuel (Admin.body_of u None) u None w)
      as [l Hl]; try done. congruence. }
  eexists; split_and!; [exact Ho | done |]. cbn zeta. cbn [code].
  destruct (run_frame (Admin.POST fuel (Some (Admin.body_of u None))) w Hi) as (Hi1 & Hu1 & Hc1).
  set (w1 := (run ls_perform (Admin.POST fuel (Some (Admin.body_of u None))) w).2) in *.
  destruct (Redirect.GET_known_run sc (mkLink i sc u 0 (ls_clock w) None (ls_clock w)) loc w1)
    as (w2 & Hr & Hm2); [done | congruence | by rewrite Hm, lookup_insert_eq
                         | unfold int4_max; simpl; lia | done |].
  rewrite Hr. split; [done|]. cbn [snd].
  destruct (run_frame (Redirect.GET sc) w1 Hi1) as (Hi2 & Hu2 & _). rewrite Hr in Hi2, Hu2.
  cbn [snd] in Hi2, Hu2.
  destruct (Admin.GET_one_run sc w2 Hi2) as [Hg _]. rewrite Hg.
  unfold Admin.get_one_ref. rewrite Hu2, Hu1, Hu, Hm2, lookup_insert_eq. eauto.
Qed.

(** C36: the example of the spec, against every store: a link created
    without a code (with no stored code of 6 characters and at least one
    loop check) is answered 201 with a 6-character code; a redirect to
    that code answers 302 to the serialised target; and a following
    [GET /api/links/{code}] answers 200 with the link at one click. *)
Theorem create_redirect_read fuel u loc w :
  ls_inv w -> ls_up w = true -> u <> "" -> isValidUrl u = true -> url_href u = Some loc ->
  1 <= fuel -> map_Forall (fun k _ => String.length k <> 6) (ls_links w) ->
  exists l,
    (run ls_perform (handler_of (ReqCreate fuel (Some (Admin.body_of u None)))) w).1 =
      Normal (RJson 201 (BLink l)) /\ String.length (code l) = 6 /\
    let w1 := (run ls_perform (handler_of (ReqCreate fuel (Some (Admin.body_of u None)))) w).2 in
    (run ls_perform (handler_of (ReqRedirect (code l))) w1).1 = Normal (RRedirect 302 loc) /\
    exists l',
      (run ls_perform (handler_of (ReqGetOne (code l))) (run ls_perform (handler_of (ReqRedirect (code l))) w1).2).1 =
        Normal (RJson 200 (BLink l')) /\ clicks l' = 1%Z /\ targetUrl l' = u.
Proof. exact (create_redirect_read_run fuel u loc w). Qed.
End Sequential.

Lemma sequential_redirects_count_witness :
  exists l', (run_seq (replicate 3 (Redirect.GET "abc123")) (race_world 5)).1 =
               replicate 3 (Normal (RRedirect 302 "https://example.com/a")) /\
    ls_links (run_seq (replicate 3 (Redirect.GET "abc123")) (race_world 5)).2 !! "abc123" = Some l' /\
    clicks l' = (clicks (race_link 5) + Z.of_nat 3)%Z /\ targetUrl l' = targetUrl (race_link 5) /\
    (3 <> 0 -> lastClicked l' = Some (ls_clock (race_world 5))).
Proof.
  apply sequential_redirects_count;
    [apply wf_check_sound; vm_compute; reflexivity | reflexivity | reflexivity
    | simpl; lia | unfold int4_max; simpl; lia | vm_compute; reflexivity].
Defined.

Lemma create_redirect_read_witness :
  exists l,
    (run ls_perform (handler_of (ReqCreate 1 (Some (Admin.body_of "https://example.com/a" None)))) Admin.world0).1 =
      Normal (RJson 201 (BLink l)) /\ String.length (code l) = 6 /\
    let w1 := (run ls_perform (handler_of (ReqCreate 1 (Some (Admin.body_of "https://example.com/a" None))))
                 Admin.world0).2 in
    (run ls_perform (handler_of (ReqRedirect (code l))) w1).1 = Normal (RRedirect 302 "https://example.com/a") /\
    exists l',
      (run ls_perform (handler_of (ReqGetOne (code l))) (run ls_perform (handler_of (ReqRedirect (code l))) w1).2).1 =
        Normal (RJson 200 (BLink l')) /\ clicks l' = 1%Z /\ targetUrl l' = "https://example.com/a".
Proof.
  apply create_redirect_read;
    [apply wf_check_sound; vm_compute; reflexivity | reflexivity | by vm_compute
    | vm_compute; reflexivity | vm_compute; reflexivity | lia | apply map_Forall_empty].
Defined.

End Server.
