(* ===== verification/Dashboard.v ===== *)
(** * Dashboard: the client logic of [src/app/page.tsx]

    The dashboard keeps its state in React hooks (lines 15-24).  Every
    handler is modelled as the sequence of [setX(...)] calls it makes, in
    the order of the source ([set_state] and [apply_all]); an [async]
    handler that awaits a [fetch] is split at the [await] into the updates
    made before it and a function of the HTTP result ([fetch_result]) for
    the updates made after it.  The timers of [setTimeout] are separate
    events.  [filteredLinks] is the search filter of lines 133-137, with
    ASCII [toLowerCase] and [String.prototype.includes].

    The link list a 2xx answer of [GET /api/links] carries is taken from
    the [BLinks] body; the server only ever sends that body with a 2xx
    answer ([Admin.GET_list_spec]), and another body is read as the empty
    list. *)

From S2P Require Import Prelude JsValue Schema Utils Store Admin.
Import Schema Utils Store.

Module Dashboard.

(** ** State (lines 15-24) *)

Record Dash : Type := mkDash {
  links : list Link;
  loading : bool;
  error : option string;
  success : option string;
  dbConnected : bool;
  targetUrl : string;
  customCode : string;
  isSubmitting : bool;
  searchTerm : string;
}.

Definition initial : Dash := mkDash [] false None None true "" "" false "".

Inductive set_state : Type :=
| SetLinks (ls : list Link)
| SetLoading (b : bool)
| SetError (e : option string)
| SetSuccess (s : option string)
| SetDbConnected (b : bool)
| SetTargetUrl (s : string)
| SetCustomCode (s : string)
| SetIsSubmitting (b : bool)
| SetSearchTerm (s : string).

Definition apply_set (a : set_state) (d : Dash) : Dash :=
  let 'mkDash ls ld er su db tu cc sb st := d in
  match a with
  | SetLinks x => mkDash x ld er su db tu cc sb st
  | SetLoading x => mkDash ls x er su db tu cc sb st
  | SetError x => mkDash ls ld x su db tu cc sb st
  | SetSuccess x => mkDash ls ld er x db tu cc sb st
  | SetDbConnected x => mkDash ls ld er su x tu cc sb st
  | SetTargetUrl x => mkDash ls ld er su db x cc sb st
  | SetCustomCode x => mkDash ls ld er su db tu x sb st
  | SetIsSubmitting x => mkDash ls ld er su db tu cc x st
  | SetSearchTerm x => mkDash ls ld er su db tu cc sb x
  end.

Definition apply_all (acts : list set_state) (d : Dash) : Dash := foldl (fun d a => apply_set a d) d acts.

(** The outcome of [await fetch(...)]: a rejected promise, or a response
    with its status and JSON body. *)
Inductive fetch_result : Type :=
| NetError (message : string)
| Resp (status : Z) (b : body).

(** [res.ok] *)
Definition ok (status : Z) : bool := (200 <=? status)%Z && (status <=? 299)%Z.

(** ** Strings: [trim], [toLowerCase], [includes] (ASCII) *)

Definition is_space (c : ascii) : bool :=
  bool_decide (nat_of_ascii c ∈ [9; 10; 11; 12; 13; 32]).

Fixpoint ltrim (l : list ascii) : list ascii :=
  match l with c :: l' => if is_space c then ltrim l' else l | [] => [] end.

(** [String.prototype.trim] *)
Definition trim (s : string) : string :=
  String.string_of_list_ascii
    (reverse (ltrim (reverse (ltrim (String.list_ascii_of_string s))))).

Definition lower_char (c : ascii) : ascii :=
  let n := nat_of_ascii c in
  if (65 <=? n) && (n <=? 90) then ascii_of_nat (n + 32) else c.

(** [String.prototype.toLowerCase] *)
Definition toLowerCase (s : string) : string :=
  String.string_of_list_ascii (map lower_char (String.list_ascii_of_string s)).

(** [s.includes(t)] *)
Fixpoint includes (s t : string) : bool :=
  String.prefix t s ||
  match s with
  | EmptyString => false
  | String _ s' => includes s' t
  end.

(** ** [fetchLinks] (lines 32-56) *)

Definition fetchLinks_start : list set_state := [SetLoading true].

Definition fetchLinks_done (r : fetch_result) : list set_state :=
  match r with
  | NetError _ =>
      [SetDbConnected false; SetError (Some "Database connection failed. Demo mode enabled.");
       SetLoading false]
  | Resp status b =>
      if negb (ok status) then
        if (status =? 500)%Z then
          [SetDbConnected false;
           SetError (Some "Database not connected. Please configure your Neon database.");
           SetLinks []; SetLoading false]
        else
          [SetDbConnected false; SetError (Some "Database connection failed. Demo mode enabled.");
           SetLoading false]
      else
        [SetLinks (match b with BLinks ls => ls | _ => [] end); SetDbConnected true;
         SetError None; SetLoading false]
  end.

(** ** [handleCreateLink] (lines 58-105) *)

(** The request body [{ targetUrl, code? }] as the server parses it. *)
Definition create_body (d : Dash) : Js.value :=
  Js.JObj (("targetUrl", Js.JStr (targetUrl d)) ::
           if negb (String.eqb (trim (customCode d)) "")
           then [("code", Js.JStr (customCode d))] else []).

(** Up to the [await fetch]: the updates and the body of the request, if
    one is sent. *)
Definition handleCreateLink_submit (d : Dash) : list set_state * option Js.value :=
  if String.eqb (trim (targetUrl d)) "" then
    ([SetError None; SetSuccess None; SetError (Some "Please enter a URL")], None)
  else if negb (dbConnected d) then
    ([SetError None; SetSuccess None; SetError (Some "Database not connected. Cannot create links.")],
     None)
  else ([SetError None; SetSuccess None; SetIsSubmitting true], Some (create_body d)).

(** After the [await]; [links] is the list the handler closed over. *)
Definition handleCreateLink_done (ls : list Link) (r : fetch_result) : list set_state :=
  match r with
  | NetError msg => [SetError (Some msg); SetIsSubmitting false]
  | Resp status b =>
      if (status =? 409)%Z then
        [SetError (Some "This code already exists. Please choose another."); SetIsSubmitting false]
      else if negb (ok status) then
        [SetError (Some (match b with
                         | BError msg => if String.eqb msg "" then "Failed to create link" else msg
                         | _ => "Failed to create link"
                         end)); SetIsSubmitting false]
      else
        match b with
        | BLink l =>
            [SetLinks (l :: ls); SetTargetUrl ""; SetCustomCode "";
             SetSuccess (Some ("Link created: " +:+ code l)); SetIsSubmitting false]
        | _ => [SetIsSubmitting false]
        end
  end.

(** [setTimeout(() => setSuccess(null), ...)] firing. *)
Definition success_timeout : list set_state := [SetSuccess None].

(** ** [handleDeleteLink] (lines 107-123) *)

(** Lines 108-113: the request [DELETE /api/links/{code}] is sent only
    when [window.confirm] returns true. *)
Definition handleDeleteLink_request (confirmed : bool) (c : string) : option string :=
  if confirmed then Some c else None.

Definition handleDeleteLink_done (ls : list Link) (c : string) (r : fetch_result) : list set_state :=
  match r with
  | NetError msg => [SetError (Some msg)]
  | Resp status _ =>
      if negb (ok status) then [SetError (Some "Failed to delete link")]
      else [SetLinks (List.filter (fun l => negb (String.eqb (code l) c)) ls);
            SetSuccess (Some "Link deleted")]
  end.

(** ** [copyToClipboard] (lines 125-131) *)

(** [process.env.NEXT_PUBLIC_BASE_URL || window.location.origin] *)
Definition baseUrl (env : option string) (origin : string) : string :=
  match env with Some e => if String.eqb e "" then origin else e | None => origin end.

Definition shortUrl (env : option string) (origin c : string) : string :=
  baseUrl env origin +:+ "/" +:+ c.

(** The text written to the clipboard and the updates. *)
Definition copyToClipboard (env : option string) (origin c : string) : string * list set_state :=
  (shortUrl env origin c, [SetSuccess (Some ("Copied: " +:+ shortUrl env origin c))]).

(** ** [filteredLinks] (lines 133-137) *)

Definition matches_search (term : string) (l : Link) : bool :=
  includes (toLowerCase (code l)) (toLowerCase term) ||
  includes (toLowerCase (Schema.targetUrl l)) (toLowerCase term).

Definition filteredLinks (d : Dash) : list Link := List.filter (matches_search (searchTerm d)) (links d).

(** ** Theorems *)

Lemma prefix_refl s : String.prefix s s = true.
Proof.
  induction s as [|a s IH]; [done|]. simpl.
  destruct (Ascii.ascii_dec a a); [done | congruence].
Qed.

Lemma includes_empty s : includes s "" = true.
Proof. by destruct s. Qed.

Lemma includes_refl s : includes s s = true.
Proof.
  destruct s as [|a s]; [done|].
  change (String.prefix (String a s) (String a s) || includes s (String a s) = true).
  by rewrite prefix_refl.
Qed.

Lemma lower_char_idem c : lower_char (lower_char c) = lower_char c.
Proof.
  assert (Ht : forallb (fun n => let c := ascii_of_nat n in
                 bool_decide (lower_char (lower_char c) = lower_char c)) (seq 0 256) = true)
    by (vm_compute; reflexivity).
  rewrite forallb_forall in Ht.
  assert (Hin : In (nat_of_ascii c) (seq 0 256)).
  { apply in_seq. pose proof (nat_ascii_bounded c). lia. }
  specialize (Ht _ Hin). cbv zeta in Ht. rewrite ascii_nat_embedding in Ht.
  by apply bool_decide_eq_true in Ht.
Qed.

Lemma toLowerCase_idem s : toLowerCase (toLowerCase s) = toLowerCase s.
Proof.
  unfold toLowerCase. rewrite String.list_ascii_of_string_of_list_ascii, map_map.
  f_equal. apply map_ext. apply lower_char_idem.
Qed.

Lemma apply_all_app a1 a2 d : apply_all (a1 ++ a2) d = apply_all a2 (apply_all a1 d).
Proof. unfold apply_all. by rewrite foldl_app. Qed.

(** The search box filters case-insensitively and shows every
    link when empty: the filter keeps exactly the links whose lowercased
    code or target contains the lowercased term, an empty term keeps
    them all, the term's case does not matter, and a link's own code
    finds it. *)
Theorem filteredLinks_spec d l :
  (In l (filteredLinks d) <-> In l (links d) /\ matches_search (searchTerm d) l = true) /\
  (searchTerm d = "" -> filteredLinks d = links d) /\
  filteredLinks (apply_set (SetSearchTerm (toLowerCase (searchTerm d))) d) = filteredLinks d /\
  (In l (links d) -> searchTerm d = code l -> In l (filteredLinks d)).
Proof.
  destruct d as [ls ld er su db tu cc sb st]. unfold filteredLinks, matches_search. simpl.
  split_and!.
  - apply filter_In.
  - intros ->. apply forallb_filter_id. apply forallb_forall. intros x _.
    by rewrite includes_empty.
  - by rewrite toLowerCase_idem.
  - intros Hl ->. apply filter_In. split; [done|]. by rewrite includes_refl.
Qed.

(** Whatever [fetch('/api/links')] yields, [fetchLinks] ends with
    [loading] false; the dashboard counts as connected exactly when the
    answer is 2xx, and then shows the received list with no error; a 500
    empties the list and reports the database as not connected. *)
Theorem fetchLinks_spec r d :
  let d' := apply_all (fetchLinks_start ++ fetchLinks_done r) d in
  loading d' = false /\
  (dbConnected d' = true <-> exists st b, r = Resp st b /\ ok st = true) /\
  (forall st ls, r = Resp st (BLinks ls) -> ok st = true -> links d' = ls /\ error d' = None) /\
  (forall b, r = Resp 500 b ->
     links d' = [] /\ error d' = Some "Database not connected. Please configure your Neon database.").
Proof.
  destruct d as [ls ld er su db tu cc sb st0].
  destruct r as [msg | st b]; simpl.
  - split_and!; [done | split; [done | by intros (? & ? & ? & _)] | done | done].
  - destruct (ok st) eqn:Hok; simpl.
    + split_and!; [done | split; [eauto | done] | | ].
      * intros st' ls' Heq _. injection Heq as -> ->. done.
      * intros b' Heq. injection Heq as -> ->. by vm_compute in Hok.
    + destruct (Z.eqb_spec st 500) as [->|Hne]; simpl;
        (split_and!; [done | split; [done | intros (st' & b' & Heq & Hok');
                                     injection Heq as <- _; congruence]
                      | intros st' ls' Heq Hok'; injection Heq as <- _; congruence
                      | ]); [done|].
      intros b' Heq. injection Heq as Heq _. congruence.
Qed.

(** C32: after [DELETE /api/links/{code}] answers 2xx, the dashboard's
    list keeps exactly the links whose code differs and reports the
    deletion; on any other answer the list is unchanged and an error is
    shown. *)
Theorem handleDeleteLink_spec ls c r d :
  let d' := apply_all (handleDeleteLink_done ls c r) d in
  match r with
  | Resp st _ =>
      if ok st then (forall l, In l (links d') <-> In l ls /\ code l <> c) /\
                    success d' = Some "Link deleted"
      else links d' = links d /\ error d' = Some "Failed to delete link"
  | NetError msg => links d' = links d /\ error d' = Some msg
  end.
Proof.
  destruct d as [ls0 ld er su db tu cc sb st0].
  destruct r as [msg | st b]; simpl; [done|].
  destruct (ok st); simpl; [|done]. split; [|done]. intros l.
  rewrite filter_In. destruct (String.eqb_spec (code l) c); simpl; naive_solver.
Qed.

Lemma trim_nonempty s : trim s <> "" -> s <> "".
Proof. intros H ->. by apply H. Qed.

Section EndToEnd.
Context `{UrlParser} {W : Type} `{LinkStoreLaws W}.

Lemma create_body_fields d :
  trim (customCode d) <> "" ->
  Js.destructure (create_body d) "targetUrl" "code" =
    inr (Some (Js.JStr (targetUrl d)), Some (Js.JStr (customCode d))).
Proof.
  intros Hc. unfold create_body.
  destruct (String.eqb_spec (trim (customCode d)) "") as [|_]; [done|]. reflexivity.
Qed.

Lemma submit_sends d :
  dbConnected d = true -> trim (targetUrl d) <> "" ->
  handleCreateLink_submit d =
    ([SetError None; SetSuccess None; SetIsSubmitting true], Some (create_body d)).
Proof.
  intros Hdb Htu. unfold handleCreateLink_submit.
  destruct (String.eqb_spec (trim (targetUrl d)) "") as [|_]; [done|]. by rewrite Hdb.
Qed.

(** C23: creating a link with a custom code from the dashboard, end to
    end: when the URL and the code are valid, the code is free and the
    database is up, the dashboard sends the request, the server answers
    201 and stores the new record, and the dashboard puts that record at
    the head of its list, clears both inputs and reports the code. *)
Theorem create_from_dashboard fuel d w :
  dbConnected d = true -> trim (targetUrl d) <> "" -> isValidUrl (targetUrl d) = true ->
  trim (customCode d) <> "" -> isValidCode (customCode d) = true ->
  ls_inv w -> ls_up w = true -> ls_links w !! customCode d = None ->
  exists i,
    let l := mkLink i (customCode d) (targetUrl d) 0 (ls_clock w) None (ls_clock w) in
    (run ls_perform (Admin.POST fuel (handleCreateLink_submit d).2) w).1 =
      Normal (RJson 201 (BLink l)) /\
    ls_links (run ls_perform (Admin.POST fuel (handleCreateLink_submit d).2) w).2 =
      <[customCode d := l]> (ls_links w) /\
    let d' := apply_all ((handleCreateLink_submit d).1 ++
                         handleCreateLink_done (links d) (Resp 201 (BLink l))) d in
    links d' = l :: links d /\ success d' = Some ("Link created: " +:+ customCode d) /\
    targetUrl d' = "" /\ customCode d' = "" /\ isSubmitting d' = false.
Proof.
  intros Hdb Htu Hurl Hcc Hcode Hi Hu Hfree.
  rewrite (submit_sends d Hdb Htu). cbn [fst snd].
  pose proof (Admin.POST_custom_run fuel (create_body d) (targetUrl d) (customCode d) w Hi Hu
                (create_body_fields d Hcc) (trim_nonempty _ Htu) Hurl
                (trim_nonempty _ Hcc) Hcode) as Hp.
  rewrite Hfree in Hp. destruct Hp as (i & _ & Ho & Hm). exists i.
  split_and!; [done | done | ..]; destruct d; done.
Qed.

(** C27: the dashboard tests [customCode.trim()] but sends [customCode]
    untrimmed: a code whose trimmed form is valid but which carries a
    surrounding space passes the client's check, is sent with the space,
    and the server rejects it with 400 without touching the store. *)
Theorem create_untrimmed_code fuel d w :
  dbConnected d = true -> trim (targetUrl d) <> "" -> isValidUrl (targetUrl d) = true ->
  isValidCode (trim (customCode d)) = true -> isValidCode (customCode d) = false ->
  run ls_perform (Admin.POST fuel (handleCreateLink_submit d).2) w =
    (Normal (Admin.bad_request "Code must be 6-8 alphanumeric characters"), w).
Proof.
  intros Hdb Htu Hurl Htrim Hcode.
  assert (Hcc : trim (customCode d) <> "") by (intros Hc; by rewrite Hc in Htrim).
  rewrite (submit_sends d Hdb Htu). cbn [fst snd].
  destruct (Admin.POST_validation_run fuel (create_body d) _ _ w (create_body_fields d Hcc))
    as (_ & _ & Hv).
  apply (Hv (Js.JStr (targetUrl d)) (Js.JStr (customCode d))); try done.
  - by apply Js.truthy_str, trim_nonempty.
  - by apply Js.truthy_str, trim_nonempty.
Qed.
End EndToEnd.

(** ** Concrete runs *)

Import Whatwg.

Definition dash_form (cc : string) : Dash :=
  mkDash [] false None None true "https://example.com/a" cc false "".

Lemma filteredLinks_spec_witness :
  let d := apply_set (SetLinks [Admin.stored]) (dash_form "") in
  (In Admin.stored (filteredLinks d) <->
     In Admin.stored (links d) /\ matches_search (searchTerm d) Admin.stored = true) /\
  (searchTerm d = "" -> filteredLinks d = links d) /\
  filteredLinks (apply_set (SetSearchTerm (toLowerCase (searchTerm d))) d) = filteredLinks d /\
  (In Admin.stored (links d) -> searchTerm d = code Admin.stored ->
     In Admin.stored (filteredLinks d)).
Proof. apply filteredLinks_spec. Defined.

Lemma fetchLinks_spec_witness :
  let d' := apply_all (fetchLinks_start ++ fetchLinks_done (Resp 500 (BError "x"))) initial in
  loading d' = false /\
  (dbConnected d' = true <-> exists st b, Resp 500 (BError "x") = Resp st b /\ ok st = true) /\
  (forall st ls, Resp 500 (BError "x") = Resp st (BLinks ls) -> ok st = true ->
     links d' = ls /\ error d' = None) /\
  (forall b, Resp 500 (BError "x") = Resp 500 b ->
     links d' = [] /\ error d' = Some "Database not connected. Please configure your Neon database.").
Proof. apply fetchLinks_spec. Defined.

Lemma create_from_dashboard_witness :
  exists i,
    let l := mkLink i (customCode (dash_form "mycode2")) (targetUrl (dash_form "mycode2")) 0
               (ls_clock Admin.world0) None (ls_clock Admin.world0) in
    (run ls_perform (Admin.POST 3 (handleCreateLink_submit (dash_form "mycode2")).2)
       Admin.world0).1 = Normal (RJson 201 (BLink l)) /\
    ls_links (run ls_perform (Admin.POST 3 (handleCreateLink_submit (dash_form "mycode2")).2)
                Admin.world0).2 =
      <[customCode (dash_form "mycode2") := l]> (ls_links Admin.world0) /\
    let d' := apply_all ((handleCreateLink_submit (dash_form "mycode2")).1 ++
                         handleCreateLink_done (links (dash_form "mycode2"))
                           (Resp 201 (BLink l))) (dash_form "mycode2") in
    links d' = l :: links (dash_form "mycode2") /\
    success d' = Some ("Link created: " +:+ customCode (dash_form "mycode2")) /\
    targetUrl d' = "" /\ customCode d' = "" /\ isSubmitting d' = false.
Proof.
  apply (create_from_dashboard 3 (dash_form "mycode2") Admin.world0);
    [reflexivity | by vm_compute | vm_compute; reflexivity | by vm_compute
    | vm_compute; reflexivity | apply wf_check_sound; vm_compute; reflexivity
    | reflexivity | reflexivity].
Defined.

Lemma create_untrimmed_code_witness :
  isValidCode (trim "mycode2 ") = true /\ isValidCode "mycode2 " = false /\
  run ls_perform (Admin.POST 3 (handleCreateLink_submit (dash_form "mycode2 ")).2) Admin.world0 =
    (Normal (Admin.bad_request "Code must be 6-8 alphanumeric characters"), Admin.world0).
Proof.
  split_and!; [vm_compute; reflexivity | vm_compute; reflexivity |].
  apply (create_untrimmed_code 3 (dash_form "mycode2 ") Admin.world0);
    [reflexivity | by vm_compute | vm_compute; reflexivity
    | vm_compute; reflexivity | vm_compute; reflexivity].
Defined.

End Dashboard.
