(* ===== verification/StatsPage.v ===== *)
(** * StatsPage: the link statistics page of [src/app/code/[code]/page.tsx]

    The page holds four hooks (lines 20-23): the route parameter [code],
    the fetched [link], [loading] and [error].  The first effect stores the
    resolved parameter (line 26); the second, when [code] is truthy, fetches
    [GET /api/links/{code}] and records the answer (lines 29-47), modelled
    like the dashboard's handlers as the request it sends and a function of
    the [fetch] result.  [render] is the choice the component makes between
    its three views (lines 49, 73, 107) and the values the details view
    computes (lines 100-105):
    - [baseUrl] keeps the precedence of line 100 as written:
      [(env || typeof window !== 'undefined') ? window.location.origin
      : 'http://localhost:3000'], reading [window] where it is undefined
      being a [ReferenceError] ([None]);
    - [daysOld] is [Math.floor] of a difference of millisecond timestamps
      divided by [86400000], [Z.div] on integers (the quotient of two
      integer-valued doubles below [2^53] floors to the same integer while
      it stays below [2^53 / 86400000 > 10^8] days, beyond the range of
      [Date]);
    - [clicksPerDay] divides with the kernel's binary64 floats and prints
      with [Number.prototype.toFixed(1)] on the exact value of the quotient
      ([toFixed1]).
    [page_elements] lists what each view shows, in document order (lines
    49-98 and 131-233): text, numbers, dates, links with their [href] and
    copy buttons with the text they copy. *)

From Stdlib Require Import Floats Uint63.
From stdpp Require Import pretty.
From S2P Require Import Prelude JsValue Schema Utils Store Admin Dashboard.
Import Schema Store.

Module StatsPage.

(** ** State (lines 20-23) and its updates *)

Record Stats : Type := mkStats {
  code : option string;
  link : option Link;
  loading : bool;
  error : option string;
}.

Definition initial : Stats := mkStats None None true None.

(** [params.then(({ code }) => setCode(code))] (line 26) *)
Definition params_resolved (c : string) (s : Stats) : Stats :=
  mkStats (Some c) (link s) (loading s) (error s).

(** [if (!code) return;] then [fetch(`/api/links/${code}`)] (lines 30-34):
    the code the request names, if a request is sent. *)
Definition fetchLink_request (s : Stats) : option string :=
  match code s with
  | Some c => if String.eqb c "" then None else Some c
  | None => None
  end.

(** [const data = await res.json(); setLink(data)]: the server answers 2xx
    on this route only with a link ([Admin.GET_one]). *)
Definition link_of_body (b : body) : option Link :=
  match b with BLink l => Some l | _ => None end.

(** Lines 35-43, after the [await]. *)
Definition fetchLink_done (r : Dashboard.fetch_result) (s : Stats) : Stats :=
  match r with
  | Dashboard.NetError msg => mkStats (code s) (link s) false (Some msg)
  | Dashboard.Resp status b =>
      if Dashboard.ok status then mkStats (code s) (link_of_body b) false None
      else mkStats (code s) (link s) false (Some "Link not found")
  end.

(** ** Derived values (lines 100-105) *)

(** Truthiness of [string | null | undefined]. *)
Definition str_truthy (s : option string) : bool :=
  match s with Some x => negb (String.eqb x "") | None => false end.

(** Line 100, with JavaScript's precedence: [||] binds tighter than [?:]. *)
Definition baseUrl (env : option string) (window_defined : bool) (origin : string)
    : option string :=
  if str_truthy env || window_defined then
    (if window_defined then Some origin else None)
  else Some "http://localhost:3000".

Definition ms_per_day : Z := 1000 * 60 * 60 * 24.

(** Line 104 *)
Definition daysOld (now createdAt : Z) : Z := ((now - createdAt) `div` ms_per_day)%Z.

(** An integer as a binary64 value (exact below [2^53]). *)
Definition z2f (z : Z) : float :=
  if (z <? 0)%Z then PrimFloat.opp (PrimFloat.of_uint63 (Uint63.of_Z (- z)))
  else PrimFloat.of_uint63 (Uint63.of_Z z).

(** [Number.prototype.toFixed(1)] (ECMAScript 21.1.3.3) on a binary64
    value: NaN and the infinities print as [Number::toString]; a finite
    [x] with [|x| < 10^21] prints the integer [n] nearest to [10 |x|] (the
    larger on a tie) with one decimal, after ["-"] when [x < 0].  A value
    of [10^21] or more prints with [Number::toString] in exponent form,
    which is not modelled ([None]). *)
Definition toFixed1 (x : float) : option string :=
  let digits (n : Z) := pretty (n `div` 10)%Z +:+ "." +:+ pretty (n `mod` 10)%Z in
  match Prim2SF x with
  | S754_zero _ => Some "0.0"
  | S754_infinity s => Some (if s then "-Infinity" else "Infinity")
  | S754_nan => Some "NaN"
  | S754_finite s m e =>
      let m := Zpos m in
      let big := if (0 <=? e)%Z then (10 ^ 21 <=? m * 2 ^ e)%Z
                 else (10 ^ 21 * 2 ^ (- e) <=? m)%Z in
      let n := if (0 <=? e)%Z then (10 * m * 2 ^ e)%Z
               else ((20 * m + 2 ^ (- e)) `div` (2 * 2 ^ (- e)))%Z in
      if big then None else Some ((if s then "-" else "") +:+ digits n)
  end.

(** Line 105 *)
Definition clicksPerDay (clicks days : Z) : option string :=
  toFixed1 (PrimFloat.div (z2f clicks) (z2f (Z.max 1 days))).

(** ** The rendered view (lines 49-246) *)

(** The values the details view shows (lines 107-246): the code (line
    149), the short URL (181), the target (189), the clicks (157),
    [lastClicked] or "No clicks" (164), the creation and update dates
    (196, 201), the age in days (213) and the clicks per day (218). *)
Record details : Type := mkDetails {
  d_code : string;
  d_shortUrl : string;
  d_targetUrl : string;
  d_clicks : Z;
  d_createdAt : Z;
  d_lastClicked : option Z;
  d_updatedAt : Z;
  d_daysOld : Z;
  d_clicksPerDay : option string;
}.

Inductive view : Type :=
| VLoading
| VError (msg : string)
| VDetails (det : details)
| VCrash.

(** [error || 'Link not found'] (line 93) *)
Definition error_text (e : option string) : string :=
  match e with Some x => if String.eqb x "" then "Link not found" else x | None => "Link not found" end.

Definition render (env : option string) (window_defined : bool) (origin : string) (now : Z)
    (s : Stats) : view :=
  if loading s then VLoading
  else match link s with
       | None => VError (error_text (error s))
       | Some l =>
           if str_truthy (error s) then VError (error_text (error s))
           else match baseUrl env window_defined origin with
                | None => VCrash
                | Some b =>
                    VDetails (mkDetails (Schema.code l) (b +:+ "/" +:+ Schema.code l) (targetUrl l) (clicks l)
                                (createdAt l) (lastClicked l) (updatedAt l) (daysOld now (createdAt l))
                                (clicksPerDay (clicks l) (daysOld now (createdAt l))))
                end
       end.

(** Both copy buttons (lines 150, 182) run
    [navigator.clipboard.writeText(shortUrl)] and [alert('Copied!')]. *)
Definition copy_text (det : details) : string := d_shortUrl det.

(** ** What the views show

    The content of each view in document order, without its styling:
    text, numbers, the dates and times [toLocaleDateString] and
    [toLocaleTimeString] print (kept as time values: the locale is the
    browser's), links with their [href], and the copy buttons with the
    text they copy.  Emoji decorations are left out. *)
Inductive element : Type :=
| EText (s : string)
| ENum (z : Z)
| EDate (t : Z)
| ETime (t : Z)
| ELink (label href : string)
| ECopy (text : string).

(** Lines 131-233. *)
Definition details_view (det : details) : list element :=
  [ELink "Back to Dashboard" "/"; EText "Live";                              (* 133, 135 *)
   EText (d_code det); ECopy (copy_text det);                               (* 149, 150 *)
   ENum (d_clicks det);                                                      (* 157 *)
   match d_lastClicked det with Some t => EDate t | None => EText "No clicks" end;   (* 164 *)
   match d_lastClicked det with Some t => ETime t | None => EText "Waiting..." end;  (* 165 *)
   EText (d_shortUrl det); ECopy (copy_text det);                            (* 181, 182 *)
   ELink (d_targetUrl det) (d_targetUrl det);                                (* 189 *)
   EDate (d_createdAt det); ETime (d_createdAt det);                         (* 196, 197 *)
   EDate (d_updatedAt det); ETime (d_updatedAt det);                         (* 201, 202 *)
   ENum (d_daysOld det);                                                     (* 213 *)
   EText (match d_clicksPerDay det with Some x => x | None => "" end);      (* 218 *)
   EText "active";                                                           (* 224 *)
   ELink "Back to Dashboard" "/"; ELink "Visit Link" (d_targetUrl det)].    (* 232, 233 *)

(** The loading view (lines 49-71), the error view (73-98) and the
    details view; a [ReferenceError] renders nothing. *)
Definition page_elements (v : view) : list element :=
  match v with
  | VLoading => [EText "Loading link details..."]
  | VError msg => [EText msg; ELink "Back to Dashboard" "/"]
  | VDetails det => details_view det
  | VCrash => []
  end.

(** The page's life for one visit: the parameter resolves, the request is
    sent and its answer recorded. *)
Definition visit (c : string) (r : Dashboard.fetch_result) : Stats :=
  fetchLink_done r (params_resolved c initial).

(** ** Theorems *)

Lemma render_details env origin now s l :
  loading s = false -> link s = Some l -> str_truthy (error s) = false ->
  render env true origin now s =
    VDetails (mkDetails (Schema.code l) (origin +:+ "/" +:+ Schema.code l) (targetUrl l) (clicks l) (createdAt l)
                (lastClicked l) (updatedAt l) (daysOld now (createdAt l))
                (clicksPerDay (clicks l) (daysOld now (createdAt l)))).
Proof.
  intros Hl Hk He. unfold render, baseUrl. rewrite Hl, Hk, He, orb_true_r. done.
Qed.

(** C24: line 100 parses as [(env || window defined) ? origin :
    localhost], so in the browser the stats page shows
    [window.location.origin/code] whatever [NEXT_PUBLIC_BASE_URL] holds:
    with the variable set to a non-empty base other than the origin, the
    short URL the details view shows differs from the one the dashboard's
    copy button writes for the same link. *)
Theorem stats_shortUrl_ignores_env e origin now s l :
  loading s = false -> link s = Some l -> str_truthy (error s) = false ->
  e <> "" -> e <> origin ->
  exists det, render (Some e) true origin now s = VDetails det /\
    d_shortUrl det = origin +:+ "/" +:+ Schema.code l /\
    d_shortUrl det <> (Dashboard.copyToClipboard (Some e) origin (Schema.code l)).1.
Proof.
  intros Hl Hk He He1 He2. rewrite (render_details _ _ _ _ l Hl Hk He).
  eexists; split_and!; [done | done | ]. simpl. unfold Dashboard.shortUrl, Dashboard.baseUrl.
  destruct (String.eqb_spec e "") as [|_]; [done|].
  intros Heq. apply string_app_inv_r in Heq. congruence.
Qed.

Section Visit.
Context {W : Type} `{LinkStoreLaws W}.

(** C28: visiting the page of a stored code in the browser: the page
    requests that code, the server answers, and the page shows the stored
    link: its short URL on the page's origin, its target, clicks,
    creation and last-click times, age in days and clicks per day. *)
Theorem visit_stored_link c w l env origin now :
  ls_inv w -> ls_up w = true -> ls_links w !! c = Some l -> c <> "" ->
  fetchLink_request (params_resolved c initial) = Some c /\
  exists st b,
    (run ls_perform (Admin.GET_one c) w).1 = Normal (RJson st b) /\
    render env true origin now (visit c (Dashboard.Resp st b)) =
      VDetails (mkDetails (Schema.code l) (origin +:+ "/" +:+ Schema.code l) (targetUrl l) (clicks l)
                  (createdAt l) (lastClicked l) (updatedAt l) (daysOld now (createdAt l))
                  (clicksPerDay (clicks l) (daysOld now (createdAt l)))).
Proof.
  intros Hi Hu Hl Hc. split.
  - unfold fetchLink_request. simpl. by destruct (String.eqb_spec c "").
  - destruct (Admin.GET_one_run c w Hi) as [Ho _].
    rewrite Ho. unfold Admin.get_one_ref. rewrite Hu, Hl.
    exists 200%Z, (BLink l). split; [done|]. by apply render_details.
Qed.

(** C25: the page cannot tell an unavailable store from an absent
    code: when the database is down, as when the code is not stored, the
    server's answer makes the page show "Link not found". *)
Theorem visit_unavailable_is_not_found c w env win origin now :
  ls_inv w -> ls_up w = false \/ ls_links w !! c = None ->
  exists st b,
    (run ls_perform (Admin.GET_one c) w).1 = Normal (RJson st b) /\
    render env win origin now (visit c (Dashboard.Resp st b)) = VError "Link not found".
Proof.
  intros Hi Hd. destruct (Admin.GET_one_run c w Hi) as [Ho _].
  rewrite Ho. unfold Admin.get_one_ref.
  destruct (ls_up w); [|by eexists _, _].
  destruct Hd as [Hd | Hd]; [done|]. rewrite Hd. by eexists _, _.
Qed.
(** C10: [isValidUrl] accepts whatever [new URL] parses, and the details
    view puts the stored [targetUrl] in two [href]s (lines 189, 233)
    without looking at its scheme.  So, for every URL parser, a
    [targetUrl] it accepts, such as the host-less
    ["javascript:alert(document.cookie)"] that a WHATWG parser accepts,
    is stored by [POST /api/links] and comes back on the link's
    statistics page as the target of "Visit Link" and of the destination
    link.  The spec asks for a scheme and a host. *)
Theorem stats_links_any_scheme `{Utils.UrlParser} fuel u (w : W) env origin now :
  ls_inv w -> ls_up w = true -> u <> "" -> Utils.isValidUrl u = true ->
  (run ls_perform (Admin.POST fuel (Some (Js.JObj [("targetUrl", Js.JStr u)]))) w).1 = Diverged \/
  exists l st b det,
    (run ls_perform (Admin.POST fuel (Some (Js.JObj [("targetUrl", Js.JStr u)]))) w).1 =
      Normal (RJson 201 (BLink l)) /\
    (run ls_perform (Admin.GET_one (Schema.code l))
       (run ls_perform (Admin.POST fuel (Some (Js.JObj [("targetUrl", Js.JStr u)]))) w).2).1 =
      Normal (RJson st b) /\
    render env true origin now (visit (Schema.code l) (Dashboard.Resp st b)) = VDetails det /\
    In (ELink "Visit Link" u) (page_elements (VDetails det)) /\
    In (ELink u u) (page_elements (VDetails det)).
Proof.
  intros Hi Hu Hne Hurl.
  destruct (Admin.POST_generated_run fuel (Js.JObj [("targetUrl", Js.JStr u)]) u None w Hi Hu)
    as [[Ho _] | (sc & i & Ho & Hfree & _ & _ & Hm)]; [done | done | done | done | by left |].
  right. set (l := mkLink i sc u 0 (ls_clock w) None (ls_clock w)) in *.
  destruct (run_frame (Admin.POST fuel (Some (Js.JObj [("targetUrl", Js.JStr u)]))) w Hi)
    as (Hi1 & Hu1 & _).
  destruct (Admin.GET_one_run sc _ Hi1) as [Hg _].
  exists l, 200%Z, (BLink l). eexists. change (Schema.code l) with sc.
  rewrite Hg. unfold Admin.get_one_ref. rewrite Hu1, Hu, Hm, lookup_insert_eq.
  split_and!; [exact Ho | done | | |].
  - by apply render_details.
  - simpl. repeat (first [left; reflexivity | right]).
  - simpl. repeat (first [left; reflexivity | right]).
Qed.

End Visit.

(** ** Concrete runs *)

Definition origin0 : string := "https://tinylink.app".
Definition now0 : Z := 10 * ms_per_day + 100.
Definition world_down : World := mkWorld {[ "mycode1" := Admin.stored ]} 1 false 1000 (fun _ => 0%Z) 0.
Definition shown : Stats := visit "mycode1" (Dashboard.Resp 200 (BLink Admin.stored)).

Lemma stats_shortUrl_ignores_env_witness :
  exists det, render (Some "https://sho.rt") true origin0 now0 shown = VDetails det /\
    d_shortUrl det = origin0 +:+ "/" +:+ Schema.code Admin.stored /\
    d_shortUrl det <> (Dashboard.copyToClipboard (Some "https://sho.rt") origin0
                         (Schema.code Admin.stored)).1.
Proof.
  apply (stats_shortUrl_ignores_env "https://sho.rt" origin0 now0 shown Admin.stored);
    [reflexivity | reflexivity | reflexivity | by vm_compute | by vm_compute].
Defined.

Lemma visit_stored_link_witness :
  fetchLink_request (params_resolved "mycode1" initial) = Some "mycode1" /\
  exists st b,
    (run ls_perform (Admin.GET_one "mycode1") Admin.world1).1 = Normal (RJson st b) /\
    render None true origin0 now0 (visit "mycode1" (Dashboard.Resp st b)) =
      VDetails (mkDetails (Schema.code Admin.stored) (origin0 +:+ "/" +:+ Schema.code Admin.stored) (targetUrl Admin.stored)
                  (clicks Admin.stored) (createdAt Admin.stored) (lastClicked Admin.stored)
                  (updatedAt Admin.stored)
                  (daysOld now0 (createdAt Admin.stored))
                  (clicksPerDay (clicks Admin.stored) (daysOld now0 (createdAt Admin.stored)))).
Proof.
  apply visit_stored_link;
    [apply wf_check_sound; vm_compute; reflexivity | reflexivity | reflexivity | by vm_compute].
Defined.

Lemma visit_unavailable_is_not_found_witness :
  exists st b,
    (run ls_perform (Admin.GET_one "mycode1") world_down).1 =
      Normal (RJson st b) /\
    render None true origin0 now0 (visit "mycode1" (Dashboard.Resp st b)) = VError "Link not found".
Proof.
  apply visit_unavailable_is_not_found;
    [apply wf_check_sound; vm_compute; reflexivity | left; reflexivity].
Defined.

(** The details the page shows for the sample link: 3 clicks over 10
    days, printed as [toFixed(1)] prints [0.3]. *)
Example shown_details :
  render None true origin0 now0 shown =
    VDetails (mkDetails "mycode1" "https://tinylink.app/mycode1" "https://example.com/a" 3 100 (Some 500%Z)
                500 10 (Some "0.3")).
Proof. vm_compute. reflexivity. Qed.

(** A link whose target runs a script when followed. *)
Definition script_url : string := "javascript:alert(document.cookie)".

Lemma stats_links_any_scheme_witness :
  Utils.isValidUrl (H:=Utils.Whatwg.whatwg_parser) script_url = true /\
  ((run ls_perform (Admin.POST (H:=Utils.Whatwg.whatwg_parser) 3
      (Some (Js.JObj [("targetUrl", Js.JStr script_url)]))) Admin.world0).1 = Diverged \/
   exists l st b det,
    (run ls_perform (Admin.POST (H:=Utils.Whatwg.whatwg_parser) 3
       (Some (Js.JObj [("targetUrl", Js.JStr script_url)]))) Admin.world0).1 =
      Normal (RJson 201 (BLink l)) /\
    (run ls_perform (Admin.GET_one (Schema.code l))
       (run ls_perform (Admin.POST (H:=Utils.Whatwg.whatwg_parser) 3
          (Some (Js.JObj [("targetUrl", Js.JStr script_url)]))) Admin.world0).2).1 =
      Normal (RJson st b) /\
    render None true origin0 now0 (visit (Schema.code l) (Dashboard.Resp st b)) = VDetails det /\
    In (ELink "Visit Link" script_url) (page_elements (VDetails det)) /\
    In (ELink script_url script_url) (page_elements (VDetails det))).
Proof.
  assert (Hv : Utils.isValidUrl (H:=Utils.Whatwg.whatwg_parser) script_url = true)
    by (vm_compute; reflexivity).
  split; [exact Hv|].
  apply (stats_links_any_scheme (H1:=Utils.Whatwg.whatwg_parser) 3 script_url Admin.world0 None origin0 now0);
    [apply wf_check_sound; vm_compute; reflexivity | reflexivity | discriminate | exact Hv].
Defined.

End StatsPage.
