(* ===== verification/DashboardView.v ===== *)
(** * DashboardView: what the dashboard renders ([src/app/page.tsx] lines 153-292)

    The JSX of the dashboard makes decisions from its state; styling,
    animation and static text are not modelled.  [render] is those
    decisions.
    - The two inputs are disabled while a link is submitted or the
      database is disconnected (lines 224, 229).
    - The error and success banners show when the string is truthy
      (lines 233, 235).
    - The submit button is disabled and labelled as on lines 237-238.
    - The header counts the filtered links (line 252).
    - The list shows a spinner, one of three empty-state messages, or one
      row per filtered link (lines 261-282).  A row shows the code, the
      target, the clicks and [lastClicked] or "Never".  Its actions are
      [copyToClipboard], the stats link [/code/{code}] and
      [handleDeleteLink] (lines 268-276).
    - The footer shows [new Date().getFullYear()], the year of the local
      time [now + offset] (line 291, ECMA-262 [LocalTime]).

    Theorems: the submit button is enabled exactly when [handleCreateLink]
    would send a request and none is in flight; the list shows exactly
    the filtered links, in order, with the message the state calls for;
    and the stats link of a row makes the statistics page request that
    row's code. *)

From S2P Require Import Prelude Schema Dates Dashboard StatsPage.
Import Schema.

Module DashboardView.
Import Dashboard.

(** ** The view *)

Inductive submit_label : Type :=
| Creating          (** ["⏳ Creating..."] *)
| CreateShortLink.  (** ["✨ Create Short Link"] *)

Record form_view : Type := mkForm {
  inputs_disabled : bool;
  error_banner : option string;
  success_banner : option string;
  submit_disabled : bool;
  label : submit_label;
}.

(** One row of the list, with the targets of its three actions. *)
Record row : Type := mkRow {
  row_key : nat;
  row_code : string;
  row_target : string;
  row_clicks : Z;
  row_last : option Z;        (** [None] shows "Never" *)
  row_stats_href : string;
}.

Inductive list_view : Type :=
| LLoading
| LEmpty (msg : string)
| LRows (rows : list row).

Record view : Type := mkView {
  form : form_view;
  active_count : nat;
  list : list_view;
  footer_year : Z;
}.

(** ** Rendering *)

(** [{s && <div>{s}</div>}] *)
Definition banner (s : option string) : option string :=
  match s with Some x => if String.eqb x "" then None else Some x | None => None end.

Definition render_form (d : Dash) : form_view :=
  mkForm (isSubmitting d || negb (dbConnected d))
         (banner (error d)) (banner (success d))
         (isSubmitting d || String.eqb (trim (targetUrl d)) "" || negb (dbConnected d))
         (if isSubmitting d then Creating else CreateShortLink).

Definition stats_href (c : string) : string := "/code/" +:+ c.

Definition render_row (l : Link) : row :=
  mkRow (id l) (code l) (Schema.targetUrl l) (clicks l) (lastClicked l) (stats_href (code l)).

Definition empty_message (d : Dash) : string :=
  match links d with
  | [] => if dbConnected d then "No links yet. Create your first one above!"
          else "Database not connected. Configure Neon to create links."
  | _ => "No links match your search"
  end.

Definition render_list (d : Dash) : list_view :=
  if loading d then LLoading
  else match filteredLinks d with
       | [] => LEmpty (empty_message d)
       | ls => LRows (map render_row ls)
       end.

(** [new Date().getFullYear()] at time [now] in a zone [offset] ms ahead
    of UTC. *)
Definition full_year (now offset : Z) : Z :=
  let '(y, _, _) := Dates.civil_from_days ((now + offset) `div` Dates.ms_per_day)%Z in y.

Definition render (now offset : Z) (d : Dash) : view :=
  mkView (render_form d) (length (filteredLinks d)) (render_list d) (full_year now offset).

(** The actions of a row: the text [copyToClipboard(link.code)] copies,
    and the code [handleDeleteLink(link.code)] deletes once confirmed. *)
Definition row_copy (env : option string) (origin : string) (r : row) : string :=
  (copyToClipboard env origin (row_code r)).1.

Definition row_delete (r : row) : option string := handleDeleteLink_request true (row_code r).

(** The route [/code/[code]] hands the path segment to the statistics
    page as [params.code]. *)
Definition route_code (href : string) : option string :=
  match String.list_ascii_of_string href with
  | "/"%char :: "c"%char :: "o"%char :: "d"%char :: "e"%char :: "/"%char :: rest =>
      Some (String.string_of_list_ascii rest)
  | _ => None
  end.

(** ** Theorems *)

(** C35: the submit button is enabled exactly when no submission is in
    flight and [handleCreateLink] would send a request: the URL is not
    blank and the database is connected. *)
Theorem submit_enabled_iff_sends d :
  submit_disabled (render_form d) = false <->
  isSubmitting d = false /\ exists v, (handleCreateLink_submit d).2 = Some v.
Proof.
  unfold render_form, handleCreateLink_submit. simpl.
  destruct (isSubmitting d), (String.eqb (trim (targetUrl d)) ""), (dbConnected d); simpl;
    split; try done; try (intros [_ [v Hv]]; discriminate); try (intros [Hf _]; discriminate).
  intros _. split; [done | eexists; reflexivity].
Qed.

(** The list shows the spinner while loading, and otherwise exactly the
    filtered links, one row each and in order, or, when there are none,
    the message that says why; the header count is the number of rows. *)
Theorem render_list_spec now offset d :
  loading d = false ->
  match list (render now offset d) with
  | LRows rs => rs = map render_row (filteredLinks d) /\ rs <> [] /\
                active_count (render now offset d) = length rs
  | LEmpty msg => filteredLinks d = [] /\ active_count (render now offset d) = 0 /\
                  msg = (if bool_decide (links d = []) then
                           if dbConnected d then "No links yet. Create your first one above!"
                           else "Database not connected. Configure Neon to create links."
                         else "No links match your search")
  | LLoading => False
  end.
Proof.
  intros Hl. unfold render. cbn [list active_count]. unfold render_list. rewrite Hl.
  destruct (filteredLinks d) as [|l ls] eqn:Hf.
  - split_and!; [done | done |]. unfold empty_message. by destruct (links d).
  - split_and!; [done | done |]. by rewrite length_map.
Qed.

(** After a 201 of [POST /api/links], with an empty search, the new link
    is the first row of the list and the success banner names its code. *)
Theorem created_link_first_row now offset d l :
  searchTerm d = "" ->
  let d' := apply_all (handleCreateLink_done (links d) (Resp 201 (BLink l))) d in
  list (render now offset (apply_set (SetLoading false) d')) =
    LRows (render_row l :: map render_row (links d)) /\
  success_banner (form (render now offset d')) = Some ("Link created: " +:+ code l).
Proof.
  intros Hs. destruct d as [ls ld er su db tu cc sb st]. simpl in Hs. subst st.
  assert (Hf : forall ls', List.filter (matches_search "") ls' = ls').
  { intros ls'. apply forallb_filter_id, forallb_forall. intros x _.
    unfold matches_search. by rewrite !includes_empty. }
  unfold render, render_list, render_form, filteredLinks. cbn -[List.filter matches_search].
  rewrite Hf. split; [done|]. unfold banner.
  destruct (String.eqb_spec ("Link created: " +:+ code l) "") as [Heq|]; [|done].
  by destruct (code l).
Qed.

(** The stats link of a row opens the statistics page of that code, which
    requests exactly that link from [GET /api/links/{code}]. *)
Theorem stats_link_fetches l :
  code l <> "" ->
  exists c, route_code (row_stats_href (render_row l)) = Some c /\ c = code l /\
    StatsPage.fetchLink_request (StatsPage.params_resolved c StatsPage.initial) = Some (code l).
Proof.
  intros Hc. exists (code l). split_and!; [|done|].
  - unfold route_code, row_stats_href, render_row, stats_href. simpl.
    by rewrite String.string_of_list_ascii_of_string.
  - unfold StatsPage.fetchLink_request. simpl. by destruct (String.eqb_spec (code l) "").
Qed.

(** One second before 2027 in UTC, the footer of a page rendered in UTC
    reads 2026 and that of a page rendered one hour ahead of UTC reads
    2027. *)
Example footer_year_zones :
  full_year 1798761599000 0 = 2026%Z /\ full_year 1798761599000 3600000 = 2027%Z.
Proof. split; vm_compute; reflexivity. Qed.

End DashboardView.
