(* ===== verification/Layout.v ===== *)
(** * Layout: the root layout of [src/app/layout.tsx]

    Next.js renders every page inside [RootLayout] (lines 9-21): an
    [<html lang="en">] element whose [<body>] carries the classes of line
    16 and the page as its only child, with the [metadata] of lines 4-7 in
    the head.  [document] is that wrapping; the two pages it wraps are the
    dashboard ([DashboardView.render]) and the statistics page
    ([StatsPage.page_elements]).  The stylesheet [./globals.css] (line 2)
    is not modelled. *)

From S2P Require Import Prelude Schema Dashboard StatsPage DashboardView.

Module Layout.

Record metadata : Type := mkMetadata { title : string; description : string }.

(** [export const metadata: Metadata] (lines 4-7) *)
Definition app_metadata : metadata :=
  mkMetadata "TinyLink - URL Shortener" "A simple and fast URL shortener service".

Record document (A : Type) : Type := mkDocument {
  doc_lang : string;
  doc_meta : metadata;
  body_class : string;
  body : A;
}.
Arguments mkDocument {A}.
Arguments body {A}.

(** [RootLayout({ children })] *)
Definition RootLayout {A} (children : A) : document A :=
  mkDocument "en" app_metadata
    "bg-gradient-to-b from-slate-950 via-purple-950 to-slate-950 text-white" children.

(** The route [/] and the route [/code/[code]]. *)
Definition dashboard_document (now offset : Z) (d : Dashboard.Dash) : document DashboardView.view :=
  RootLayout (DashboardView.render now offset d).

Definition stats_document (env : option string) (window_defined : bool) (origin : string) (now : Z)
    (s : StatsPage.Stats) : document (list StatsPage.element) :=
  RootLayout (StatsPage.page_elements (StatsPage.render env window_defined origin now s)).

End Layout.
