(* ===== verification/Contract.v ===== *)
(** * Contract: the JSON answers of each route against what the pages expect

    The pages read the answers of the API with fixed expectations.
    - The dashboard reads an array of links from [GET /api/links]
      (page.tsx line 45), through its own [interface Link] (lines 5-12,
      [Wire.dash_link_type]).
    - It reads a link from a 201 of [POST /api/links] (line 93), and
      [{ error }] from any other failure of [POST] (line 91).
    - The statistics page reads a link from a 2xx of
      [GET /api/links/{code}] (code/[code]/page.tsx line 36).
    [client_type] states these expectations as [Wire.jtype]s, route by
    route and status by status; [resp_typed] says that a response meets
    them.

    [responses_typed] proves it for every JSON answer of every route.  It
    holds whatever the effects answer, so in every world, as long as the
    dates of the records sent are in the range of [Date].  Each handler is shown to return only such
    responses with [Prelude.prog_all], the judgement on the leaves of a
    handler program. *)

From S2P Require Import Prelude JsValue Schema Dates Wire Utils Store Redirect Admin Server.
Import Schema Utils Wire.

Module Contract.

(** ** The expectations of the pages *)

(** The records a body carries. *)
Definition body_links (b : body) : list Link :=
  match b with BLink l => [l] | BLinks ls => ls | _ => [] end.

Definition client_type (q : Server.request) (status : Z) : jtype :=
  match q with
  | Server.ReqRedirect _ => error_type
  | Server.ReqCreate _ _ => if (status =? 201)%Z then dash_link_type else error_type
  | Server.ReqList => if (status =? 200)%Z then TArr dash_link_type else error_type
  | Server.ReqGetOne _ => if (status =? 200)%Z then link_type else error_type
  | Server.ReqDelete _ => if (status =? 200)%Z then TObj [("success", TBool)] else error_type
  end.

Definition resp_typed (q : Server.request) (r : response) : Prop :=
  forall status b, r = RJson status b -> Forall link_in_range (body_links b) ->
  has_type (client_type q status) (body_json b) = true.

(** ** Lemmas *)

Lemma resp_typed_redirect q st loc : resp_typed q (RRedirect st loc).
Proof. by intros ? ? ?. Qed.

Lemma resp_typed_error q st msg :
  client_type q st = error_type -> resp_typed q (RJson st (BError msg)).
Proof. intros Hq ? ? [= <- <-] _. rewrite Hq. reflexivity. Qed.

Lemma resp_typed_link q st l :
  client_type q st = link_type -> resp_typed q (RJson st (BLink l)).
Proof.
  intros Hq ? ? [= <- <-] Hr. rewrite Hq. apply link_json_typed. by inversion Hr.
Qed.

Lemma resp_typed_dash_link q st l :
  client_type q st = dash_link_type -> resp_typed q (RJson st (BLink l)).
Proof.
  intros Hq ? ? [= <- <-] Hr. rewrite Hq. apply link_json_dash_typed. by inversion Hr.
Qed.

Lemma resp_typed_links ls : resp_typed Server.ReqList (RJson 200 (BLinks ls)).
Proof.
  intros ? ? [= <- <-] Hr.
  change (forallb (has_type dash_link_type) (map link_json ls) = true). rewrite forallb_forall.
  intros x Hx. apply in_map_iff in Hx as (l & <- & Hl).
  apply link_json_dash_typed. cbn [body_links] in Hr. rewrite List.Forall_forall in Hr. by apply Hr.
Qed.

Lemma resp_typed_success c : resp_typed (Server.ReqDelete c) (RJson 200 BSuccess).
Proof. intros ? ? [= <- <-] _. reflexivity. Qed.

#[local] Hint Resolve resp_typed_redirect resp_typed_links resp_typed_success : tinylink.
#[local] Hint Extern 2 (resp_typed _ (RJson _ (BError _))) =>
  apply resp_typed_error; reflexivity : tinylink.
#[local] Hint Extern 2 (resp_typed _ (RJson _ (BLink _))) =>
  first [apply resp_typed_link; reflexivity | apply resp_typed_dash_link; reflexivity] : tinylink.

(** Walk a handler program down to its answers. *)
Ltac prog_all_walk :=
  repeat match goal with
         | |- prog_all _ (catch _ _) => apply prog_all_catch; [| intros ?]
         | |- prog_all _ (mbind _ _) => apply prog_all_mbind; intros ?
         | |- prog_all _ (mret _) => apply prog_all_ret
         | |- prog_all _ (Throw _) => apply pa_throw
         | |- prog_all _ (match ?x with _ => _ end) => destruct x
         | |- prog_all _ (if ?b then _ else _) => destruct b
         end.

Lemma create_link_typed fuel body sc tu :
  prog_all (resp_typed (Server.ReqCreate fuel body)) (Admin.create_link sc tu).
Proof. unfold Admin.create_link. prog_all_walk. eauto with tinylink. Qed.

#[local] Hint Resolve create_link_typed : tinylink.

Lemma handler_typed `{UrlParser} q : prog_all (resp_typed q) (Server.handler_of q).
Proof.
  destruct q; cbn [Server.handler_of];
    unfold Redirect.GET, Admin.POST, Admin.GET_list, Admin.GET_one, Admin.DELETE,
      Redirect.not_found, Redirect.internal_error, Admin.bad_request, Admin.link_not_found;
    prog_all_walk; eauto with tinylink.
Qed.

(** ** Theorems *)

(** C38: every JSON answer of every route has the type the pages expect
    for its status: a link object after a 201 of [POST] and a 200 of
    [GET /api/links/{code}], an array of link objects after a 200 of
    [GET /api/links], [{ success: true }] after a 200 of [DELETE], and
    [{ error: string }] otherwise, for every answer of the database, as
    long as the dates of the records sent are in the range of [Date]. *)
Theorem responses_typed `{UrlParser} {W} (perform : forall e, W -> (exn + ans e) * W)
    q w status b w' :
  run perform (Server.handler_of q) w = (Normal (RJson status b), w') ->
  Forall link_in_range (body_links b) ->
  has_type (client_type q status) (body_json b) = true.
Proof. intros Hr. exact (prog_all_run perform _ _ w _ w' (handler_typed q) Hr status b eq_refl). Qed.

(** ** Concrete runs *)

Import Whatwg.

Lemma responses_typed_witness :
  run Store.perform (Server.handler_of (Server.ReqGetOne "mycode1")) Admin.world1 =
    (Normal (RJson 200 (BLink Admin.stored)), Admin.world1) /\
  has_type (client_type (Server.ReqGetOne "mycode1") 200) (body_json (BLink Admin.stored)) = true.
Proof.
  assert (Hr : run Store.perform (Server.handler_of (Server.ReqGetOne "mycode1")) Admin.world1 =
                 (Normal (RJson 200 (BLink Admin.stored)), Admin.world1))
    by (vm_compute; reflexivity).
  split; [exact Hr|].
  apply (responses_typed Store.perform _ _ _ _ _ Hr).
  constructor; [|constructor].
  unfold link_in_range, Dates.max_time. simpl. split_and!; [lia | lia | intros t [= <-]; lia].
Defined.

End Contract.
