(* ===== verification/Liveness.v ===== *)
(** * Liveness: every request answers after a bounded number of its steps

    A handler suspends only at its [await]s.  [within n p] says that [p]
    answers (returns or throws) after at most [n] awaited effects on every
    path, whatever the effects answer; it rules out the fuel-bounded
    [while] loop of [POST /api/links], whose model ends in [Loop].
    - [GET /{code}] awaits at most 3 effects: the lookup, [new Date()]
      and the update.
    - [GET /api/links] and [GET /api/links/{code}] await one query.
    - [DELETE /api/links/{code}] awaits two queries.

    In the interleaving semantics of [Server], the steps of the other
    threads never change a thread's program.  So a thread that starts as
    one of these handlers has answered in every schedule that gives it as
    many steps as its bound, however the other requests, the clock and
    the database interleave with it ([handler_answers]).  For [POST],
    [POST_within_fuel] bounds the awaits by the loop's fuel: the request
    answers or runs out of fuel. *)

From S2P Require Import Prelude JsValue Schema Utils Store Redirect Admin Server.
Import Schema Utils Store.

Module Liveness.

(** ** Bounded answers *)

Section Within.
Context {E : Type} {ans : E -> Type} {X : Type}.

Inductive within {A} : nat -> prog E ans X A -> Prop :=
| within_ret n a : within n (Ret a)
| within_throw n x : within n (Throw x)
| within_call n e k : (forall r, within n (k r)) -> within (S n) (Call e k).

(** [Loop] is the fuel of an unbounded loop running out. *)
Inductive within_or_loop {A} : nat -> prog E ans X A -> Prop :=
| wl_ret n a : within_or_loop n (Ret a)
| wl_throw n x : within_or_loop n (Throw x)
| wl_loop n : within_or_loop n Loop
| wl_call n e k : (forall r, within_or_loop n (k r)) -> within_or_loop (S n) (Call e k).

(** A suspended thread has answered. *)
Definition answered {A} (p : prog E ans X A) : bool :=
  match p with Ret _ | Throw _ => true | _ => false end.

Lemma within_mono {A} n m (p : prog E ans X A) : within n p -> n <= m -> within m p.
Proof.
  intros Hp. revert m. induction Hp as [| |n e k _ IH]; intros m Hm; try constructor.
  destruct m as [|m]; [lia|]. constructor. intros r. apply IH. lia.
Qed.

Lemma within_or_loop_mono {A} n m (p : prog E ans X A) :
  within_or_loop n p -> n <= m -> within_or_loop m p.
Proof.
  intros Hp. revert m. induction Hp as [| | |n e k _ IH]; intros m Hm; try constructor.
  destruct m as [|m]; [lia|]. constructor. intros r. apply IH. lia.
Qed.

Lemma within_or_loop_bind {A B} n m (p : prog E ans X A) (f : A -> prog E ans X B) :
  within_or_loop n p -> (forall a, within_or_loop m (f a)) -> within_or_loop (n + m) (bind p f).
Proof.
  induction 1 as [n a|n x|n|n e k _ IH]; intros Hf; simpl; try constructor; auto.
  eapply within_or_loop_mono; [apply Hf | lia].
Qed.
Lemma wl_mbind {A B} n m k (p : prog E ans X A) (f : A -> prog E ans X B) :
  within_or_loop n p -> (forall a, within_or_loop m (f a)) -> n + m <= k ->
  within_or_loop k (x ← p; f x).
Proof. intros Hp Hf Hk. eapply within_or_loop_mono; [by apply within_or_loop_bind | done]. Qed.

Lemma wl_await (e : E) : within_or_loop 1 (call (ans:=ans) (X:=X) e).
Proof. constructor. intros [x|a]; constructor. Qed.

Lemma wl_catch {A} n (p : prog E ans X A) h :
  within_or_loop n p -> (forall x, within_or_loop 0 (h x)) -> within_or_loop n (catch p h).
Proof.
  induction 1 as [n a|n x|n|n e k _ IH]; intros Hh; simpl; try constructor; auto.
  eapply within_or_loop_mono; [apply Hh | lia].
Qed.
End Within.

(** Unfold a handler into its tree of awaits and check each path. *)
Ltac within_walk :=
  repeat (unfold prog_bind, mret, prog_ret in *; simpl; match goal with
                 | |- within _ (Ret _) => apply within_ret
                 | |- within _ (Throw _) => apply within_throw
                 | |- within _ (Call _ _) => apply within_call; intros ?
                 | |- within _ (match ?x with _ => _ end) => destruct x
                 | |- within_or_loop _ (Ret _) => apply wl_ret
                 | |- within_or_loop _ (Throw _) => apply wl_throw
                 | |- within_or_loop _ Loop => apply wl_loop
                 | |- within_or_loop _ (Call _ _) => apply wl_call; intros ?
                 | |- within_or_loop _ (match ?x with _ => _ end) => destruct x
                 | |- context [match ?x with _ => _ end] => is_var x; destruct x
                 | |- context [match url_href ?u with _ => _ end] => destruct (url_href u)
                 end).

(** The number of awaits of each request, [None] for [POST]. *)
Definition handler_bound (q : Server.request) : option nat :=
  match q with
  | Server.ReqRedirect _ => Some 3
  | Server.ReqCreate _ _ => None
  | Server.ReqList => Some 1
  | Server.ReqGetOne _ => Some 1
  | Server.ReqDelete _ => Some 2
  end.

Lemma handler_within `{UrlParser} q n :
  handler_bound q = Some n -> within n (Server.handler_of q).
Proof.
  destruct q; intros [= <-]; cbn [Server.handler_of];
    unfold Redirect.GET, Admin.GET_list, Admin.GET_one, Admin.DELETE; within_walk.
Qed.

Ltac wl_await_tac :=
  match goal with |- within_or_loop _ (call ?e) => exact (wl_await (ans:=ans) (X:=exn) e) end.

Lemma gen_chars_wl n acc : within_or_loop n (Utils.gen_chars n acc).
Proof.
  revert acc. induction n as [|n IH]; intros acc; cbn [Utils.gen_chars]; [constructor|].
  eapply (wl_mbind 1 n); [wl_await_tac | intros ?; apply IH | lia].
Qed.

Lemma gen_loop_wl fuel sc : within_or_loop (7 * fuel) (Admin.gen_loop fuel sc).
Proof.
  revert sc. induction fuel as [|fuel IH]; intros sc; cbn [Admin.gen_loop]; [constructor|].
  eapply (wl_mbind 1 (6 + 7 * fuel)); [wl_await_tac | intros [?|] | lia].
  - eapply (wl_mbind 6 (7 * fuel)); [apply gen_chars_wl | intros ?; apply IH | lia].
  - constructor.
Qed.

Lemma create_link_wl sc tu : within_or_loop 1 (Admin.create_link sc tu).
Proof. eapply (wl_mbind 1 0); [wl_await_tac | intros ?; constructor | lia]. Qed.

(** [POST /api/links] answers after at most [7 + 7 * fuel] awaits, or
    runs out of the fuel of its [while] loop. *)
Lemma POST_within_fuel `{UrlParser} fuel body :
  within_or_loop (7 + 7 * fuel) (Admin.POST fuel body).
Proof.
  unfold Admin.POST. apply wl_catch; [|intros; constructor].
  assert (Hgen : forall tu, within_or_loop (7 + 7 * fuel)
                   (sc ← Admin.gen_unique fuel; Admin.create_link (Js.JStr sc) tu))
    by (intros tu; eapply (wl_mbind (6 + 7 * fuel) 1);
        [eapply (wl_mbind 6 (7 * fuel)); [apply gen_chars_wl | intros ?; apply gen_loop_wl | done]
        | intros ?; apply create_link_wl | lia]).
  eapply (wl_mbind 0 (7 + 7 * fuel)); [unfold Admin.read_json; destruct body; constructor | intros v | lia].
  eapply (wl_mbind 0 (7 + 7 * fuel)); [unfold Admin.read_fields; destruct (Js.destructure v "targetUrl" "code"); constructor
                                | | lia].
  intros [tu c]. destruct tu as [tu'|]; [|constructor].
  destruct (negb (Js.truthy (Some tu'))); [constructor|].
  destruct (negb (isValidUrl (Js.to_string tu'))); [constructor|].
  destruct c as [c'|]; [|apply Hgen].
  destruct (Js.truthy (Some c')); [|apply Hgen].
  destruct (negb (isValidCode (Js.to_string c'))); [constructor|].
  eapply (wl_mbind 1 1); [wl_await_tac | intros [?|]; [constructor | apply create_link_wl] | lia].
Qed.

(** ** Schedules *)

Lemma step_at_other i j s :
  i <> j -> Server.sys_threads (Server.step_at j s) !! i = Server.sys_threads s !! i.
Proof.
  intros Hij. destruct s as [w ts]. unfold Server.step_at. simpl.
  destruct (ts !! j) as [[| | |e k]|]; try done.
  destruct (perform e w) as [r w']. simpl. by rewrite list_lookup_insert_ne.
Qed.

Lemma step_at_call i s e k :
  Server.sys_threads s !! i = Some (Call e k) ->
  exists r, Server.sys_threads (Server.step_at i s) !! i = Some (k r).
Proof.
  intros Hi. destruct s as [w ts]. unfold Server.step_at. simpl in *. rewrite Hi.
  destruct (perform e w) as [r w']. exists r. simpl.
  apply list_lookup_insert_eq. by eapply lookup_lt_Some.
Qed.

Lemma step_at_answered i s p :
  Server.sys_threads s !! i = Some p -> answered p = true ->
  Server.sys_threads (Server.step_at i s) !! i = Some p.
Proof.
  intros Hi Ha. destruct s as [w ts]. unfold Server.step_at. simpl in *. rewrite Hi.
  by destruct p.
Qed.

(** A thread that answers within [n] awaits has answered once it has
    been scheduled [n] times, whatever the other threads do. *)
Lemma exec_within sched s i n p :
  Server.sys_threads s !! i = Some p -> within n p -> n <= count_occ Nat.eq_dec sched i ->
  exists p', Server.sys_threads (Server.exec_sched sched s) !! i = Some p' /\ answered p' = true.
Proof.
  revert s n p. induction sched as [|j sched IH]; intros s n p Hi Hw Hn.
  - simpl in Hn. assert (n = 0) as -> by lia.
    exists p. split; [done|]. inversion Hw; subst; done.
  - change (Server.exec_sched (j :: sched) s) with (Server.exec_sched sched (Server.step_at j s)).
    simpl in Hn. destruct (Nat.eq_dec j i) as [<-|Hne].
    + destruct Hw as [n a|n x|n e k Hk].
      * apply (IH _ 0 (Ret a)); [by apply step_at_answered | constructor | lia].
      * apply (IH _ 0 (Throw x)); [by apply step_at_answered | constructor | lia].
      * destruct (step_at_call j s e k Hi) as [r Hr]. apply (IH _ n (k r)); [done | apply Hk | lia].
    + apply (IH _ n p); [by rewrite step_at_other | done | lia].
Qed.

(** Every redirect, listing, lookup and deletion answers under every
    interleaving: a thread serving one of them has returned or thrown
    once the schedule has given it as many steps as the handler has
    awaits (3, 1, 1 and 2), whatever the other requests do meanwhile. *)
Theorem handler_answers `{UrlParser} q n s i sched :
  handler_bound q = Some n -> Server.sys_threads s !! i = Some (Server.handler_of q) ->
  n <= count_occ Nat.eq_dec sched i ->
  exists p, Server.sys_threads (Server.exec_sched sched s) !! i = Some p /\ answered p = true.
Proof. intros Hb Hi Hn. eapply exec_within; [exact Hi | by apply handler_within | exact Hn]. Qed.

(** ** Concrete runs *)

Import Whatwg.

Lemma handler_answers_witness :
  exists p, Server.sys_threads (Server.exec_sched [0; 1; 0; 1; 0; 1] (Server.redirects 2 0)) !! 0 = Some p
            /\ answered p = true.
Proof. apply (handler_answers (Server.ReqRedirect "abc123") 3); reflexivity. Defined.

End Liveness.
