(* ===== verification/Session.v ===== *)
(** * Session: the dashboard tab over its lifetime, against the server

    [Dashboard] gives each handler of [src/app/page.tsx] as the updates
    it makes; this file runs them as the browser does, interleaved with
    the server.  A [Tab] is the dashboard's state, its phase in the React
    lifecycle, whether the [setInterval] of line 28 is armed, the
    requests in flight and the pending [setTimeout]s that clear the
    success banner.  [step] gives one event its effect, [None] when the
    event cannot happen:
    - [Mount] runs the effect of lines 26-30: [fetchLinks()] and
      [setInterval(fetchLinks, 30000)]; [IntervalTick] is the interval
      firing; [Unmount] runs the cleanup [clearInterval].
    - [TypeUrl], [TypeCode] and [TypeSearch] are the [onChange]s of the
      three inputs (lines 224, 229, 258), possible only while the input is
      enabled, and for the code input up to its [maxLength={8}].
    - [Submit] is the form's [onSubmit] (line 221) while the submit
      button is enabled; [ClickCopy] and [ClickDelete] are the buttons of
      a row shown in the list (lines 274, 276).
    - [Serve i] runs the handler of request [i] on the server's [World];
      [Deliver i] hands its answer to the code after the [await fetch],
      with the [links] that code closed over when the handler ran.  React
      drops the updates of an unmounted component.
    - [DbUp], [Tick] and [Other] are the environment: the database going
      up or down, the clock, and another client's request.

    The server answers each request atomically: the tab's requests are
    served in any order, but the awaits of two handlers are not
    interleaved here ([Server] does that).

    Theorems: in a session where each request is answered before the
    next is sent, the dashboard shows the server's table whenever it
    believes the database connected; when a deletion and a creation
    overlap, the closures over a stale [links] lose the created link from
    the list; after the component unmounts the tab sends no more
    requests. *)

From S2P Require Import Prelude JsValue Schema Utils Store Admin Server Dashboard DashboardView.
Import Schema Utils Store.

Module Session.
Import Dashboard.

(** ** The tab *)

Inductive phase : Type := Fresh | Mounted | Unmounted.

(** The code after [await fetch(...)], with what it closed over. *)
Inductive cont : Type :=
| KFetch                                 (** [fetchLinks] *)
| KCreate (ls : list Link)               (** [handleCreateLink], over [links] *)
| KDelete (ls : list Link) (c : string). (** [handleDeleteLink(c)], over [links] *)

Inductive status : Type :=
| Sent                                   (** not yet handled by the server *)
| Hung                                   (** the handler never answers *)
| Answered (r : fetch_result).

Record req : Type := mkReq { r_cont : cont; r_request : Server.request; r_status : status }.

Record Tab : Type := mkTab {
  dash : Dash;
  life : phase;
  interval : bool;       (** the interval of line 28 is armed *)
  inflight : list req;   (** newest first *)
  timers : nat;          (** pending [setTimeout(() => setSuccess(null))] *)
  sent : nat;            (** requests sent so far *)
}.

Definition initial : Tab := mkTab Dashboard.initial Fresh false [] 0 0.

Definition update (acts : list set_state) (t : Tab) : Tab :=
  mkTab (apply_all acts (dash t)) (life t) (interval t) (inflight t) (timers t) (sent t).

Definition send (k : cont) (q : Server.request) (t : Tab) : Tab :=
  mkTab (dash t) (life t) (interval t) (mkReq k q Sent :: inflight t) (timers t) (S (sent t)).

Definition with_life (p : phase) (armed : bool) (t : Tab) : Tab :=
  mkTab (dash t) p armed (inflight t) (timers t) (sent t).

Definition with_inflight (rs : list req) (t : Tab) : Tab :=
  mkTab (dash t) (life t) (interval t) rs (timers t) (sent t).

Definition arm_timer (t : Tab) : Tab :=
  mkTab (dash t) (life t) (interval t) (inflight t) (S (timers t)) (sent t).

Definition is_mounted (t : Tab) : bool := match life t with Mounted => true | _ => false end.

(** [fetchLinks()]: [setLoading(true)], then the request. *)
Definition fetchLinks (t : Tab) : Tab :=
  send KFetch Server.ReqList (update fetchLinks_start t).

(** The row of a code is on the page (lines 267-280). *)
Definition row_shown (c : string) (d : Dash) : bool :=
  match DashboardView.render_list d with
  | DashboardView.LRows rs => existsb (fun r => String.eqb (DashboardView.row_code r) c) rs
  | _ => false
  end.

(** The answer the browser gets.  The routes the dashboard calls catch
    every exception and never redirect, so the last two cases do not
    arise; [Diverged] is a handler that never answers. *)
Definition answer_of (o : outcome exn response) : status :=
  match o with
  | Normal (RJson st b) => Answered (Resp st b)
  | Normal (RRedirect st _) => Answered (Resp st (BError ""))
  | Thrown _ => Answered (Resp 500 (BError ""))
  | Diverged => Hung
  end.

Definition on_answer (k : cont) (r : fetch_result) : list set_state :=
  match k with
  | KFetch => fetchLinks_done r
  | KCreate ls => handleCreateLink_done ls r
  | KDelete ls c => handleDeleteLink_done ls c r
  end.

(** The answers after which the handler calls [setTimeout] (lines 98,
    119). *)
Definition arms_timer (k : cont) (r : fetch_result) : bool :=
  match k, r with
  | KCreate _, Resp st (BLink _) => negb (st =? 409)%Z && ok st
  | KDelete _ _, Resp st _ => ok st
  | _, _ => false
  end.

Definition set_status (i : nat) (s : status) (t : Tab) : Tab :=
  with_inflight (alter (fun r => mkReq (r_cont r) (r_request r) s) i (inflight t)) t.

Definition drop_req (i : nat) (t : Tab) : Tab :=
  with_inflight (take i (inflight t) ++ drop (S i) (inflight t)) t.

(** ** Events *)

Inductive event : Type :=
| Mount
| IntervalTick
| Unmount
| TypeUrl (s : string)
| TypeCode (s : string)
| TypeSearch (s : string)
| Submit
| ClickCopy (c : string)
| ClickDelete (c : string) (confirmed : bool)
| Serve (i : nat)
| Deliver (i : nat)
| Timeout
| DbUp (b : bool)
| Tick (d : Z)
| Other (q : Server.request).

Section Step.
Context `{UrlParser}.
(** The fuel of [POST]'s loop, [NEXT_PUBLIC_BASE_URL] and the page's
    origin. *)
Variable fuel : nat.
Variable env : option string.
Variable origin : string.

Definition step (ev : event) (t : Tab) (w : World) : option (Tab * World) :=
  let d := dash t in
  match ev with
  | Mount =>
      match life t with Fresh => Some (fetchLinks (with_life Mounted true t), w) | _ => None end
  | IntervalTick => if interval t then Some (fetchLinks t, w) else None
  | Unmount =>
      match life t with Mounted => Some (with_life Unmounted false t, w) | _ => None end
  | TypeUrl s =>
      if is_mounted t && negb (DashboardView.inputs_disabled (DashboardView.render_form d))
      then Some (update [SetTargetUrl s] t, w) else None
  | TypeCode s =>
      if is_mounted t && negb (DashboardView.inputs_disabled (DashboardView.render_form d))
         && (String.length s <=? 8)
      then Some (update [SetCustomCode s] t, w) else None
  | TypeSearch s => if is_mounted t then Some (update [SetSearchTerm s] t, w) else None
  | Submit =>
      if is_mounted t && negb (DashboardView.submit_disabled (DashboardView.render_form d)) then
        let '(acts, body) := handleCreateLink_submit d in
        match body with
        | Some v => Some (send (KCreate (links d)) (Server.ReqCreate fuel (Some v)) (update acts t), w)
        | None => Some (update acts t, w)
        end
      else None
  | ClickCopy c =>
      if is_mounted t && row_shown c d
      then Some (arm_timer (update (copyToClipboard env origin c).2 t), w) else None
  | ClickDelete c confirmed =>
      if is_mounted t && row_shown c d then
        match handleDeleteLink_request confirmed c with
        | Some c' => Some (send (KDelete (links d) c') (Server.ReqDelete c') t, w)
        | None => Some (t, w)
        end
      else None
  | Serve i =>
      match inflight t !! i with
      | Some (mkReq _ q Sent) =>
          let '(o, w') := run perform (Server.handler_of q) w in
          Some (set_status i (answer_of o) t, w')
      | _ => None
      end
  | Deliver i =>
      match inflight t !! i with
      | Some (mkReq k _ (Answered r)) =>
          let t1 := drop_req i t in
          Some (if is_mounted t then
                  if arms_timer k r then arm_timer (update (on_answer k r) t1)
                  else update (on_answer k r) t1
                else t1, w)
      | _ => None
      end
  | Timeout =>
      match timers t with
      | S n =>
          let t1 := mkTab d (life t) (interval t) (inflight t) n (sent t) in
          Some (if is_mounted t then update success_timeout t1 else t1, w)
      | 0 => None
      end
  | DbUp b => Some (t, Server.set_up b w)
  | Tick dt => if (0 <=? dt)%Z then Some (t, Server.tick dt w) else None
  | Other q => Some (t, (run perform (Server.handler_of q) w).2)
  end.

(** A run of events; [None] when one of them cannot happen. *)
Fixpoint exec (evs : list event) (s : Tab * World) : option (Tab * World) :=
  match evs with
  | [] => Some s
  | ev :: evs' => s' ← step ev s.1 s.2; exec evs' s'
  end.

Inductive reachable : Tab * World -> Prop :=
| reach_init w : wf w -> reachable (initial, w)
| reach_step ev s s' : reachable s -> step ev s.1 s.2 = Some s' -> reachable s'.

(** ** Sequential sessions

    Each event of the user or of the environment, and, when it sends a
    request, the server's handling of it and the delivery of the answer
    before anything else happens.  Another client's requests are left
    out. *)

Definition solo (ev : event) : bool :=
  match ev with Serve _ | Deliver _ | Other _ => false | _ => true end.

Definition seq_step (ev : event) (s : Tab * World) : option (Tab * World) :=
  s1 ← step ev s.1 s.2;
  match inflight s1.1 with
  | mkReq _ _ Sent :: _ =>
      s2 ← step (Serve 0) s1.1 s1.2;
      match step (Deliver 0) s2.1 s2.2 with Some s3 => Some s3 | None => Some s2 end
  | _ => Some s1
  end.

Inductive seq_reachable : Tab * World -> Prop :=
| sreach_init w : wf w -> seq_reachable (initial, w)
| sreach_step ev s s' : seq_reachable s -> solo ev = true -> seq_step ev s = Some s' ->
    seq_reachable s'.

End Step.

(** ** Theorems *)

Section Proofs.
Context `{UrlParser}.

(** The records of a table. *)
Definition vals (m : gmap string Link) : list Link := (map_to_list m).*2.

(** The events that may send a request. *)
Definition sends (ev : event) : bool :=
  match ev with Mount | IntervalTick | Submit | ClickDelete _ _ => true | _ => false end.

(** The updates that leave the list and the connection flag alone. *)
Definition keeps_view (a : set_state) : bool :=
  match a with SetLinks _ | SetDbConnected _ => false | _ => true end.

Lemma apply_all_keeps acts d :
  forallb keeps_view acts = true ->
  links (apply_all acts d) = links d /\ dbConnected (apply_all acts d) = dbConnected d.
Proof.
  revert d. induction acts as [|a acts IH]; intros d Ha; [done|].
  simpl in Ha. apply andb_true_iff in Ha as [Ha Hr].
  change (apply_all (a :: acts) d) with (apply_all acts (apply_set a d)).
  destruct (IH (apply_set a d) Hr) as [-> ->]. by destruct a, d.
Qed.

Lemma run_wf {A} (p : handler A) w : wf w -> wf (run perform p w).2.
Proof. intros Hw. exact (proj1 (@run_frame World world_store world_store_laws _ p w Hw)). Qed.

Lemma vals_insert m l : m !! code l = None -> vals (<[code l := l]> m) ≡ₚ l :: vals m.
Proof. intros Hl. unfold vals. by rewrite map_to_list_insert. Qed.

Lemma vals_delete m c l :
  map_Forall (fun s l => code l = s) m -> m !! c = Some l ->
  vals (delete c m) ≡ₚ List.filter (fun l => negb (String.eqb (code l) c)) (vals m).
Proof.
  intros Hk Hl. unfold vals.
  etrans; [|apply filter_perm, fmap_Permutation, (map_to_list_delete m c l Hl)]. simpl.
  rewrite (Hk c l Hl), String.eqb_refl. simpl.
  rewrite forallb_filter_id; [done|]. apply forallb_forall. intros x Hx.
  apply in_map_iff in Hx as ([s x'] & <- & Hin). apply list_elem_of_In, elem_of_map_to_list in Hin.
  simpl. apply negb_true_iff, String.eqb_neq. intros Heq.
  assert (s = c) as -> by (rewrite <- Heq; symmetry; apply (Hk s x'); by apply lookup_delete_Some in Hin as [_ ?]).
  by rewrite lookup_delete_eq in Hin.
Qed.


Lemma wf_keys w : wf w -> map_Forall (fun s l => code l = s) (Store.links w).
Proof. intros [Hok _] s l Hl. exact (proj1 (Hok s l Hl)). Qed.

Lemma fetch_answer w :
  wf w ->
  Store.links (run perform Admin.GET_list w).2 = Store.links w /\
  exists r, answer_of (run perform Admin.GET_list w).1 = Answered r /\
    forall d, dbConnected (apply_all (fetchLinks_done r) d) = true ->
      links (apply_all (fetchLinks_done r) d) ≡ₚ vals (Store.links w).
Proof.
  intros Hw. destruct (@Admin.GET_list_run World world_store world_store_laws w Hw) as [Hm Hr]. split; [exact Hm|].
  cbn [ls_up ls_links ls_perform world_store] in Hr. destruct (db_up w).
  - destruct Hr as (ls & Ho & Hp & _). rewrite Ho. eexists; split; [done|].
    intros [] _. exact Hp.
  - rewrite Hr. eexists; split; [done|]. by intros [].
Qed.

Lemma create_answer fuel v w ls d :
  wf w -> ls ≡ₚ vals (Store.links w) -> links d ≡ₚ vals (Store.links w) ->
  (answer_of (run perform (Admin.POST fuel v) w).1 = Hung /\
   Store.links (run perform (Admin.POST fuel v) w).2 = Store.links w) \/
  exists r, answer_of (run perform (Admin.POST fuel v) w).1 = Answered r /\
    links (apply_all (handleCreateLink_done ls r) d) ≡ₚ
      vals (Store.links (run perform (Admin.POST fuel v) w).2) /\
    dbConnected (apply_all (handleCreateLink_done ls r) d) = dbConnected d.
Proof.
  intros Hw Hls Hd. pose proof (@Admin.POST_table World world_store world_store_laws _ fuel v w Hw) as Hp. cbn [ls_up ls_links ls_perform world_store] in Hp.
  destruct (run perform (Admin.POST fuel v) w) as [o w']. simpl in *.
  destruct Hp as [(l & -> & Hl & ->) | (-> & [-> | (st & msg & -> & Hst)])].
  - right. eexists; split; [done|]. rewrite vals_insert by done. by destruct d; simpl; split; [constructor|].
  - by left.
  - right. eexists; split; [done|]. rewrite <- Hd.
    destruct (apply_all_keeps (handleCreateLink_done ls (Resp st (BError msg))) d) as [-> ->]; [|done].
    simpl. destruct (st =? 409)%Z; [done|]. by destruct (negb (ok st)).
Qed.

Lemma delete_answer c w ls d :
  wf w -> (dbConnected d = true -> ls ≡ₚ vals (Store.links w) /\ links d ≡ₚ vals (Store.links w)) ->
  exists r, answer_of (run perform (Admin.DELETE c) w).1 = Answered r /\
    (dbConnected (apply_all (handleDeleteLink_done ls c r) d) = true ->
     links (apply_all (handleDeleteLink_done ls c r) d) ≡ₚ
       vals (Store.links (run perform (Admin.DELETE c) w).2)).
Proof.
  intros Hw Hd. destruct (@Admin.DELETE_run World world_store world_store_laws c w Hw) as [Ho Hm]. cbn [ls_up ls_links ls_perform world_store] in Ho, Hm.
  rewrite Ho, Hm. unfold Admin.delete_ref.
  destruct (db_up w); [destruct (Store.links w !! c) as [l|] eqn:Hl|]; simpl.
  - eexists; split; [done|]. destruct d; simpl in *. intros Hc. destruct (Hd Hc) as [Hls _].
    rewrite (vals_delete _ c l (wf_keys w Hw) Hl). by apply filter_perm.
  - eexists; split; [done|]. destruct d; simpl in *. intros Hc. by apply Hd.
  - eexists; split; [done|]. destruct d; simpl in *. intros Hc. by apply Hd.
Qed.


Section Seq.
Variables (fuel : nat) (env : option string) (origin : string).

(** The tab once the answer to its newest request has been handled. *)
Definition after_answer (k : cont) (r : fetch_result) (t0 : Tab) : Tab :=
  let t1 := mkTab (dash t0) (life t0) (interval t0) (inflight t0) (timers t0) (S (sent t0)) in
  if is_mounted t0 then
    if arms_timer k r then arm_timer (update (on_answer k r) t1) else update (on_answer k r) t1
  else t1.

(** The invariant of a sequential session: the world is well formed,
    every request still in flight hangs, and a mounted dashboard that
    believes the database connected lists the table. *)
Definition shows_table (t : Tab) (w : World) : Prop :=
  is_mounted t = true -> dbConnected (dash t) = true -> links (dash t) ≡ₚ vals (Store.links w).

Definition seq_inv (s : Tab * World) : Prop :=
  wf s.2 /\ Forall (fun r => r_status r = Hung) (inflight s.1) /\ shows_table s.1 s.2.

(** A disabled event makes no step. *)
Ltac off Hg :=
  match goal with
  | Hst : seq_step _ _ _ _ _ = Some _ |- _ =>
      unfold seq_step in Hst; cbn [fst snd step] in Hst; rewrite Hg in Hst; discriminate Hst
  end.


Lemma seq_step_send ev t w k q t0 :
  step fuel env origin ev t w = Some (send k q t0, w) ->
  seq_step fuel env origin ev (t, w) =
    Some (match answer_of (run perform (Server.handler_of q) w).1 with
          | Answered r => (after_answer k r t0, (run perform (Server.handler_of q) w).2)
          | st => (set_status 0 st (send k q t0), (run perform (Server.handler_of q) w).2)
          end).
Proof.
  intros He. unfold seq_step. cbn [fst snd]. rewrite He. simpl.
  destruct (run perform (Server.handler_of q) w) as [o w']. simpl.
  by destruct (answer_of o).
Qed.

Lemma seq_step_quiet ev t w t1 w1 :
  step fuel env origin ev t w = Some (t1, w1) -> Forall (fun r => r_status r = Hung) (inflight t1) ->
  seq_step fuel env origin ev (t, w) = Some (t1, w1).
Proof.
  intros He Hh. unfold seq_step. cbn [fst snd]. rewrite He. simpl.
  destruct (inflight t1) as [|[k q st] rs]; [done|]. inversion Hh; simpl in *; by subst.
Qed.

(** An enabled event that sends nothing: [seq_step] is [step]. *)
Ltac quiet_step Hg :=
  match goal with
  | Hst : seq_step _ _ _ _ _ = Some _, Hh : Forall _ (inflight _) |- _ =>
      erewrite seq_step_quiet in Hst; [injection Hst as <- | cbn [step]; rewrite Hg; reflexivity | exact Hh]
  end.

Lemma after_answer_spec k r t0 :
  is_mounted (after_answer k r t0) = is_mounted t0 /\ inflight (after_answer k r t0) = inflight t0 /\
  (is_mounted t0 = true -> dash (after_answer k r t0) = apply_all (on_answer k r) (dash t0)).
Proof.
  unfold after_answer, is_mounted. destruct (life t0); [done| |done].
  by destruct (arms_timer k r).
Qed.

(** The request is answered, or it hangs and leaves the table alone. *)
Lemma inv_answer k q t0 w :
  wf w -> Forall (fun r => r_status r = Hung) (inflight t0) ->
  (answer_of (run perform (Server.handler_of q) w).1 = Hung ->
     Store.links (run perform (Server.handler_of q) w).2 = Store.links w /\ shows_table t0 w) ->
  (forall r, answer_of (run perform (Server.handler_of q) w).1 = Answered r ->
     is_mounted t0 = true -> dbConnected (apply_all (on_answer k r) (dash t0)) = true ->
     links (apply_all (on_answer k r) (dash t0)) ≡ₚ vals (Store.links (run perform (Server.handler_of q) w).2)) ->
  seq_inv (match answer_of (run perform (Server.handler_of q) w).1 with
           | Answered r => (after_answer k r t0, (run perform (Server.handler_of q) w).2)
           | st => (set_status 0 st (send k q t0), (run perform (Server.handler_of q) w).2)
           end).
Proof.
  intros Hw Hh HH HA. pose proof (run_wf (Server.handler_of q) w Hw) as Hw'.
  destruct (answer_of _) as [| |r] eqn:Ha.
  - by destruct (run perform (Server.handler_of q) w).1 as [[]| |].
  - destruct (HH eq_refl) as [Hm Hs]. split_and!; [done | by constructor | ].
    unfold shows_table in *. simpl. by rewrite Hm.
  - destruct (after_answer_spec k r t0) as (Hm & Hi & Hd).
    split_and!; [done | simpl; by rewrite Hi |]. intros Hmt. simpl in *. rewrite Hm in Hmt. rewrite (Hd Hmt).
    by apply HA.
Qed.

Lemma inv_fetch t0 w :
  wf w -> Forall (fun r => r_status r = Hung) (inflight t0) ->
  seq_inv (match answer_of (run perform (Server.handler_of Server.ReqList) w).1 with
           | Answered r => (after_answer KFetch r t0, (run perform (Server.handler_of Server.ReqList) w).2)
           | st => (set_status 0 st (send KFetch Server.ReqList t0),
                    (run perform (Server.handler_of Server.ReqList) w).2)
           end).
Proof.
  intros Hw Hh. destruct (fetch_answer w Hw) as [Hm (r & Hr & Hd)].
  apply inv_answer; cbn [Server.handler_of]; [done | done | by rewrite Hr |].
  intros r' Hr' _ Hc. rewrite Hr in Hr'. injection Hr' as <-. rewrite Hm. by apply Hd.
Qed.

Lemma inv_create fv t0 w :
  wf w -> Forall (fun r => r_status r = Hung) (inflight t0) -> shows_table t0 w ->
  is_mounted t0 = true -> dbConnected (dash t0) = true ->
  seq_inv (match answer_of (run perform (Server.handler_of (Server.ReqCreate fuel fv)) w).1 with
           | Answered r => (after_answer (KCreate (links (dash t0))) r t0,
                            (run perform (Server.handler_of (Server.ReqCreate fuel fv)) w).2)
           | st => (set_status 0 st (send (KCreate (links (dash t0))) (Server.ReqCreate fuel fv) t0),
                    (run perform (Server.handler_of (Server.ReqCreate fuel fv)) w).2)
           end).
Proof.
  intros Hw Hh Hs Hmt Hc. pose proof (Hs Hmt Hc) as Hl.
  destruct (create_answer fuel fv w (links (dash t0)) (dash t0) Hw Hl Hl)
    as [[Ha Hm] | (r & Ha & Hd & _)];
    apply inv_answer; cbn [Server.handler_of]; try done.
  - by intros r' Hr'; rewrite Ha in Hr'.
  - by rewrite Ha.
  - intros r' Hr' _ _. rewrite Ha in Hr'. injection Hr' as <-. exact Hd.
Qed.

Lemma inv_delete c t0 w :
  wf w -> Forall (fun r => r_status r = Hung) (inflight t0) -> shows_table t0 w ->
  seq_inv (match answer_of (run perform (Server.handler_of (Server.ReqDelete c)) w).1 with
           | Answered r => (after_answer (KDelete (links (dash t0)) c) r t0,
                            (run perform (Server.handler_of (Server.ReqDelete c)) w).2)
           | st => (set_status 0 st (send (KDelete (links (dash t0)) c) (Server.ReqDelete c) t0),
                    (run perform (Server.handler_of (Server.ReqDelete c)) w).2)
           end).
Proof.
  intros Hw Hh Hs.
  destruct (is_mounted t0) eqn:Hmt.
  - destruct (delete_answer c w (links (dash t0)) (dash t0) Hw) as (r & Ha & Hd);
      [intros Hc; split; by apply Hs|].
    apply inv_answer; cbn [Server.handler_of]; [done | done | by rewrite Ha |].
    intros r' Hr' _. rewrite Ha in Hr'. injection Hr' as <-. exact Hd.
  - apply inv_answer; [done | done | | intros ? _ Hm'; by rewrite Hmt in Hm'].
    cbn [Server.handler_of]. destruct (@Admin.DELETE_run World world_store world_store_laws c w Hw) as [Ho _].
    cbn [ls_perform world_store] in Ho. intros Hh'. exfalso. rewrite Ho in Hh'. unfold Admin.delete_ref in Hh'. by repeat case_match.
Qed.

Lemma shows_update acts t w :
  forallb keeps_view acts = true -> shows_table t w -> shows_table (update acts t) w.
Proof.
  intros Ha Hs Hm Hc. destruct (apply_all_keeps acts (dash t) Ha) as [Hl Hd].
  simpl in *. rewrite Hl. rewrite Hd in Hc. by apply Hs.
Qed.

Lemma seq_quiet t w t1 w1 :
  seq_inv (t, w) -> inflight t1 = inflight t -> Store.links w1 = Store.links w -> wf w1 ->
  (shows_table t w -> shows_table t1 w) -> seq_inv (t1, w1).
Proof.
  intros (_ & Hh & Hs) Hi Hm Hw1 Hs1. split_and!; [done | simpl; by rewrite Hi |].
  simpl. unfold shows_table in *. rewrite Hm. by apply Hs1.
Qed.

Lemma submit_connected d :
  DashboardView.submit_disabled (DashboardView.render_form d) = false -> dbConnected d = true.
Proof.
  unfold DashboardView.render_form. simpl. by destruct (isSubmitting d), (String.eqb _ _), (dbConnected d).
Qed.

Lemma submit_keeps d : forallb keeps_view (handleCreateLink_submit d).1 = true.
Proof. unfold handleCreateLink_submit. by repeat case_match. Qed.

(** The events that send a request: the request is served and its
    answer handled before anything else happens. *)
Lemma seq_step_inv_request ev s s' :
  sends ev = true -> seq_inv s -> seq_step fuel env origin ev s = Some s' -> seq_inv s'.
Proof.
  destruct s as [t w]. intros Hreq Hinv Hst. pose proof Hinv as (Hw & Hh & Hs).
  destruct ev; try discriminate Hreq.
  - (* Mount *)
    destruct (life t) eqn:Hl;
      [| unfold seq_step in Hst; simpl in Hst; rewrite Hl in Hst; discriminate..].
    erewrite seq_step_send in Hst; [| simpl; rewrite Hl; reflexivity]. injection Hst as <-.
    by apply inv_fetch.
  - (* IntervalTick *)
    destruct (interval t) eqn:Hi;
      [| unfold seq_step in Hst; simpl in Hst; rewrite Hi in Hst; discriminate].
    erewrite seq_step_send in Hst; [| simpl; rewrite Hi; reflexivity]. injection Hst as <-.
    by apply inv_fetch.
  - (* Submit *)
    destruct (is_mounted t && negb (DashboardView.submit_disabled (DashboardView.render_form (dash t))))
      eqn:Hg; [|off Hg].
    apply andb_true_iff in Hg as [Hmt Hen]. apply negb_true_iff in Hen.
    pose proof (submit_keeps (dash t)) as Hk.
    destruct (handleCreateLink_submit (dash t)) as [acts [v|]] eqn:Hsub.
    + erewrite seq_step_send in Hst;
        [| cbn [step]; rewrite Hmt, Hen; simpl; rewrite Hsub; reflexivity].
      injection Hst as <-. simpl in Hk.
      replace (links (dash t)) with (links (dash (update acts t)))
        by (simpl; apply apply_all_keeps, Hk).
      apply inv_create; [done | done | by apply shows_update | done |].
      simpl. rewrite (proj2 (apply_all_keeps acts (dash t) Hk)). by apply submit_connected.
    + erewrite seq_step_quiet in Hst;
        [| cbn [step]; rewrite Hmt, Hen; simpl; rewrite Hsub; reflexivity | exact Hh].
      injection Hst as <-. apply (seq_quiet t w); [done..|]. by apply shows_update.
  - (* ClickDelete *)
    destruct (is_mounted t && row_shown c (dash t)) eqn:Hg; [|off Hg]. destruct confirmed.
    + erewrite seq_step_send in Hst; [| cbn [step]; rewrite Hg; reflexivity].
      injection Hst as <-. by apply inv_delete.
    + erewrite seq_step_quiet in Hst; [| cbn [step]; rewrite Hg; reflexivity | exact Hh].
      injection Hst as <-. done.
Qed.

(** The events that send no request. *)
Lemma seq_step_inv_quiet ev s s' :
  sends ev = false -> solo ev = true -> seq_inv s -> seq_step fuel env origin ev s = Some s' ->
  seq_inv s'.
Proof.
  destruct s as [t w]. intros Hreq Hsolo Hinv Hst. pose proof Hinv as (Hw & Hh & Hs).
  destruct ev; try discriminate Hreq; try discriminate Hsolo.
  - (* Unmount *)
    destruct (life t) eqn:Hl; [off Hl | | off Hl].
    quiet_step Hl. apply (seq_quiet t w); [done..|]. by intros _ ?.
  - (* TypeUrl *)
    destruct (is_mounted t && negb (DashboardView.inputs_disabled (DashboardView.render_form (dash t))))
      eqn:Hg; [|off Hg].
    quiet_step Hg. apply (seq_quiet t w); [done..|]. by apply shows_update.
  - (* TypeCode *)
    destruct (is_mounted t && negb (DashboardView.inputs_disabled (DashboardView.render_form (dash t)))
              && (String.length s <=? 8)) eqn:Hg; [|off Hg].
    quiet_step Hg. apply (seq_quiet t w); [done..|]. by apply shows_update.
  - (* TypeSearch *)
    destruct (is_mounted t) eqn:Hg; [|off Hg].
    quiet_step Hg. apply (seq_quiet t w); [done..|]. by apply shows_update.
  - (* ClickCopy *)
    destruct (is_mounted t && row_shown c (dash t)) eqn:Hg; [|off Hg].
    quiet_step Hg. apply (seq_quiet t w); [done..|]. by apply (shows_update [SetSuccess _]).
  - (* Timeout *)
    destruct (timers t) as [|n] eqn:Hg; [off Hg|].
    erewrite seq_step_quiet in Hst; [| cbn [step]; rewrite Hg; reflexivity | by destruct (is_mounted t)].
    injection Hst as <-. apply (seq_quiet t w); [done | by destruct (is_mounted t) | done | done |].
    destruct (is_mounted t); [|done]. intros Hs0. by apply (shows_update success_timeout) in Hs0.
  - (* DbUp *)
    erewrite seq_step_quiet in Hst; [| reflexivity | exact Hh].
    injection Hst as <-. apply (seq_quiet t w); [done | done | done | by apply Server.wf_set_up | done].
  - (* Tick *)
    destruct (0 <=? d)%Z eqn:Hg; [|off Hg].
    quiet_step Hg. apply (seq_quiet t w); [done | done | done | | done].
    apply Server.wf_tick; [lia|done].
Qed.

Lemma seq_step_inv ev s s' :
  seq_inv s -> solo ev = true -> seq_step fuel env origin ev s = Some s' -> seq_inv s'.
Proof.
  intros Hinv Hsolo Hst. destruct (sends ev) eqn:Hreq.
  - by eapply seq_step_inv_request.
  - by eapply seq_step_inv_quiet.
Qed.

Lemma seq_reachable_inv s : seq_reachable fuel env origin s -> seq_inv s.
Proof.
  induction 1 as [w Hw | ev s s' _ IH Hsolo Hst].
  - split_and!; [done | constructor | intros Hm; discriminate Hm].
  - by eapply seq_step_inv.
Qed.

(** The interval is armed only while the component is mounted. *)
Lemma step_interval_mounted ev t w s' :
  (interval t = true -> life t = Mounted) -> step fuel env origin ev t w = Some s' ->
  interval s'.1 = true -> life s'.1 = Mounted.
Proof.
  intros Ht Hst. destruct ev; cbn [step] in Hst; repeat (case_match; try discriminate);
    injection Hst as <-; simpl in *; auto; congruence.
Qed.

Lemma reachable_interval s : reachable fuel env origin s -> interval s.1 = true -> life s.1 = Mounted.
Proof.
  induction 1 as [w Hw | ev [t w] s' _ IH Hst]; [done|]. by eapply step_interval_mounted.
Qed.

(** An unmounted component stays unmounted and sends nothing. *)
Lemma step_unmounted ev s s' :
  reachable fuel env origin s -> life s.1 = Unmounted -> step fuel env origin ev s.1 s.2 = Some s' ->
  sent s'.1 = sent s.1 /\ life s'.1 = Unmounted.
Proof.
  intros Hr Hl Hst. pose proof (reachable_interval s Hr) as Hi. destruct s as [t w]. simpl in *.
  destruct (interval t) eqn:Hit; [by specialize (Hi eq_refl); rewrite Hl in Hi|].
  destruct ev; cbn [step] in Hst; unfold is_mounted in Hst; rewrite ?Hl, ?Hit in Hst; simpl in Hst;
    repeat case_match; try discriminate Hst; injection Hst as <-; simpl; rewrite ?Hl; done.
Qed.

(** C12: in a session where each request of the tab is answered before
    the next is sent and no other client writes, the dashboard lists the
    server's table, as a permutation, whenever it is mounted and believes
    the database connected: after the first load, every refresh,
    creation, deletion, failure and hung request, whatever the user
    types, copies or cancels, and however the database goes up and
    down. *)
Theorem seq_dashboard_shows_table s :
  seq_reachable fuel env origin s -> is_mounted s.1 = true -> dbConnected (dash s.1) = true ->
  links (dash s.1) ≡ₚ vals (Store.links s.2).
Proof. intros Hr. exact (proj2 (proj2 (seq_reachable_inv s Hr))). Qed.

(** C20: once the dashboard has unmounted, the cleanup of its effect
    has cleared the interval: whatever happens afterwards (answers
    arriving, timers firing, the server changing), the tab sends no
    further request. *)
Theorem unmounted_sends_nothing s evs s' :
  reachable fuel env origin s -> life s.1 = Unmounted -> exec fuel env origin evs s = Some s' ->
  sent s'.1 = sent s.1.
Proof.
  revert s. induction evs as [|ev evs IH]; intros s Hr Hl He; simpl in He; [by injection He as <-|].
  destruct (step fuel env origin ev s.1 s.2) as [s1|] eqn:Hst; [|discriminate].
  destruct (step_unmounted ev s s1 Hr Hl Hst) as [Hs Hl1]. simpl in He.
  rewrite <- Hs. apply (IH s1); [by eapply reach_step | done | done].
Qed.

End Seq.
End Proofs.

(** ** Concrete runs, with the approximate WHATWG parser *)

Import Whatwg.

(** Mount, load the list, then create [newcode1] and, before its answer
    arrives, delete [mycode1]; both requests succeed. *)
Definition overlap_events : list event :=
  [Mount; Serve 0; Deliver 0; TypeUrl "https://example.com/new"; TypeCode "newcode1"; Submit;
   ClickDelete "mycode1" true; Serve 1; Serve 0; Deliver 1; Deliver 0].

Definition overlap_final : Tab * World :=
  default (initial, Admin.world1) (exec 3 None "" overlap_events (initial, Admin.world1)).

(** C17: [handleCreateLink] and [handleDeleteLink] update the list from
    the [links] they closed over (lines 94, 117).  When a deletion is
    clicked before a creation's answer arrives, both requests succeed and
    the table holds the new link, but the deletion's answer, handled
    last, writes back the list it saw: the dashboard, mounted, connected
    and idle, shows no link at all, against the table it is meant to
    list (compare C12). *)
Theorem overlapping_delete_loses_link :
  exec 3 None "" overlap_events (initial, Admin.world1) = Some overlap_final /\
  is_mounted overlap_final.1 = true /\ dbConnected (dash overlap_final.1) = true /\
  inflight overlap_final.1 = [] /\ links (dash overlap_final.1) = [] /\
  is_Some (Store.links overlap_final.2 !! "newcode1") /\
  ~ (links (dash overlap_final.1) ≡ₚ vals (Store.links overlap_final.2)).
Proof.
  split_and!; try (vm_compute; reflexivity).
  - vm_compute. eexists. reflexivity.
  - vm_compute. intros Hp. apply Permutation_length in Hp. discriminate.
Qed.

Definition mounted_session : Tab * World :=
  default (initial, Admin.world1) (seq_step 3 None "" Mount (initial, Admin.world1)).

Lemma seq_dashboard_shows_table_witness :
  seq_reachable 3 None "" mounted_session /\ is_mounted mounted_session.1 = true /\
  dbConnected (dash mounted_session.1) = true /\
  links (dash mounted_session.1) ≡ₚ vals (Store.links mounted_session.2).
Proof.
  assert (Hr : seq_reachable 3 None "" mounted_session).
  { apply (sreach_step 3 None "" Mount (initial, Admin.world1));
      [apply sreach_init, wf_check_sound; vm_compute; reflexivity | reflexivity
      | vm_compute; reflexivity]. }
  assert (Hm : is_mounted mounted_session.1 = true) by (vm_compute; reflexivity).
  assert (Hc : dbConnected (dash mounted_session.1) = true) by (vm_compute; reflexivity).
  split_and!; [exact Hr | exact Hm | exact Hc | exact (seq_dashboard_shows_table 3 None "" _ Hr Hm Hc)].
Defined.

Definition unmounted_session : Tab * World :=
  default (initial, Admin.world1) (exec 3 None "" [Mount; Unmount] (initial, Admin.world1)).

Lemma unmounted_sends_nothing_witness :
  reachable 3 None "" unmounted_session /\ life unmounted_session.1 = Unmounted /\
  sent (default unmounted_session (exec 3 None "" [Serve 0; Deliver 0] unmounted_session)).1 =
    sent unmounted_session.1.
Proof.
  assert (Hr0 : reachable 3 None "" (initial, Admin.world1))
    by (apply reach_init, wf_check_sound; vm_compute; reflexivity).
  assert (Hr : reachable 3 None "" unmounted_session).
  { eapply (reach_step 3 None "" Unmount); [eapply (reach_step 3 None "" Mount); [exact Hr0 | reflexivity] |].
    vm_compute. reflexivity. }
  assert (Hl : life unmounted_session.1 = Unmounted) by (vm_compute; reflexivity).
  split_and!; [exact Hr | exact Hl |].
  apply (unmounted_sends_nothing 3 None "" unmounted_session [Serve 0; Deliver 0]); [exact Hr | exact Hl |].
  vm_compute. reflexivity.
Defined.

End Session.
