(* ===== verification/Routing.v ===== *)
(** * Routing: the App Router dispatch of [src/app] and the paths the pages write

    Next.js maps a request to the file of [src/app] whose folder path
    matches the request's path, static segments before dynamic ones:
    [page.tsx] (the dashboard), [code/[code]/page.tsx] (the stats page),
    [api/links/route.ts] ([GET], [POST]), [api/links/[code]/route.ts]
    ([GET], [DELETE]) and [[code]/route.ts] ([GET]).  [route] is that
    table over the path's segments, [resolve] adds the framework's
    redirect of a path with a trailing slash, and [url_path] is what the
    browser sends for an absolute URL of the page's origin.  These three
    are the framework's and the browser's behaviour (spec-modelled); the
    table itself is the folder layout of [src/app].

    The paths the code writes are its own: [fetch('/api/links')] and
    [fetch(`/api/links/${code}`)] of the pages, the stats link
    [`/code/${link.code}`], the "Back to Dashboard" links ["/"] and the
    short URL [`${baseUrl}/${code}`] of [copyToClipboard].

    Theorems: every path the pages write for a code of [isValidCode]
    reaches the handler of the spec's HTTP table with that code; a short
    URL copied from the dashboard, followed, reaches [GET /{code}] and
    redirects to the link's target while counting the click; and every
    handler creates records only under valid codes and targets
    ([prog_safe] with [creates_valid]), so in every state of the
    interleaved server every stored link is reachable through its routes
    and its redirect answers 302.  Not
    modelled: the percent-decoding of dynamic segments (the identity on
    the segments the theorems consider, which hold no ['%']), [HEAD] and
    [OPTIONS], which Next.js derives from the exported handlers, and the
    normalisation of repeated slashes. *)

From S2P Require Import Prelude JsValue Schema Utils Store Redirect Admin Server Dashboard.
Import Schema Utils Store.

Module Routing.

(** ** Requests and what they reach *)

Inductive method : Type := Get | Post | Delete | Other_method (m : string).

Inductive target : Type :=
| PageDashboard                  (** [src/app/page.tsx] *)
| PageStats (c : string)         (** [src/app/code/[code]/page.tsx] *)
| Handler (q : Server.request)   (** an exported function of a [route.ts] *)
| MethodNotAllowed               (** 405: the route exists, not the method *)
| NotFound                       (** 404 *)
| TrailingSlash (segs : list string). (** 308 to the path without its final ['/'] *)

(** ** Paths *)

(** The segments of the path after its leading ['/'], split on ['/']. *)
Fixpoint split_go (s acc : string) : list string :=
  match s with
  | EmptyString => [acc]
  | String a s' =>
      if Ascii.eqb a "/" then acc :: split_go s' ""
      else split_go s' (acc +:+ String a EmptyString)
  end.

Definition segments (rest : string) : list string :=
  if String.eqb rest "" then [] else split_go rest "".

(** A page answers [GET]. *)
Definition page (m : method) (t : target) : target :=
  match m with Get => t | _ => MethodNotAllowed end.

(** The folder layout of [src/app]; [body] and [fuel] are those of the
    [POST] request ([Server.ReqCreate]). *)
Definition route (m : method) (segs : list string) (body : option Js.value) (fuel : nat)
    : target :=
  match segs with
  | [] => page m PageDashboard
  | [c] =>
      match m with Get => Handler (Server.ReqRedirect c) | _ => MethodNotAllowed end
  | [s1; s2] =>
      if String.eqb s1 "api" && String.eqb s2 "links" then
        match m with
        | Get => Handler Server.ReqList
        | Post => Handler (Server.ReqCreate fuel body)
        | _ => MethodNotAllowed
        end
      else if String.eqb s1 "code" then page m (PageStats s2)
      else NotFound
  | [s1; s2; c] =>
      if String.eqb s1 "api" && String.eqb s2 "links" then
        match m with
        | Get => Handler (Server.ReqGetOne c)
        | Delete => Handler (Server.ReqDelete c)
        | _ => MethodNotAllowed
        end
      else NotFound
  | _ => NotFound
  end.

(** A path: its empty segments are unmatched, except a final one, which
    the framework redirects away ([trailingSlash: false]). *)
Definition resolve (m : method) (p : string) (body : option Js.value) (fuel : nat)
    : target :=
  match p with
  | String a rest =>
      if Ascii.eqb a "/" then
        let segs := segments rest in
        if match last segs with Some s => String.eqb s "" | None => false end
        then TrailingSlash (removelast segs)
        else if existsb (String.eqb "") segs then NotFound
        else route m segs body fuel
      else NotFound
  | EmptyString => NotFound
  end.

(** ** The browser: the path it requests for an absolute URL *)

Fixpoint strip_prefix (p s : string) : option string :=
  match p, s with
  | EmptyString, _ => Some s
  | String a p', String b s' => if Ascii.eqb a b then strip_prefix p' s' else None
  | _, _ => None
  end.

Definition query_start (a : ascii) : bool := Ascii.eqb a "?" || Ascii.eqb a "#".

(** The path part: up to the query or the fragment. *)
Fixpoint path_part (s : string) : string :=
  match s with
  | EmptyString => EmptyString
  | String a s' => if query_start a then EmptyString else String a (path_part s')
  end.

(** The path requested from the server at [origin] for the URL [u], or
    [None] when [u] is not of that origin. *)
Definition url_path (origin u : string) : option string :=
  match strip_prefix origin u with
  | Some r =>
      match path_part r with
      | EmptyString => Some "/"
      | String a p => if Ascii.eqb a "/" then Some (String a p) else None
      end
  | None => None
  end.

(** ** The paths the code writes *)

(** [fetch('/api/links')] ([src/app/page.tsx] line 35). *)
Definition fetch_links : method * string := (Get, "/api/links").

(** [fetch('/api/links', { method: 'POST', ... })] (lines 81-82). *)
Definition fetch_create : method * string := (Post, "/api/links").

(** [fetch(`/api/links/${code}`, { method: 'DELETE' })] (lines 111-113). *)
Definition fetch_delete (code : string) : method * string := (Delete, "/api/links/" +:+ code).

(** [fetch(`/api/links/${code}`)] ([src/app/code/[code]/page.tsx] line 34). *)
Definition fetch_link (code : string) : method * string := (Get, "/api/links/" +:+ code).

(** [<a href={`/code/${link.code}`}>] ([src/app/page.tsx] line 275). *)
Definition stats_href (code : string) : string := "/code/" +:+ code.

(** [<a href="/">] of the stats page (lines 94, 133, 232). *)
Definition back_href : string := "/".

(** What a [fetch] of the pages reaches. *)
Definition fetch_target (mp : method * string) (body : option Js.value) (fuel : nat) : target :=
  resolve mp.1 mp.2 body fuel.

(** A segment that the router and the browser pass through unchanged:
    non-empty, without ['/'], ['?'], ['#'] or ['%']. *)
Definition seg_char (a : ascii) : bool :=
  negb (Ascii.eqb a "/" || query_start a || Ascii.eqb a "%").

Definition path_safe (c : string) : bool :=
  negb (String.eqb c "") && forallb seg_char (String.list_ascii_of_string c).

(** ** Lemmas *)

Lemma split_go_safe c acc :
  forallb seg_char (String.list_ascii_of_string c) = true -> split_go c acc = [acc +:+ c].
Proof.
  revert acc; induction c as [|a c IH]; intros acc H; simpl in *.
  - by rewrite string_app_nil_r.
  - apply andb_true_iff in H as [Ha Hc]. unfold seg_char in Ha.
    destruct (Ascii.eqb a "/"); [done|]. rewrite IH by done.
    by rewrite <- string_app_assoc.
Qed.

Lemma path_part_safe c :
  forallb seg_char (String.list_ascii_of_string c) = true -> path_part c = c.
Proof.
  induction c as [|a c IH]; intros H; simpl in *; [done|].
  apply andb_true_iff in H as [Ha Hc]. unfold seg_char in Ha.
  destruct (query_start a); [by rewrite orb_true_r in Ha|]. by rewrite IH.
Qed.

Lemma strip_prefix_app p s : strip_prefix p (p +:+ s) = Some s.
Proof. induction p as [|a p IH]; simpl; [done|]. by rewrite Ascii.eqb_refl. Qed.

(** A code of [isValidCode] is a safe segment. *)
Lemma valid_code_path_safe c : isValidCode c = true -> path_safe c = true.
Proof.
  rewrite isValidCode_ref. unfold valid_code_ref, path_safe.
  rewrite !andb_true_iff, !forallb_true_iff, Nat.leb_le. intros [[Hl _] Ha]. split.
  - destruct c; [simpl in Hl; lia | done].
  - rewrite Forall_forall in Ha |- *. intros a Hin. specialize (Ha a Hin). unfold is_alnum in Ha. unfold seg_char, query_start.
    destruct a as [[] [] [] [] [] [] [] []]; done.
Qed.

Lemma path_safe_split c :
  path_safe c = true ->
  String.eqb c "" = false /\ forallb seg_char (String.list_ascii_of_string c) = true.
Proof. unfold path_safe. rewrite andb_true_iff, negb_true_iff. done. Qed.

(** A path whose segments are all non-empty is routed by the table. *)
Lemma resolve_segments m rest body fuel :
  existsb (String.eqb "") (segments rest) = false ->
  resolve m (String "/" rest) body fuel = route m (segments rest) body fuel.
Proof.
  intros H. unfold resolve. rewrite Ascii.eqb_refl, H.
  destruct (last (segments rest)) as [s|] eqn:E; [|done].
  apply last_Some in E as [l' E]. rewrite E, existsb_app in H. simpl in H.
  destruct (String.eqb s "") eqn:Es; [|done].
  apply String.eqb_eq in Es. subst. rewrite orb_true_r in H. done.
Qed.

Lemma segments_api c :
  path_safe c = true -> segments ("api/links/" +:+ c) = ["api"; "links"; c].
Proof.
  intros [_ Hc]%path_safe_split. unfold segments. simpl. by rewrite split_go_safe.
Qed.

Lemma segments_code c :
  path_safe c = true -> segments ("code/" +:+ c) = ["code"; c].
Proof.
  intros [_ Hc]%path_safe_split. unfold segments. simpl. by rewrite split_go_safe.
Qed.

Lemma segments_one c : path_safe c = true -> segments c = [c].
Proof.
  intros [Hn Hc]%path_safe_split. unfold segments. rewrite Hn. by rewrite split_go_safe.
Qed.

Lemma existsb_empty_safe c : path_safe c = true -> String.eqb "" c = false.
Proof. intros [Hn _]%path_safe_split. by rewrite String.eqb_sym. Qed.

Lemma resolve_api m c body fuel :
  path_safe c = true ->
  resolve m ("/api/links/" +:+ c) body fuel = route m ["api"; "links"; c] body fuel.
Proof.
  intros Hc. change ("/api/links/" +:+ c) with (String "/" ("api/links/" +:+ c)).
  rewrite resolve_segments; rewrite segments_api by done; [done|].
  cbn [existsb]; by rewrite (existsb_empty_safe c).
Qed.

(** The path of the short URL of [copyToClipboard], when its base is the
    page's origin. *)
Lemma url_path_short env origin c :
  Dashboard.baseUrl env origin = origin -> path_safe c = true ->
  url_path origin (Dashboard.shortUrl env origin c) = Some ("/" +:+ c).
Proof.
  intros Hb Hc. pose proof (path_safe_split c Hc) as [_ Hs].
  unfold url_path, Dashboard.shortUrl. rewrite Hb, strip_prefix_app. simpl.
  by rewrite path_part_safe.
Qed.

Lemma resolve_short m c body fuel :
  path_safe c = true -> resolve m ("/" +:+ c) body fuel = route m [c] body fuel.
Proof.
  intros Hc. change ("/" +:+ c) with (String "/" c).
  rewrite resolve_segments; rewrite segments_one by done; [done|].
  cbn [existsb]; by rewrite (existsb_empty_safe c).
Qed.

(** The paths the pages write for one code. *)
Lemma code_routes c body fuel :
  path_safe c = true ->
  fetch_target (fetch_delete c) body fuel = Handler (Server.ReqDelete c) /\
  fetch_target (fetch_link c) body fuel = Handler (Server.ReqGetOne c) /\
  resolve Get (stats_href c) body fuel = PageStats c /\
  (forall env origin, Dashboard.baseUrl env origin = origin ->
     url_path origin (Dashboard.copyToClipboard env origin c).1 = Some ("/" +:+ c) /\
     resolve Get ("/" +:+ c) body fuel = Handler (Server.ReqRedirect c)).
Proof.
  intros Hc. unfold fetch_target, fetch_delete, fetch_link; cbn [fst snd].
  rewrite !resolve_api by done. split_and!; try done.
  - unfold stats_href. change ("/code/" +:+ c) with (String "/" ("code/" +:+ c)).
    rewrite resolve_segments; rewrite segments_code by done; [done|].
    cbn [existsb]; by rewrite (existsb_empty_safe c).
  - intros env origin Hb. cbn [fst Dashboard.copyToClipboard].
    by rewrite url_path_short, resolve_short.
Qed.

(** C31: the paths the pages write reach the routes of the spec's HTTP
    table (section 6): for every code [c] that passes [isValidCode], the
    dashboard's [fetch('/api/links')] reaches the listing and its [POST]
    the creation, its [DELETE /api/links/${c}] the deletion of [c], the
    stats page's [fetch(`/api/links/${c}`)] the lookup of [c], the stats
    link [`/code/${c}`] the stats page of [c] and the "Back to Dashboard"
    link the dashboard. *)
Theorem app_routes c body fuel :
  isValidCode c = true ->
  fetch_target fetch_links body fuel = Handler Server.ReqList /\
  fetch_target fetch_create body fuel = Handler (Server.ReqCreate fuel body) /\
  fetch_target (fetch_delete c) body fuel = Handler (Server.ReqDelete c) /\
  fetch_target (fetch_link c) body fuel = Handler (Server.ReqGetOne c) /\
  resolve Get (stats_href c) body fuel = PageStats c /\
  resolve Get back_href body fuel = PageDashboard.
Proof.
  intros Hv. destruct (code_routes c body fuel (valid_code_path_safe c Hv)) as (? & ? & ? & _).
  split_and!; done.
Qed.

Section Follow.
Context `{UrlParser} {W : Type} `{LinkStoreLaws W}.

(** C34: a short URL copied from the dashboard, followed, redirects: when
    the base of [copyToClipboard] is the page's origin (no
    [NEXT_PUBLIC_BASE_URL], or that origin) and the link's code passes
    [isValidCode], the browser requests the path [/{code}], the router
    hands it to [GET] of [[code]/route.ts] with that code, and against a
    store satisfying the contract, up and holding the link with a counter
    that can grow, the handler answers 302 to the serialised target and
    counts the click. *)
Theorem copied_link_redirects env origin c l loc (w : W) body fuel :
  Dashboard.baseUrl env origin = origin -> isValidCode c = true ->
  ls_inv w -> ls_up w = true -> ls_links w !! c = Some l ->
  (0 <= clicks l < int4_max)%Z -> url_href (targetUrl l) = Some loc ->
  exists p q w',
    url_path origin (Dashboard.copyToClipboard env origin c).1 = Some p /\
    resolve Get p body fuel = Handler q /\
    run ls_perform (Server.handler_of q) w = (Normal (RRedirect 302 loc), w') /\
    ls_links w' = <[c := clicked l (clicks l + 1) (ls_clock w) (ls_clock w)]> (ls_links w).
Proof.
  intros Hb Hv Hi Hu Hl Hc Hloc. pose proof (valid_code_path_safe c Hv) as Hs.
  destruct (Redirect.GET_known_run c l loc w Hi Hu Hl Hc Hloc) as (w' & Hr & Hw).
  exists ("/" +:+ c), (Server.ReqRedirect c), w'. cbn [fst Dashboard.copyToClipboard].
  rewrite url_path_short, resolve_short by done. done.
Qed.

End Follow.

(** ** Every stored code is routable

    The handlers create records only under codes of [isValidCode]: a
    supplied code is tested, a generated one is drawn from the alphabet.
    So in every state of the interleaved server every stored code is a
    safe path segment, and the pages' paths for it reach its routes. *)

Definition codes_valid (w : World) : Prop :=
  map_Forall (fun c _ => isValidCode c = true) (links w).

Section Safety.
Context `{UrlParser}.

(** Every stored target passes [isValidUrl]. *)
Definition targets_valid (w : World) : Prop :=
  map_Forall (fun _ l => isValidUrl (targetUrl l) = true) (links w).

(** An effect stores a record only under a code that passes
    [isValidCode] and with a target that passes [isValidUrl]. *)
Definition creates_valid (e : eff) : Prop :=
  match e with
  | Create c u => (forall s, as_string c = Some s -> isValidCode s = true) /\
                  (forall v, as_string u = Some v -> isValidUrl v = true)
  | _ => True
  end.

(** What the store answers: [Math.random()] is a draw of [0, 1). *)
Definition world_answer (e : eff) : exn + ans e -> Prop :=
  match e as e0 return exn + ans e0 -> Prop with
  | Random => fun r => match r with inr k => draw_ok k | inl _ => True end
  | _ => fun _ => True
  end.

Abbreviation safe := (prog_safe creates_valid world_answer).

(** A property of every stored record, and handlers that keep it. *)
Definition sys_inv (P : string -> Link -> Prop) (s : Server.Sys) : Prop :=
  map_Forall P (links (Server.sys_world s)) /\ Forall (safe (fun _ => True)) (Server.sys_threads s).

Lemma call_bind_safe {B} (e : eff) (f : ans e -> handler B) (Q : B -> Prop) :
  creates_valid e -> (forall a, safe Q (f a)) -> safe Q (x ← call e; f x).
Proof.
  intros He Hf. apply (prog_safe_mbind _ _ (fun _ => True)); [by apply prog_safe_call|].
  intros a _. apply Hf.
Qed.

Ltac safe_auto :=
  repeat match goal with
  | |- prog_safe _ _ _ (catch _ _) => apply prog_safe_catch; [|intros]
  | |- prog_safe _ _ _ (mbind _ (call _)) =>
      apply call_bind_safe; [simpl; auto | intros ?]
  | |- prog_safe _ _ _ (mret _) => apply prog_safe_ret; simpl; auto
  | |- prog_safe _ _ _ (Throw _) => exact I
  | |- _ => progress case_match
  end.

Lemma perform_answer e w : world_answer e (perform e w).1.
Proof.
  destruct e; simpl; try done. unfold draw_ok. apply Z.mod_pos_bound.
  unfold random_den. lia.
Qed.

Lemma perform_codes e w : creates_valid e -> codes_valid w -> codes_valid (perform e w).2.
Proof.
  intros He Hw. unfold codes_valid in *.
  destruct e; simpl in *; unfold db_find, db_create, db_update, db_delete, db_find_many,
    failed, random in *; repeat case_match; simplify_eq; simpl; try done.
  - apply map_Forall_insert_2; [by apply (proj1 He) | done].
  - apply map_Forall_insert_2; [by apply (Hw _ l) | done].
  - by apply map_Forall_delete.
Qed.

Lemma perform_targets e w : creates_valid e -> targets_valid w -> targets_valid (perform e w).2.
Proof.
  intros He Hw. unfold targets_valid in *.
  destruct e; simpl in *; unfold db_find, db_create, db_update, db_delete, db_find_many,
    failed, random in *; repeat case_match; simplify_eq; simpl; try done.
  - apply map_Forall_insert_2; [by apply (proj2 He) | done].
  - apply map_Forall_insert_2; [by apply (Hw s l) | done].
  - by apply map_Forall_delete.
Qed.

Lemma call_random_safe : safe draw_ok (call Random).
Proof. split; [done|]. by intros [x|k]. Qed.

Lemma gen_chars_S n acc :
  gen_chars (S n) acc = (k ← call Random; gen_chars n (draw_step acc k)).
Proof. reflexivity. Qed.

Lemma gen_chars_safe n acc :
  safe (fun s => String.length s = String.length acc + n /\
                 forallb is_alnum (String.list_ascii_of_string s) =
                 forallb is_alnum (String.list_ascii_of_string acc)) (gen_chars n acc).
Proof.
  revert acc. induction n as [|n IH]; intros acc.
  - simpl. split; [lia | done].
  - rewrite gen_chars_S. apply (prog_safe_mbind _ _ draw_ok); [apply call_random_safe|]. intros k Hk.
    destruct (draw_step_alnum acc k Hk) as [Hl Ha].
    eapply prog_safe_weaken; [apply (IH (draw_step acc k))|]. intros s [Hs Hs'].
    split; [lia | congruence].
Qed.

Lemma generateRandomCode_safe : safe (fun s => isValidCode s = true) (generateRandomCode default_code_length).
Proof.
  eapply prog_safe_weaken; [apply gen_chars_safe|]. intros s [Hl Ha]. simpl in Hl.
  rewrite isValidCode_ref. unfold valid_code_ref. rewrite Hl, Ha. done.
Qed.

Lemma gen_loop_safe fuel sc :
  isValidCode sc = true -> safe (fun s => isValidCode s = true) (Admin.gen_loop fuel sc).
Proof.
  revert sc. induction fuel as [|fuel IH]; intros sc Hsc; [done|]. cbn [Admin.gen_loop].
  apply call_bind_safe; [done|]. intros [l|].
  - eapply prog_safe_bind; [apply generateRandomCode_safe|]. exact IH.
  - done.
Qed.

Lemma gen_unique_safe fuel : safe (fun s => isValidCode s = true) (Admin.gen_unique fuel).
Proof. eapply prog_safe_bind; [apply generateRandomCode_safe | apply gen_loop_safe]. Qed.

Lemma create_link_safe sc tu :
  (forall s, as_string sc = Some s -> isValidCode s = true) ->
  (forall v, as_string tu = Some v -> isValidUrl v = true) ->
  safe (fun _ => True) (Admin.create_link sc tu).
Proof. intros Hs Hu. unfold Admin.create_link. safe_auto. Qed.

(** A value the Prisma client accepts is the string [ToString] gives. *)
Lemma as_string_to_string v s : as_string v = Some s -> Js.to_string v = s.
Proof. destruct v; try discriminate. intros [= <-]. apply Js.to_string_str. Qed.

Lemma create_custom_safe c tu :
  isValidCode (Js.to_string c) = true -> isValidUrl (Js.to_string tu) = true ->
  safe (fun _ => True) (Admin.create_link c tu).
Proof.
  intros Hc Hu. apply create_link_safe; intros s Hs; by rewrite <- (as_string_to_string _ _ Hs).
Qed.

Lemma gen_create_safe fuel tu :
  isValidUrl (Js.to_string tu) = true ->
  safe (fun _ => True) (sc ← Admin.gen_unique fuel; Admin.create_link (Js.JStr sc) tu).
Proof.
  intros Hu. eapply prog_safe_mbind; [apply gen_unique_safe|]. intros sc Hsc.
  apply create_link_safe; [by intros s [= <-] |].
  intros s Hs. by rewrite <- (as_string_to_string _ _ Hs).
Qed.

Lemma POST_safe fuel body : safe (fun _ => True) (Admin.POST fuel body).
Proof.
  unfold Admin.POST. apply prog_safe_catch; [|done].
  apply (prog_safe_mbind _ _ (fun _ => True)); [by destruct body|]. intros v _.
  apply (prog_safe_mbind _ _ (fun _ => True)); [unfold Admin.read_fields; by case_match|].
  intros [tu c] _. safe_auto.
  all: repeat match goal with H : negb _ = false |- _ => apply negb_false_iff in H end.
  all: first [ apply gen_create_safe; assumption | apply create_custom_safe; assumption ].
Qed.


Lemma handler_safe q : safe (fun _ => True) (Server.handler_of q).
Proof.
  destruct q; cbn [Server.handler_of].
  - unfold Redirect.GET. safe_auto.
  - apply POST_safe.
  - unfold Admin.GET_list. safe_auto.
  - unfold Admin.GET_one. safe_auto.
  - unfold Admin.DELETE. safe_auto.
Qed.

Section Inv.
Variable P : string -> Link -> Prop.
Hypothesis perform_P : forall e w,
  creates_valid e -> map_Forall P (links w) -> map_Forall P (links (perform e w).2).

Lemma step_sys_inv s s' : Server.step s s' -> sys_inv P s -> sys_inv P s'.
Proof.
  intros Hs [Hw Ht].
  destruct Hs as [w ts i e k r w' Hi He | w ts d Hd | w ts b | w ts q]; simpl in *.
  - destruct (Forall_lookup_1 _ _ _ _ Ht Hi) as [Hpe Hk].
    pose proof (perform_answer e w) as Ha. pose proof (perform_P e w Hpe Hw) as Hc.
    rewrite He in Ha, Hc. split; [done|]. apply Forall_insert; [done|]. by apply Hk.
  - done.
  - done.
  - split; [done|]. apply Forall_app. split; [done|]. constructor; [apply handler_safe | done].
Qed.

(** From a table where [P] holds and no request in flight. *)
Lemma reachable_sys_inv s0 s :
  Server.reachable s0 s -> map_Forall P (links (Server.sys_world s0)) ->
  Server.sys_threads s0 = [] -> map_Forall P (links (Server.sys_world s)).
Proof.
  intros Hr Hw0 Ht0. assert (Hi : sys_inv P s0) by (split; [done | by rewrite Ht0]).
  clear Hw0 Ht0. induction Hr as [|s1 s2 s3 Hs _ IH]; [apply Hi|].
  apply IH. by eapply step_sys_inv.
Qed.
End Inv.

(** C33: every link the server stores can be reached through its routes:
    in every state reachable from a table of valid codes by interleaving
    requests (each handler at its [await]s), clock ticks and connection
    changes, every stored code passes [isValidCode], since a supplied
    code is tested and a generated one is drawn from the alphabet; hence
    the dashboard's [DELETE], the stats page's lookup, the stats link and
    the copied short URL of that code reach its handlers. *)
Theorem reachable_codes_routed s0 s c l body fuel :
  Server.reachable s0 s -> codes_valid (Server.sys_world s0) -> Server.sys_threads s0 = [] ->
  links (Server.sys_world s) !! c = Some l ->
  isValidCode c = true /\
  fetch_target (fetch_delete c) body fuel = Handler (Server.ReqDelete c) /\
  fetch_target (fetch_link c) body fuel = Handler (Server.ReqGetOne c) /\
  resolve Get (stats_href c) body fuel = PageStats c /\
  (forall env origin, Dashboard.baseUrl env origin = origin ->
     url_path origin (Dashboard.copyToClipboard env origin c).1 = Some ("/" +:+ c) /\
     resolve Get ("/" +:+ c) body fuel = Handler (Server.ReqRedirect c)).
Proof.
  intros Hr Hw0 Ht0 Hl.
  pose proof (reachable_sys_inv _ perform_codes s0 s Hr Hw0 Ht0 c l Hl) as Hv. split; [done|].
  apply code_routes, valid_code_path_safe, Hv.
Qed.
(** C9: in every state the interleaved server reaches from a
    well-formed table whose targets pass [isValidUrl], with no request
    in flight, every stored link redirects: [POST] stores a target only
    after [isValidUrl] accepted it, so [GET /{code}] of a stored code,
    while the database is up and the counter can grow, answers 302 to the
    serialised target (never the 500 of an unparsable target) and counts
    one click. *)
Theorem reachable_redirects s0 s c l :
  Server.reachable s0 s -> wf (Server.sys_world s0) -> targets_valid (Server.sys_world s0) ->
  Server.sys_threads s0 = [] ->
  db_up (Server.sys_world s) = true -> links (Server.sys_world s) !! c = Some l ->
  (0 <= clicks l < int4_max)%Z ->
  exists loc w', url_href (targetUrl l) = Some loc /\
    run perform (Redirect.GET c) (Server.sys_world s) = (Normal (RRedirect 302 loc), w') /\
    links w' = <[c := clicked l (clicks l + 1) (clock (Server.sys_world s))
                   (clock (Server.sys_world s))]> (links (Server.sys_world s)).
Proof.
  intros Hr Hwf Ht0 Hth Hup Hl Hc.
  pose proof (reachable_sys_inv _ perform_targets s0 s Hr Ht0 Hth c l Hl) as Hv.
  unfold isValidUrl in Hv. destruct (url_href (targetUrl l)) as [loc|] eqn:Hloc; [|done].
  destruct (@Redirect.GET_known_run _ World world_store world_store_laws c l loc
              (Server.sys_world s) (Server.reachable_wf s0 s Hr Hwf) Hup Hl Hc Hloc)
    as (w' & Hrun & Hw'). by exists loc, w'.
Qed.

End Safety.

(** ** Concrete paths, with the approximate WHATWG parser *)

Import Whatwg.

Definition origin0 : string := "https://tinylink.app".

Lemma app_routes_witness :
  fetch_target fetch_links None 3 = Handler Server.ReqList /\
  fetch_target fetch_create None 3 = Handler (Server.ReqCreate 3 None) /\
  fetch_target (fetch_delete "abc123") None 3 = Handler (Server.ReqDelete "abc123") /\
  fetch_target (fetch_link "abc123") None 3 = Handler (Server.ReqGetOne "abc123") /\
  resolve Get (stats_href "abc123") None 3 = PageStats "abc123" /\
  resolve Get back_href None 3 = PageDashboard.
Proof. apply (app_routes "abc123" None 3). vm_compute. reflexivity. Defined.

Lemma copied_link_redirects_witness :
  exists p q w',
    url_path origin0 (Dashboard.copyToClipboard None origin0 "abc123").1 = Some p /\
    resolve Get p None 3 = Handler q /\
    run ls_perform (Server.handler_of q) (Redirect.sample_world "https://example.com/a" 0) =
      (Normal (RRedirect 302 "https://example.com/a"), w') /\
    ls_links w' =
      <[ "abc123" := clicked (Redirect.sample_link "https://example.com/a" 0)
                       (clicks (Redirect.sample_link "https://example.com/a" 0) + 1)
                       (ls_clock (Redirect.sample_world "https://example.com/a" 0))
                       (ls_clock (Redirect.sample_world "https://example.com/a" 0)) ]>
        (ls_links (Redirect.sample_world "https://example.com/a" 0)).
Proof.
  apply (copied_link_redirects None origin0 "abc123" (Redirect.sample_link "https://example.com/a" 0));
    [reflexivity | vm_compute; reflexivity | apply wf_check_sound; vm_compute; reflexivity
    | reflexivity | reflexivity | unfold int4_max; simpl; lia | vm_compute; reflexivity].
Defined.


(** A creation without a code from an empty table, run to its end. *)
Definition post_request : Server.request :=
  Server.ReqCreate 3 (Some (Js.JObj [("targetUrl", Js.JStr "https://example.com/a")])).

Definition after_post : Server.Sys :=
  Server.exec_sched (repeat 0 10) (Server.mkSys Admin.world0 [Server.handler_of post_request]).

Definition generated : Link := mkLink 0 "AAAAAA" "https://example.com/a" 0 1000 None 1000.

Lemma reachable_codes_routed_witness :
  isValidCode "AAAAAA" = true /\
  fetch_target (fetch_delete "AAAAAA") None 3 = Handler (Server.ReqDelete "AAAAAA") /\
  fetch_target (fetch_link "AAAAAA") None 3 = Handler (Server.ReqGetOne "AAAAAA") /\
  resolve Get (stats_href "AAAAAA") None 3 = PageStats "AAAAAA" /\
  (forall env origin, Dashboard.baseUrl env origin = origin ->
     url_path origin (Dashboard.copyToClipboard env origin "AAAAAA").1 = Some ("/" +:+ "AAAAAA") /\
     resolve Get ("/" +:+ "AAAAAA") None 3 = Handler (Server.ReqRedirect "AAAAAA")).
Proof.
  apply (reachable_codes_routed (Server.mkSys Admin.world0 []) after_post "AAAAAA" generated).
  - eapply rtc_l; [apply (Server.step_arrive _ [] post_request) | apply Server.exec_sched_star].
  - apply map_Forall_empty.
  - reflexivity.
  - vm_compute. reflexivity.
Defined.

Lemma reachable_redirects_witness :
  exists loc w', url_href (targetUrl generated) = Some loc /\
    run perform (Redirect.GET "AAAAAA") (Server.sys_world after_post) =
      (Normal (RRedirect 302 loc), w') /\
    links w' = <[ "AAAAAA" := clicked generated (clicks generated + 1)
                   (clock (Server.sys_world after_post)) (clock (Server.sys_world after_post)) ]>
                 (links (Server.sys_world after_post)).
Proof.
  apply (reachable_redirects (Server.mkSys Admin.world0 []) after_post "AAAAAA" generated).
  - eapply rtc_l; [apply (Server.step_arrive _ [] post_request) | apply Server.exec_sched_star].
  - apply Admin.world0_wf.
  - apply map_Forall_empty.
  - reflexivity.
  - vm_compute. reflexivity.
  - vm_compute. reflexivity.
  - unfold int4_max. simpl. lia.
Defined.

End Routing.
